(** * pwkit.mathlib: broadcasting, provider resolution and the tidying adapter

    A shallow embedding of [src/pwkit/mathlib.py].  Python exceptions are the
    [Err] branch of [result]; calls into a math-function library (the
    provider, Python's [self]) are nodes of a small program tree that a
    handler interprets over a world. *)

From stdpp Require Import base tactics option list numbers strings gmap.
From Stdlib Require Import ZArith Lia.

Local Open Scope Z_scope.

(** ** Exceptions and results *)

Inductive exn : Type :=
| ValueError (msg : string)
| IndexError (msg : string)
| KeyError (msg : string)
| AttributeError (msg : string)
| TypeError (msg : string)
| NotImplementedError (msg : string).

Inductive result (A : Type) : Type :=
| Ok (a : A)
| Err (e : exn).
Arguments Ok {A} a.
Arguments Err {A} e.

#[global] Instance result_ret : MRet result := fun _ a => Ok a.
#[global] Instance result_bind : MBind result := fun _ _ f m =>
  match m with Ok a => f a | Err e => Err e end.
#[global] Instance result_fmap : FMap result := fun _ _ f m =>
  match m with Ok a => Ok (f a) | Err e => Err e end.

#[global] Instance exn_eq_dec : EqDecision exn.
Proof. solve_decision. Defined.
#[global] Instance result_eq_dec {A} `{EqDecision A} : EqDecision (result A).
Proof. solve_decision. Defined.

Definition is_ok {A} (r : result A) : bool :=
  match r with Ok _ => true | Err _ => false end.

(** ** [broadcast_shapes] *)

Module Broadcast.

(** A shape is a Python tuple of integers. *)
Abbreviation shape := (list Z).

Definition shape_mismatch : exn :=
  ValueError "shape mismatch: objects cannot be broadcast to a single shape".

(** [np.max] of a list of lengths; numpy refuses an empty list. *)
Definition np_max (l : list nat) : result nat :=
  match l with
  | [] => Err (ValueError "zero-size array to reduction operation maximum which has no identity")
  | _ :: _ => Ok (max_list l)
  end.

(** [(1,) * (maxlen - len (s)) + s] *)
Definition pad (maxlen : nat) (s : shape) : shape :=
  replicate (maxlen - length s) 1 ++ s.

(** The two-dimensional array [padded]; [padded[j,i]] raises out of range. *)
Abbreviation store := (list (list Z)).

Definition out_of_bounds : exn := IndexError "index out of bounds".

Definition get2 (padded : store) (j i : nat) : result Z :=
  match padded !! j with
  | Some row => match row !! i with
                | Some x => Ok x
                | None => Err out_of_bounds
                end
  | None => Err out_of_bounds
  end.

Definition set2 (padded : store) (j i : nat) (x : Z) : result store :=
  match padded !! j with
  | Some row => if decide (i < length row)%nat
                then Ok (<[j := <[i := x]> row]> padded)
                else Err out_of_bounds
  | None => Err out_of_bounds
  end.

Definition get_row (padded : store) (j : nat) : result (list Z) :=
  match padded !! j with
  | Some row => Ok row
  | None => Err out_of_bounds
  end.

(** [result = padded[0]] is a view: [result[i]] reads and writes row 0 of
    the store itself. *)
Definition result_get (padded : store) (i : nat) : result Z := get2 padded 0 i.
Definition result_set (padded : store) (i : nat) (x : Z) : result store :=
  set2 padded 0 i x.

(** [for k in range (...)] over a state, stopping at the first exception. *)
Fixpoint for_range {S : Type} (ks : list nat) (body : nat → S → result S)
    (s : S) : result S :=
  match ks with
  | [] => Ok s
  | k :: ks' => match body k s with
                | Ok s' => for_range ks' body s'
                | Err e => Err e
                end
  end.

(** The body of the inner loop, for position [i] and input [j]. *)
Definition inner_body (i j : nat) (padded : store) : result store :=
  x ← get2 padded j i;
  if bool_decide (x ≠ 1) then
    r ← result_get padded i;
    if bool_decide (r = 1) then result_set padded i x
    else
      r' ← result_get padded i;
      if bool_decide (r' ≠ x) then Err shape_mismatch else Ok padded
  else Ok padded.

(** [broadcast_shapes on the shapes passed], on sizes that the array
    [padded] holds exactly: numpy makes an int64 array of integers that all
    fit a signed 64-bit word, as the sizes of arrays do, and this is the
    function on such an array.  [NumpyArray.broadcast_shapes] below models
    the conversion to an array as well, and the two are proved to agree on
    these sizes.  [tuple (result)] reads row 0 of the store after the
    loops. *)
Definition broadcast_shapes (shapes : list shape) : result shape :=
  maxlen ← np_max (length <$> shapes);
  let padded : store := pad maxlen <$> shapes in
  _ ← get_row padded 0;
  padded' ← for_range (seq 0 maxlen)
              (λ i, for_range (seq 1 (length shapes - 1)) (inner_body i))
              padded;
  get_row padded' 0.

(** *** Position-wise reading of the loops

    The functions below are not in the source: they describe, position by
    position, what the two nested loops compute, and the loops are proved
    equal to them ([broadcast_shapes_columns]). *)

(** One pass of the inner-loop body on the sizes alone: [r] is [result[i]]
    and [x] is [padded[j,i]]. *)
Definition merge1 (r x : Z) : result Z :=
  if bool_decide (x ≠ 1) then
    if bool_decide (r = 1) then Ok x
    else if bool_decide (r ≠ x) then Err shape_mismatch else Ok r
  else Ok r.

Fixpoint col_merge (r : Z) (xs : list Z) : result Z :=
  match xs with
  | [] => Ok r
  | x :: xs' => r' ← merge1 r x; col_merge r' xs'
  end.

Definition column (i : nat) (rows : store) : list Z :=
  (λ row, nth i row 1) <$> rows.

Fixpoint collect {A B : Type} (f : A → result B) (l : list A) : result (list B) :=
  match l with
  | [] => Ok []
  | a :: l' => b ← f a; bs ← collect f l'; Ok (b :: bs)
  end.

Definition broadcast_columns (shapes : list shape) : result shape :=
  match shapes with
  | [] => Err (ValueError "zero-size array to reduction operation maximum which has no identity")
  | s0 :: rest =>
      let n := max_list (length <$> shapes) in
      collect (λ i, col_merge (nth i (pad n s0) 1) (column i (pad n <$> rest)))
              (seq 0 n)
  end.

(** [v] summarises the sizes [l] found at one position. *)
Definition summarises (v : Z) (l : list Z) : Prop :=
  (v = 1 ∧ Forall (λ d, d = 1) l) ∨
  (v ≠ 1 ∧ v ∈ l ∧ Forall (λ d, d = 1 ∨ d = v) l).

Definition conflicting (l : list Z) : Prop :=
  ∃ d d', d ∈ l ∧ d' ∈ l ∧ d ≠ 1 ∧ d' ≠ 1 ∧ d ≠ d'.

End Broadcast.

(** ** [broadcast_shapes] with the conversion to a numpy array

    [padded = np.array ([...])] converts the padded shapes to an array, and
    the element type numpy chooses depends on the sizes: integers that all
    fit a signed 64-bit word give an int64 array, integers from [2 ** 63] up
    to [2 ** 64 - 1] alone give a uint64 array, the two kinds together give
    a float64 array (whose elements are rounded to 53 significant bits), and
    an integer outside both ranges makes an array of Python objects.  The
    tuple returned holds the elements of the array's first row, so a shape
    handed to the function can hold numpy scalars of an earlier result as
    well as Python integers. *)

Module NumpyArray.
Import Broadcast.

(** An element of a shape: a Python integer, or a numpy scalar with its
    value (a float64 that occurs here has an integer value). *)
Inductive scalar : Type :=
| py_int (z : Z)
| np_int64 (z : Z)
| np_uint64 (z : Z)
| np_float64 (z : Z).

#[global] Instance scalar_eq_dec : EqDecision scalar.
Proof. solve_decision. Defined.

Definition value (s : scalar) : Z :=
  match s with py_int z | np_int64 z | np_uint64 z | np_float64 z => z end.

(** The element types [np.array] can choose here. *)
Inductive dtype : Type := dt_int64 | dt_uint64 | dt_float64 | dt_object.

Definition fits_int64 (z : Z) : bool := bool_decide (- 2 ^ 63 ≤ z < 2 ^ 63).
Definition fits_uint64 (z : Z) : bool := bool_decide (0 ≤ z < 2 ^ 64).

(** The type numpy finds for one element: a Python integer is a C long
    (of 64 bits, as on the platforms where numpy's default integer is
    int64) if it fits, else an unsigned 64-bit integer if it fits, else an
    object; a numpy scalar has its own type. *)
Definition discover (s : scalar) : dtype :=
  match s with
  | py_int z => if fits_int64 z then dt_int64
                else if fits_uint64 z then dt_uint64 else dt_object
  | np_int64 _ => dt_int64
  | np_uint64 _ => dt_uint64
  | np_float64 _ => dt_float64
  end.

(** numpy's promotion of two of these types: int64 with uint64 is float64. *)
Definition promote (a b : dtype) : dtype :=
  match a, b with
  | dt_object, _ | _, dt_object => dt_object
  | dt_int64, dt_int64 => dt_int64
  | dt_uint64, dt_uint64 => dt_uint64
  | _, _ => dt_float64
  end.

(** The element type of the array; an array without elements is float64. *)
Definition common_type (l : list scalar) : dtype :=
  match l with
  | [] => dt_float64
  | s :: l' => foldl (λ d s', promote d (discover s')) (discover s) l'
  end.

(** The multiple of [q] nearest to [a], the even one of two equally near. *)
Definition round_half_even (a q : Z) : Z :=
  let n := a / q in
  let r := a mod q in
  if bool_decide (2 * r < q) then n * q
  else if bool_decide (q < 2 * r) then (n + 1) * q
  else if Z.even n then n * q else (n + 1) * q.

(** The float64 nearest to an integer: 53 significant bits are kept (the
    integers met in a float64 array are below [2 ** 64], far from
    overflow). *)
Definition to_float64 (z : Z) : Z :=
  let a := Z.abs z in
  if bool_decide (a < 2 ^ 53) then z
  else Z.sgn z * round_half_even a (2 ^ (Z.log2 a - 52)).

(** The element stored for [s] in an array of type [d], as it is read back;
    an object array stores the object itself. *)
Definition cast (d : dtype) (s : scalar) : scalar :=
  match d with
  | dt_int64 => np_int64 (value s)
  | dt_uint64 => np_uint64 (value s)
  | dt_float64 => np_float64 (to_float64 (value s))
  | dt_object => s
  end.

(** [np.array (rows)] for rows of one length. *)
Definition np_array (rows : list (list scalar)) : list (list scalar) :=
  let d := common_type (concat rows) in
  (λ row : list scalar, cast d <$> row) <$> rows.

(** [a != b]: with a float64 on either side both are compared as float64,
    integers are compared by value. *)
Definition ne (a b : scalar) : bool :=
  match a, b with
  | np_float64 _, _ | _, np_float64 _ =>
      bool_decide (to_float64 (value a) ≠ to_float64 (value b))
  | _, _ => bool_decide (value a ≠ value b)
  end.

(** [a == b] *)
Definition eq (a b : scalar) : bool := negb (ne a b).

(** [(1,) * (maxlen - len (s)) + s] *)
Definition pad (maxlen : nat) (s : list scalar) : list scalar :=
  replicate (maxlen - length s) (py_int 1) ++ s.

Definition get2 (padded : list (list scalar)) (j i : nat) : result scalar :=
  match padded !! j with
  | Some row => match row !! i with
                | Some x => Ok x
                | None => Err out_of_bounds
                end
  | None => Err out_of_bounds
  end.

Definition set2 (padded : list (list scalar)) (j i : nat) (x : scalar)
    : result (list (list scalar)) :=
  match padded !! j with
  | Some row => if decide (i < length row)%nat
                then Ok (<[j := <[i := x]> row]> padded)
                else Err out_of_bounds
  | None => Err out_of_bounds
  end.

Definition get_row (padded : list (list scalar)) (j : nat)
    : result (list scalar) :=
  match padded !! j with
  | Some row => Ok row
  | None => Err out_of_bounds
  end.

(** The body of the inner loop; [result] is row 0 of the array itself. *)
Definition inner_body (i j : nat) (padded : list (list scalar))
    : result (list (list scalar)) :=
  x ← get2 padded j i;
  if ne x (py_int 1) then
    r ← get2 padded 0 i;
    if eq r (py_int 1) then set2 padded 0 i x
    else
      r' ← get2 padded 0 i;
      if ne r' x then Err shape_mismatch else Ok padded
  else Ok padded.

(** [broadcast_shapes on the shapes passed] *)
Definition broadcast_shapes (shapes : list (list scalar)) : result (list scalar) :=
  maxlen ← np_max (length <$> shapes);
  let padded := np_array (pad maxlen <$> shapes) in
  _ ← get_row padded 0;
  padded' ← for_range (seq 0 maxlen)
              (λ i, for_range (seq 1 (length shapes - 1)) (inner_body i))
              padded;
  get_row padded' 0.

(** A tuple of Python integers. *)
Definition python_ints (s : shape) : list scalar := py_int <$> s.

(** Every size fits a signed 64-bit word, as the sizes of arrays do. *)
Definition int64_sizes (s : shape) : Prop :=
  Forall (λ d, - 2 ^ 63 ≤ d < 2 ^ 63) s.

(** *** Reading an int64 array

    The definitions below are not in the source: they relate an int64 array
    to the store of exact sizes of [Broadcast]. *)

Definition is_int64 (s : scalar) : Prop := discover s = dt_int64.

Definition int64_array (p : store) : list (list scalar) :=
  (λ row : list Z, np_int64 <$> row) <$> p.

Definition sizes (shapes : list (list scalar)) : list shape :=
  (λ s : list scalar, value <$> s) <$> shapes.

End NumpyArray.

(** ** The common interface: signatures, flags and the registry *)

Module Signatures.
Inductive t : Type := std_unary | std_binary | other_1.
#[global] Instance eq_dec : EqDecision t.
Proof. solve_decision. Defined.
End Signatures.

Module Flags.
Definition none : Z := 0.
Definition has_numpy_impl : Z := Z.shiftl 1 0.
Definition bool_result : Z := Z.shiftl 1 1.
Definition ints_only : Z := Z.shiftl 1 2.
End Flags.

Notation "a .|. b" := (Z.lor a b) (at level 50, left associativity).

Record FunctionSpecification : Type := FS {
  name : string;
  signature : Signatures.t;
  flags : Z;
}.

(** The list the dictionary is built from, in source order. *)
Definition function_specifications : list FunctionSpecification := [
  FS "absolute" Signatures.std_unary (Flags.has_numpy_impl);
  FS "add" Signatures.std_binary (Flags.has_numpy_impl);
  FS "arccos" Signatures.std_unary (Flags.has_numpy_impl);
  FS "arccosh" Signatures.std_unary (Flags.has_numpy_impl);
  FS "arcsin" Signatures.std_unary (Flags.has_numpy_impl);
  FS "arcsinh" Signatures.std_unary (Flags.has_numpy_impl);
  FS "arctan" Signatures.std_unary (Flags.has_numpy_impl);
  FS "arctan2" Signatures.std_unary (Flags.has_numpy_impl);
  FS "arctanh" Signatures.std_unary (Flags.has_numpy_impl);
  FS "bitwise_and" Signatures.std_binary (Flags.has_numpy_impl .|. Flags.ints_only);
  FS "bitwise_or" Signatures.std_binary (Flags.has_numpy_impl .|. Flags.ints_only);
  FS "bitwise_xor" Signatures.std_binary (Flags.has_numpy_impl .|. Flags.ints_only);
  FS "broadcast_to" Signatures.other_1 (Flags.has_numpy_impl);
  FS "cbrt" Signatures.std_unary (Flags.has_numpy_impl);
  FS "ceil" Signatures.std_unary (Flags.has_numpy_impl);
  FS "cmask" Signatures.other_1 (Flags.bool_result);
  FS "conjugate" Signatures.std_unary (Flags.has_numpy_impl);
  FS "copysign" Signatures.std_binary (Flags.has_numpy_impl);
  FS "cos" Signatures.std_unary (Flags.has_numpy_impl);
  FS "cosh" Signatures.std_unary (Flags.has_numpy_impl);
  FS "deg2rad" Signatures.std_unary (Flags.has_numpy_impl);
  FS "divide" Signatures.std_binary (Flags.has_numpy_impl);
  FS "get_dtype" Signatures.other_1 (Flags.none);
  FS "get_size" Signatures.other_1 (Flags.none);
  FS "equal" Signatures.std_binary (Flags.has_numpy_impl .|. Flags.bool_result);
  FS "exp" Signatures.std_unary (Flags.has_numpy_impl);
  FS "exp2" Signatures.std_unary (Flags.has_numpy_impl);
  FS "expm1" Signatures.std_unary (Flags.has_numpy_impl);
  FS "fabs" Signatures.std_unary (Flags.has_numpy_impl);
  FS "floor" Signatures.std_unary (Flags.has_numpy_impl);
  FS "floor_divide" Signatures.std_binary (Flags.has_numpy_impl);
  FS "fmax" Signatures.std_binary (Flags.has_numpy_impl);
  FS "fmin" Signatures.std_binary (Flags.has_numpy_impl);
  FS "fmod" Signatures.std_binary (Flags.has_numpy_impl);
  FS "frexp" Signatures.other_1 (Flags.has_numpy_impl);
  FS "greater" Signatures.std_binary (Flags.has_numpy_impl .|. Flags.bool_result);
  FS "greater_equal" Signatures.std_binary (Flags.has_numpy_impl .|. Flags.bool_result);
  FS "hypot" Signatures.std_binary (Flags.has_numpy_impl);
  FS "invert" Signatures.std_unary (Flags.has_numpy_impl);
  FS "isfinite" Signatures.std_unary (Flags.has_numpy_impl .|. Flags.bool_result);
  FS "isinf" Signatures.std_unary (Flags.has_numpy_impl .|. Flags.bool_result);
  FS "isnan" Signatures.std_unary (Flags.has_numpy_impl .|. Flags.bool_result);
  FS "ldexp" Signatures.std_binary (Flags.has_numpy_impl);
  FS "left_shift" Signatures.std_binary (Flags.has_numpy_impl .|. Flags.ints_only);
  FS "less" Signatures.std_binary (Flags.has_numpy_impl .|. Flags.bool_result);
  FS "less_equal" Signatures.std_binary (Flags.has_numpy_impl .|. Flags.bool_result);
  FS "log" Signatures.std_unary (Flags.has_numpy_impl);
  FS "log10" Signatures.std_unary (Flags.has_numpy_impl);
  FS "log1p" Signatures.std_unary (Flags.has_numpy_impl);
  FS "log2" Signatures.std_unary (Flags.has_numpy_impl);
  FS "logaddexp" Signatures.std_binary (Flags.has_numpy_impl);
  FS "logaddexp2" Signatures.std_binary (Flags.has_numpy_impl);
  FS "logical_and" Signatures.std_binary (Flags.has_numpy_impl .|. Flags.bool_result);
  FS "logical_or" Signatures.std_binary (Flags.has_numpy_impl .|. Flags.bool_result);
  FS "logical_not" Signatures.std_unary (Flags.has_numpy_impl .|. Flags.bool_result);
  FS "logical_xor" Signatures.std_binary (Flags.has_numpy_impl .|. Flags.bool_result);
  FS "maximum" Signatures.std_binary (Flags.has_numpy_impl);
  FS "minimum" Signatures.std_binary (Flags.has_numpy_impl);
  FS "modf" Signatures.other_1 (Flags.has_numpy_impl);
  FS "multiply" Signatures.std_binary (Flags.has_numpy_impl);
  FS "negative" Signatures.std_unary (Flags.has_numpy_impl);
  FS "nextafter" Signatures.std_binary (Flags.has_numpy_impl);
  FS "not_equal" Signatures.std_binary (Flags.has_numpy_impl .|. Flags.bool_result);
  FS "power" Signatures.std_binary (Flags.has_numpy_impl);
  FS "rad2deg" Signatures.std_unary (Flags.has_numpy_impl);
  FS "reciprocal" Signatures.std_unary (Flags.has_numpy_impl);
  FS "remainder" Signatures.std_binary (Flags.has_numpy_impl);
  FS "repvals" Signatures.std_unary (Flags.none);
  FS "reshape" Signatures.other_1 (Flags.has_numpy_impl);
  FS "right_shift" Signatures.std_binary (Flags.has_numpy_impl .|. Flags.ints_only);
  FS "rint" Signatures.std_unary (Flags.has_numpy_impl);
  FS "shape" Signatures.other_1 (Flags.has_numpy_impl);
  FS "sign" Signatures.std_unary (Flags.has_numpy_impl);
  FS "signbit" Signatures.std_unary (Flags.has_numpy_impl .|. Flags.bool_result);
  FS "sin" Signatures.std_unary (Flags.has_numpy_impl);
  FS "sinh" Signatures.std_unary (Flags.has_numpy_impl);
  FS "spacing" Signatures.std_unary (Flags.has_numpy_impl);
  FS "sqrt" Signatures.std_unary (Flags.has_numpy_impl);
  FS "square" Signatures.std_unary (Flags.has_numpy_impl);
  FS "subtract" Signatures.std_binary (Flags.has_numpy_impl);
  FS "tan" Signatures.std_unary (Flags.has_numpy_impl);
  FS "tanh" Signatures.std_unary (Flags.has_numpy_impl);
  FS "true_divide" Signatures.std_binary (Flags.has_numpy_impl);
  FS "trunc" Signatures.std_unary (Flags.has_numpy_impl)
].

(** [dict ((s.name, s) for s in [...])]: a later entry replaces an earlier
    one of the same name. *)
Definition common_interface_functions : gmap string FunctionSpecification :=
  foldl (λ m fs, <[name fs := fs]> m) ∅ function_specifications.

(** [common_interface_functions[opname]] *)
Definition registry_get (opname : string) : result FunctionSpecification :=
  match common_interface_functions !! opname with
  | Some fs => Ok fs
  | None => Err (KeyError opname)
  end.

(** [flags & Flags.bool_result] as a truth value. *)
Definition has_flag (fl flag : Z) : bool := bool_decide (Z.land fl flag ≠ 0).

(** ** Libraries and operands *)

(** The classes of this module a library's class can derive from. *)
Inductive base_class : Type :=
| MathFunctionLibrary
| NumpyFunctionLibrary
| TidiedFunctionLibrary.

(** A library instance, as far as attribute lookup sees it: the name of its
    class, the class of this module it derives from, and the attributes its
    own class body defines below that class. *)
Record library : Type := Library {
  lib_class : string;
  lib_base : base_class;
  lib_own : list string;
}.

Definition numpy_library : library :=
  Library "NumpyFunctionLibrary" NumpyFunctionLibrary [].

(** What the module observes of the values it is handed, and what it takes
    from numpy.  [isinstance_numpy_types o] is [isinstance (o, numpy_types)],
    [pk_mathlib_library o] is [getattr (o, '_pk_mathlib_library_', None)],
    [accepts l o] is [l.accepts (o)], [str_of o] is the [%s] rendering of
    [o], [class_name_of o] is [o.__class__.__name__], and [numpy_has n] says
    that [getattr (np, n, None)] is not [None]. *)
Class Host : Type := {
  obj : Type;
  dtype : Type;
  kwargs : Type;
  no_kwargs : kwargs;
  np_bool : dtype;
  np_result_type : dtype → dtype → dtype;
  numpy_has : string → bool;
  isinstance_numpy_types : obj → bool;
  pk_mathlib_library : obj → option library;
  accepts : library → obj → bool;
  str_of : obj → string;
  class_name_of : obj → string;
}.

(** ** Provider resolution: [get_library_for] *)

Section Resolution.
Context {H : Host}.

(** What [get_library_for] asks of its operands, in the order it asks. *)
Inductive lookup_event : Type :=
| Isinstance (o : obj)
| GetLibraryAttr (o : obj)
| Accepts (l : library) (o : obj).

(** [all (isinstance (o, numpy_types) for o in objects)] stops at the first
    operand that is not of these types. *)
Fixpoint all_numpy_types (objects : list obj) : list lookup_event * bool :=
  match objects with
  | [] => ([], true)
  | o :: rest =>
      if isinstance_numpy_types o
      then let '(t, b) := all_numpy_types rest in (Isinstance o :: t, b)
      else ([Isinstance o], false)
  end.

(** The inner [for obj2 in objects: ... break ... else:] loop; [true] when
    the loop was not left by [break]. *)
Fixpoint accepts_all (l : library) (objects : list obj) : list lookup_event * bool :=
  match objects with
  | [] => ([], true)
  | o2 :: rest =>
      if negb (accepts l o2) then ([Accepts l o2], false)
      else let '(t, b) := accepts_all l rest in (Accepts l o2 :: t, b)
  end.

(** The outer [for obj in objects:] loop over the remaining operands. *)
Fixpoint search_libraries (objects remaining : list obj)
    : list lookup_event * option library :=
  match remaining with
  | [] => ([], None)
  | o :: rest =>
      match pk_mathlib_library o with
      | None =>
          let '(t, r) := search_libraries objects rest in (GetLibraryAttr o :: t, r)
      | Some l =>
          let '(ta, ok) := accepts_all l objects in
          if ok then (GetLibraryAttr o :: ta, Some l)
          else let '(t, r) := search_libraries objects rest in
               (GetLibraryAttr o :: ta ++ t, r)
      end
  end.

(** ['%s (%s)' % (o, o.__class__.__name__)] *)
Definition describe (o : obj) : string :=
  str_of o +:+ " (" +:+ class_name_of o +:+ ")".

Definition cannot_identify (objects : list obj) : exn :=
  ValueError ("cannot identify math function library for input(s): "
              +:+ String.concat ", " (describe <$> objects)).

Definition get_library_for (objects : list obj)
    : list lookup_event * result library :=
  let '(t1, numpy) := all_numpy_types objects in
  if numpy then (t1, Ok numpy_library)
  else
    let '(t2, found) := search_libraries objects objects in
    (t1 ++ t2,
     match found with
     | Some l => Ok l
     | None => Err (cannot_identify objects)
     end).

Definition is_attr_lookup (ev : lookup_event) : bool :=
  match ev with GetLibraryAttr _ => true | _ => false end.

(** The operands whose [_pk_mathlib_library_] attribute was read, in the
    order of the reads. *)
Definition attr_lookups (t : list lookup_event) : list obj :=
  omap (λ ev, match ev with GetLibraryAttr o => Some o | _ => None end) t.

End Resolution.

(** ** Calls into a library, and programs that make them *)

Section Programs.
Context {H : Host}.
Import Broadcast.

(** The methods of the library [self] that the tidying adapter calls.
    [Tidy self opname args kw] is the call of [getattr (self, 'tidy_' +
    opname)] on the positional arguments [args] and the keywords [kw];
    [Method self n args kw] is a call of any other attribute [n]. *)
Inductive call : Type → Type :=
| Typeconvert (self : library) (thing : obj) : call obj
| Shape (self : library) (x : obj) : call shape
| GetDtype (self : library) (x : obj) : call dtype
| NewEmpty (self : library) (sh : shape) (dt : dtype) : call obj
| Reshape (self : library) (x : obj) (sh : shape) : call obj
| BroadcastTo (self : library) (x : obj) (sh : shape) : call obj
| Tidy (self : library) (opname : string) (args : list obj) (kw : kwargs) : call unit
| Method (self : library) (n : string) (args : list obj) (kw : kwargs) : call obj.

Inductive prog (A : Type) : Type :=
| Ret (a : A)
| Throw (e : exn)
| Call {R : Type} (c : call R) (k : R → prog A).
Arguments Ret {A} a.
Arguments Throw {A} e.
Arguments Call {A R} c k.

Fixpoint prog_bind {A B : Type} (f : A → prog B) (p : prog A) : prog B :=
  match p with
  | Ret a => f a
  | Throw e => Throw e
  | Call c k => Call c (λ r, prog_bind f (k r))
  end.

Definition do {R : Type} (c : call R) : prog R := Call c Ret.

Definition lift {A : Type} (r : result A) : prog A :=
  match r with Ok a => Ret a | Err e => Throw e end.

(** A call that was made, whatever its outcome. *)
Inductive event : Type :=
| Event {R : Type} (c : call R).

(** A handler gives each call its outcome and the world after it. *)
Definition handler (W : Type) : Type := ∀ R : Type, call R → W → result R * W.

Fixpoint run {W A : Type} (h : handler W) (p : prog A) (w : W)
    : list event * result A * W :=
  match p with
  | Ret a => ([], Ok a, w)
  | Throw e => ([], Err e, w)
  | Call c k =>
      match h _ c w with
      | (Ok r, w1) => let '(t, res, w2) := run h (k r) w1 in (Event c :: t, res, w2)
      | (Err e, w1) => ([Event c], Err e, w1)
      end
  end.

(** A call together with the value the library returns for it. *)
Inductive exchange : Type :=
| Answer {R : Type} (c : call R) (r : R).

(** [answers h script w w']: from world [w] the handler answers the calls of
    [script], one after the other, with the values of [script], and leaves
    world [w']. *)
Fixpoint answers {W : Type} (h : handler W) (script : list exchange) (w w' : W) : Prop :=
  match script with
  | [] => w' = w
  | Answer c r :: rest => ∃ w1, h _ c w = (Ok r, w1) ∧ answers h rest w1 w'
  end.

Definition calls_of (script : list exchange) : list event :=
  (λ x, match x with Answer c _ => Event c end) <$> script.

Definition is_new_empty_call (ev : event) : bool :=
  match ev with Event (NewEmpty _ _ _) => true | _ => false end.

End Programs.

Arguments Ret {H A} a.
Arguments Throw {H A} e.
Arguments Call {H A R} c k.

#[global] Instance prog_ret {H : Host} : MRet prog := λ _ a, Ret a.
#[global] Instance prog_mbind {H : Host} : MBind prog := λ _ _ f p, prog_bind f p.

(** ** The tidying adapter *)

Section Tidied.
Context {H : Host}.
Import Broadcast.

Definition output_shape_error : exn :=
  ValueError "output parameter must have final broadcasted shape".

(** [TidiedFunctionLibrary._tidy_std_unary] *)
Definition tidy_std_unary (self : library) (opname : string) (x : obj)
    (out : option obj) (kw : kwargs) : prog obj :=
  x ← do (Typeconvert self x);
  xsh ← do (Shape self x);
  match out with
  | None =>
      let zerod := bool_decide (xsh = []) in
      x ← (if zerod then do (Reshape self x [1]) else Ret x);
      fs ← lift (registry_get opname);
      out_dtype ← (if has_flag (flags fs) Flags.bool_result then Ret np_bool
                   else do (GetDtype self x));
      out ← do (NewEmpty self xsh out_dtype);
      retval ← (if zerod then do (Reshape self out []) else Ret out);
      _ ← do (Tidy self opname [x; out] kw);
      Ret retval
  | Some out =>
      let retval := out in
      out ← do (Typeconvert self out);
      osh ← do (Shape self out);
      bsh ← lift (broadcast_shapes [xsh; osh]);
      if bool_decide (osh ≠ bsh) then Throw output_shape_error
      else
        let zerod := bool_decide (bsh = []) in
        xo ← (if zerod then
                x ← do (Reshape self x [1]);
                out ← do (Reshape self out [1]);
                Ret (x, out)
              else if bool_decide (xsh ≠ bsh) then
                x ← do (BroadcastTo self x bsh);
                Ret (x, out)
              else Ret (x, out));
        _ ← do (Tidy self opname [xo.1; xo.2] kw);
        Ret retval
  end.

(** [TidiedFunctionLibrary._tidy_std_binary] *)
Definition tidy_std_binary (self : library) (opname : string) (x y : obj)
    (out : option obj) (kw : kwargs) : prog obj :=
  x ← do (Typeconvert self x);
  xsh ← do (Shape self x);
  y ← do (Typeconvert self y);
  ysh ← do (Shape self y);
  match out with
  | None =>
      bsh ← lift (broadcast_shapes [xsh; ysh]);
      let zerod := bool_decide (bsh = []) in
      xy ← (if zerod then
              x ← do (Reshape self x [1]);
              y ← do (Reshape self y [1]);
              Ret (x, y)
            else
              x ← (if bool_decide (xsh ≠ bsh) then do (BroadcastTo self x bsh)
                   else Ret x);
              y ← (if bool_decide (ysh ≠ bsh) then do (BroadcastTo self y bsh)
                   else Ret y);
              Ret (x, y));
      fs ← lift (registry_get opname);
      out_dtype ← (if has_flag (flags fs) Flags.bool_result then Ret np_bool
                   else
                     dx ← do (GetDtype self xy.1);
                     dy ← do (GetDtype self xy.2);
                     Ret (np_result_type dx dy));
      out ← do (NewEmpty self bsh out_dtype);
      retval ← (if zerod then do (Reshape self out []) else Ret out);
      _ ← do (Tidy self opname [xy.1; xy.2; out] kw);
      Ret retval
  | Some out =>
      let retval := out in
      out ← do (Typeconvert self out);
      osh ← do (Shape self out);
      bsh ← lift (broadcast_shapes [xsh; ysh; osh]);
      if bool_decide (osh ≠ bsh) then Throw output_shape_error
      else
        let zerod := bool_decide (bsh = []) in
        xyo ← (if zerod then
                 x ← do (Reshape self x [1]);
                 y ← do (Reshape self y [1]);
                 out ← do (Reshape self out [1]);
                 Ret (x, y, out)
               else
                 x ← (if bool_decide (xsh ≠ bsh) then do (BroadcastTo self x bsh)
                      else Ret x);
                 y ← (if bool_decide (ysh ≠ bsh) then do (BroadcastTo self y bsh)
                      else Ret y);
                 Ret (x, y, out));
        _ ← do (Tidy self opname [xyo.1.1; xyo.1.2; xyo.2] kw);
        Ret retval
  end.

End Tidied.

(** ** Attributes of a library *)

Section Attributes.
Context {H : Host}.

(** What [getattr (library, n)] finds, for the attributes that the classes
    of this module and the library's own class define (not those every
    Python object has). *)
Inductive attribute : Type :=
| OwnAttribute                         (* written in the library's own class *)
| ClassBody (c : base_class)           (* written in the body of class [c] *)
| TidyStdUnary (opname : string)       (* partialmethod (_tidy_std_unary, opname) *)
| TidyStdBinary (opname : string)      (* partialmethod (_tidy_std_binary, opname) *)
| NotImplementedStub (opname : string) (* partialmethod (_not_implemented, opname) *)
| NumpyFunction.                       (* getattr (np, n) *)

Definition in_names (n : string) (l : list string) : bool := bool_decide (n ∈ l).

(** The methods written in the three class bodies. *)
Definition math_body : list string :=
  ["__str__"; "accepts"; "new_empty"; "typeconvert"; "get_dtype"; "get_size";
   "shape"; "_not_implemented"].
Definition numpy_body : list string :=
  ["accepts"; "new_empty"; "typeconvert"; "cmask"; "get_dtype"; "get_size";
   "repvals"].
Definition tidied_body : list string := ["_tidy_std_unary"; "_tidy_std_binary"].

(** [MathFunctionLibrary] after [_fill_base_library_type]. *)
Definition math_attr (n : string) : option attribute :=
  if in_names n math_body then Some (ClassBody MathFunctionLibrary)
  else match common_interface_functions !! n with
       | Some fs => Some (NotImplementedStub (name fs))
       | None => None
       end.

(** [NumpyFunctionLibrary] after [_fill_numpy_library_type], which sets an
    attribute for every registered name numpy has. *)
Definition numpy_attr (n : string) : option attribute :=
  match common_interface_functions !! n with
  | Some fs =>
      if numpy_has (name fs) then Some NumpyFunction
      else if in_names n numpy_body then Some (ClassBody NumpyFunctionLibrary)
      else math_attr n
  | None =>
      if in_names n numpy_body then Some (ClassBody NumpyFunctionLibrary)
      else math_attr n
  end.

(** The name [n] without its ['tidy_'] prefix, when it has one. *)
Definition strip_tidy (n : string) : option string :=
  if String.prefix "tidy_" n
  then Some (String.substring 5 (String.length n - 5) n)
  else None.

Definition is_std (fs : FunctionSpecification) : bool :=
  bool_decide (signature fs = Signatures.std_unary) ||
  bool_decide (signature fs = Signatures.std_binary).

(** [TidiedFunctionLibrary] after [_fill_tidied_library_type]. *)
Definition tidied_attr (n : string) : option attribute :=
  if in_names n tidied_body then Some (ClassBody TidiedFunctionLibrary)
  else
    match common_interface_functions !! n with
    | Some (FS nm Signatures.std_unary _) => Some (TidyStdUnary nm)
    | Some (FS nm Signatures.std_binary _) => Some (TidyStdBinary nm)
    | _ =>
        match strip_tidy n ≫= (λ n', common_interface_functions !! n') with
        | Some fs => if is_std fs then Some (NotImplementedStub n) else math_attr n
        | None => math_attr n
        end
    end.

Definition library_getattr (l : library) (n : string) : option attribute :=
  if in_names n (lib_own l) then Some OwnAttribute
  else match lib_base l with
       | MathFunctionLibrary => math_attr n
       | NumpyFunctionLibrary => numpy_attr n
       | TidiedFunctionLibrary => tidied_attr n
       end.

(** The double-quote character, as a string. *)
Definition dquote : string := String (Ascii.ascii_of_nat 34) EmptyString.

Definition no_attribute (l : library) (n : string) : exn :=
  AttributeError ("'" +:+ lib_class l +:+ "' object has no attribute '" +:+ n +:+ "'").

(** [MathFunctionLibrary._not_implemented] *)
Definition not_implemented (self : library) (opname : string) (x : obj) : exn :=
  NotImplementedError ("math function " +:+ dquote +:+ opname +:+ dquote
    +:+ " not implemented for objects of type " +:+ dquote +:+ class_name_of x
    +:+ dquote +:+ " in " +:+ lib_class self).

End Attributes.

(** ** Operators of [MathlibDelegatingObject]: the in-place forms *)

Section Delegation.
Context {H : Host}.

(** [getattr (library, n) (x, y, out)] *)
Definition invoke_with_out (l : library) (n : string) (x y out : obj) : prog obj :=
  match library_getattr l n with
  | None => Throw (no_attribute l n)
  | Some (TidyStdBinary opname) => tidy_std_binary l opname x y (Some out) no_kwargs
  | Some (TidyStdUnary opname) =>
      Throw (TypeError "_tidy_std_unary() takes at most 4 arguments (5 given)")
  | Some (NotImplementedStub opname) => Throw (not_implemented l opname x)
  | Some _ => do (Method l n [x; y; out] no_kwargs)
  end.

(** [MathlibDelegatingObject.__dispatch_binary_inplace] *)
Definition dispatch_binary_inplace (self : obj) (n : string) (other : obj) : prog obj :=
  match (get_library_for [self; other]).2 with
  | Ok l => invoke_with_out l n self other self
  | Err e => Throw e
  end.

(** The in-place operator methods bound with [partialmethod]. *)
Inductive inplace_operator : Type :=
| iadd | isub | imul | idiv | itruediv | ifloordiv | imod
| ilshift | irshift | iand | ixor | ior.

Definition inplace_name (op : inplace_operator) : string :=
  match op with
  | iadd => "add"
  | isub => "subtract"
  | imul => "multiply"
  | idiv => "divide"
  | itruediv => "true_divide"
  | ifloordiv => "floor_divide"
  | imod => "mod"
  | ilshift => "left_shift"
  | irshift => "right_shift"
  | iand => "bitwise_and"
  | ixor => "bitwise_xor"
  | ior => "bitwise_or"
  end.

Definition inplace (op : inplace_operator) (self other : obj) : prog obj :=
  dispatch_binary_inplace self (inplace_name op) other.

(** [MathlibDelegatingObject.__ipow__] *)
Definition ipow (self other : obj) (modulo : option obj) : prog obj :=
  match modulo with
  | Some _ => Throw (NotImplementedError EmptyString)
  | None =>
      match (get_library_for [self; other]).2 with
      | Ok l => invoke_with_out l "power" self other self
      | Err e => Throw e
      end
  end.

End Delegation.

(** ** A concrete host: the test library of the module

    [TestArrayWrapper] objects, plain numpy arrays and objects of some other
    class, over a world that counts the buffers allocated and logs the
    buffers written. *)

Module Demo.
Import Broadcast.

Inductive pyclass : Type := TestArrayWrapper | Ndarray | Foreign.
#[global] Instance pyclass_eq_dec : EqDecision pyclass.
Proof. solve_decision. Defined.

Inductive element_type : Type := bool_ | int64 | float64.

(** An array-like value: the buffer it reads and writes, its shape and its
    element type.  A reshaped or converted value shares the buffer. *)
Record value : Type := Value {
  class_of : pyclass;
  buffer : nat;
  dims : shape;
  elt : element_type;
}.

Record world : Type := World {
  next_buffer : nat;
  written : list nat;
}.

(** [TestWrappedLibrary], and the same class with a [reshape] method added
    (through numpy's reshape of the wrapped data). *)
Definition test_own : list string :=
  ["accepts"; "new_empty"; "typeconvert"; "broadcast_to"; "tidy_negative"; "tidy_add"].
Definition test_library : library :=
  Library "TestWrappedLibrary" TidiedFunctionLibrary test_own.
Definition reshaping_library : library :=
  Library "ReshapingLibrary" TidiedFunctionLibrary ("reshape" :: test_own).

Definition promote (a b : element_type) : element_type :=
  match a, b with
  | float64, _ | _, float64 => float64
  | int64, _ | _, int64 => int64
  | bool_, bool_ => bool_
  end.

Definition class_name (c : pyclass) : string :=
  match c with
  | TestArrayWrapper => "TestArrayWrapper"
  | Ndarray => "ndarray"
  | Foreign => "Foreign"
  end.

#[global] Instance host : Host := {|
  obj := value;
  dtype := element_type;
  kwargs := unit;
  no_kwargs := tt;
  np_bool := bool_;
  np_result_type := promote;
  numpy_has := λ n, negb (in_names n ["cmask"; "get_dtype"; "get_size"; "repvals"]);
  isinstance_numpy_types := λ o, bool_decide (class_of o = Ndarray);
  pk_mathlib_library := λ o,
    match class_of o with TestArrayWrapper => Some test_library | _ => None end;
  accepts := λ l o,
    match lib_base l with
    | MathFunctionLibrary => false
    | NumpyFunctionLibrary => bool_decide (class_of o = Ndarray)
    | TidiedFunctionLibrary => negb (bool_decide (class_of o = Foreign))
    end;
  str_of := λ o, "<" +:+ class_name (class_of o) +:+ ">";
  class_name_of := λ o, class_name (class_of o);
|}.

Definition size_of (sh : shape) : Z := foldr Z.mul 1 sh.

(** What the test library's methods do to a world. *)
Definition test_handler : handler world := λ R c,
  match c in call R return world → result R * world with
  | Typeconvert self thing => λ w,
      match class_of thing with
      | TestArrayWrapper => (Ok thing, w)
      | Ndarray => (Ok (Value TestArrayWrapper (buffer thing) (dims thing) (elt thing)), w)
      | Foreign => (Err (ValueError "cannot treat object as a data array"), w)
      end
  | Shape self x => λ w, (Ok (dims x), w)
  | GetDtype self x => λ w, (Ok (elt x), w)
  | NewEmpty self sh dt => λ w,
      (Ok (Value TestArrayWrapper (next_buffer w) sh dt),
       World (S (next_buffer w)) (written w))
  | Reshape self x sh => λ w,
      if in_names "reshape" (lib_own self) then
        if bool_decide (size_of (dims x) = size_of sh)
        then (Ok (Value TestArrayWrapper (buffer x) sh (elt x)), w)
        else (Err (ValueError "cannot reshape array"), w)
      else (Err (not_implemented self "reshape" x), w)
  | BroadcastTo self x sh => λ w,
      if bool_decide (broadcast_shapes [dims x; sh] = Ok sh)
      then (Ok (Value TestArrayWrapper (buffer x) sh (elt x)), w)
      else (Err (ValueError "operands could not be broadcast together"), w)
  | Tidy self opname args kw => λ w,
      if in_names ("tidy_" +:+ opname) (lib_own self) then
        match last args with
        | Some out =>
            if bool_decide (dims out = [])
            then (Err (IndexError "too many indices for array"), w)
            else (Ok tt, World (next_buffer w) (written w ++ [buffer out]))
        | None => (Err (TypeError "missing arguments"), w)
        end
      else
        match args with
        | x :: _ => (Err (not_implemented self ("tidy_" +:+ opname) x), w)
        | [] => (Err (TypeError "missing arguments"), w)
        end
  | Method self n args kw => λ w, (Err (TypeError "unsupported call"), w)
  end.

Definition w0 : world := World 10 [].

(** Some operands: a wrapped array of shape [(3,)], a plain numpy array of
    shape [(1,)], a wrapped zero-dimensional array, and an object of a class
    that no library knows. *)
Definition wrapped_3 : value := Value TestArrayWrapper 0 [3] float64.
Definition plain_1 : value := Value Ndarray 1 [1] int64.
Definition wrapped_0d : value := Value TestArrayWrapper 2 [] float64.
Definition stranger : value := Value Foreign 3 [] float64.

(** What the test library makes of them: the plain array converted (a
    wrapper on its buffer) and then broadcast to [(3,)], the zero-dimensional
    array reshaped to [(1,)], and the zero-dimensional container that
    [new_empty] allocates first in [w0]. *)
Definition plain_1_wrapped : value := Value TestArrayWrapper 1 [1] int64.
Definition plain_1_as_3 : value := Value TestArrayWrapper 1 [3] int64.
Definition wrapped_0d_as_1 : value := Value TestArrayWrapper 2 [1] float64.
Definition fresh_0d : value := Value TestArrayWrapper 10 [] float64.

End Demo.

(** ** Operators of [MathlibDelegatingObject]: the other forms *)

Section Operators.
Context {H : Host}.

(** [getattr (library, n) (x, y)]: with two positional arguments a unary
    adapter takes the second one as its [out]. *)
Definition invoke_binary (l : library) (n : string) (x y : obj) : prog obj :=
  match library_getattr l n with
  | None => Throw (no_attribute l n)
  | Some (TidyStdBinary opname) => tidy_std_binary l opname x y None no_kwargs
  | Some (TidyStdUnary opname) => tidy_std_unary l opname x (Some y) no_kwargs
  | Some (NotImplementedStub opname) => Throw (not_implemented l opname x)
  | Some _ => do (Method l n [x; y] no_kwargs)
  end.

(** [getattr (library, n) (x)] *)
Definition invoke_unary (l : library) (n : string) (x : obj) : prog obj :=
  match library_getattr l n with
  | None => Throw (no_attribute l n)
  | Some (TidyStdUnary opname) => tidy_std_unary l opname x None no_kwargs
  | Some (TidyStdBinary opname) =>
      Throw (TypeError "_tidy_std_binary() takes at least 4 arguments (3 given)")
  | Some (NotImplementedStub opname) => Throw (not_implemented l opname x)
  | Some _ => do (Method l n [x] no_kwargs)
  end.

(** [MathlibDelegatingObject.__dispatch_binary] *)
Definition dispatch_binary (self : obj) (n : string) (other : obj) : prog obj :=
  match (get_library_for [self; other]).2 with
  | Ok l => invoke_binary l n self other
  | Err e => Throw e
  end.

(** [MathlibDelegatingObject.__dispatch_binary_reflected] *)
Definition dispatch_binary_reflected (self : obj) (n : string) (other : obj)
    : prog obj :=
  match (get_library_for [other; self]).2 with
  | Ok l => invoke_binary l n other self
  | Err e => Throw e
  end.

(** The comparison and arithmetic methods bound with [partialmethod] to
    [__dispatch_binary], named without their underscores. *)
Inductive binary_operator : Type :=
| lt_ | le_ | eq_ | ne_ | gt_ | ge_
| add_ | sub_ | mul_ | floordiv_ | mod_
| lshift_ | rshift_ | and_ | xor_ | or_ | div_ | truediv_.

Definition binary_name (op : binary_operator) : string :=
  match op with
  | lt_ => "less"
  | le_ => "less_equal"
  | eq_ => "equal"
  | ne_ => "not_equal"
  | gt_ => "greater"
  | ge_ => "greater_equal"
  | add_ => "add"
  | sub_ => "subtract"
  | mul_ => "multiply"
  | floordiv_ => "floor_divide"
  | mod_ => "mod"
  | lshift_ => "left_shift"
  | rshift_ => "right_shift"
  | and_ => "bitwise_and"
  | xor_ => "bitwise_xor"
  | or_ => "bitwise_or"
  | div_ => "divide"
  | truediv_ => "true_divide"
  end.

Definition binary (op : binary_operator) (self other : obj) : prog obj :=
  dispatch_binary self (binary_name op) other.

(** The reflected methods bound to [__dispatch_binary_reflected]. *)
Inductive reflected_operator : Type :=
| radd | rsub | rmul | rdiv | rtruediv | rfloordiv | rmod
| rlshift | rrshift | rand | rxor | ror.

Definition reflected_name (op : reflected_operator) : string :=
  match op with
  | radd => "add"
  | rsub => "subtract"
  | rmul => "multiply"
  | rdiv => "divide"
  | rtruediv => "true_divide"
  | rfloordiv => "floor_divide"
  | rmod => "mod"
  | rlshift => "left_shift"
  | rrshift => "right_shift"
  | rand => "bitwise_and"
  | rxor => "bitwise_xor"
  | ror => "bitwise_or"
  end.

Definition reflected (op : reflected_operator) (self other : obj) : prog obj :=
  dispatch_binary_reflected self (reflected_name op) other.

(** [MathlibDelegatingObject.__pow__] *)
Definition pow (self other : obj) (modulo : option obj) : prog obj :=
  match modulo with
  | Some _ => Throw (NotImplementedError EmptyString)
  | None =>
      match (get_library_for [self; other]).2 with
      | Ok l => invoke_binary l "power" self other
      | Err e => Throw e
      end
  end.

(** [MathlibDelegatingObject.__rpow__]: the library is looked up for
    [(self, other)] and called on [(other, self)]. *)
Definition rpow (self other : obj) (modulo : option obj) : prog obj :=
  match modulo with
  | Some _ => Throw (NotImplementedError EmptyString)
  | None =>
      match (get_library_for [self; other]).2 with
      | Ok l => invoke_binary l "power" other self
      | Err e => Throw e
      end
  end.

(** [__neg__], [__abs__] and [__invert__] call the operation on the object's
    own [_pk_mathlib_library_], which is [None] unless a subclass sets it. *)
Inductive unary_operator : Type := neg | abs_ | invert.

Definition unary_name (op : unary_operator) : string :=
  match op with
  | neg => "negative"
  | abs_ => "absolute"
  | invert => "invert"
  end.

Definition unary (op : unary_operator) (self : obj) : prog obj :=
  match pk_mathlib_library self with
  | Some l => invoke_unary l (unary_name op) self
  | None =>
      Throw (AttributeError ("'NoneType' object has no attribute '"
                             +:+ unary_name op +:+ "'"))
  end.

Definition is_tidy_call (ev : event) : bool :=
  match ev with Event (Tidy _ _ _ _) => true | _ => false end.

(** The trace holds exactly one [new_empty] call, on library [l]. *)
Definition allocated_once (l : library) (t : list event) : Prop :=
  ∃ pre post sh dt,
    t = pre ++ Event (NewEmpty l sh dt) :: post ∧
    Forall (λ ev, is_new_empty_call ev = false) (pre ++ post).

End Operators.

(** ** [pwkit.oo_helpers.partialmethod]

    [F] is the type of the callables that are not themselves
    [partialmethod] instances, [V] the type of argument values;
    [usable f] says that [f] is callable or has a [__get__]. *)

Module PartialMethod.
Section WithValues.
Context {F V : Type} (usable : F → bool).

Record partialmethod : Type := Partial {
  func : F;
  args : list V;
  keywords : gmap string V;
}.

(** [partialmethod.__init__]: the first argument is a [partialmethod]
    ([inr]) or something else ([inl]).  [dict.update] lets the new keywords
    replace the old ones. *)
Definition init (f : F + partialmethod) (a : list V) (k : gmap string V)
    : result partialmethod :=
  match f with
  | inl f0 =>
      if usable f0 then Ok (Partial f0 a k)
      else Err (TypeError "not callable or a descriptor")
  | inr pm => Ok (Partial (func pm) (args pm ++ a) (k ∪ keywords pm))
  end.

(** A call of [callee] on positional and keyword arguments, about to be
    made. *)
Record application : Type := Apply {
  callee : F;
  positional : list V;
  named : gmap string V;
}.

(** The function [_method] that [_make_unbound_method] builds. *)
Definition method (pm : partialmethod) (a : list V) (k : gmap string V)
    : result application :=
  match a with
  | [] => Err (IndexError "tuple index out of range")
  | cls_or_self :: rest =>
      Ok (Apply (func pm) (cls_or_self :: args pm ++ rest) (k ∪ keywords pm))
  end.

End WithValues.
End PartialMethod.

(** * Theorems *)

Example broadcast_2_3_with_3 :
  Broadcast.broadcast_shapes [[2; 3]; [3]] = Ok [2; 3].
Proof. reflexivity. Qed.

Example broadcast_1_with_5 :
  Broadcast.broadcast_shapes [[1]; [5]] = Ok [5].
Proof. reflexivity. Qed.

Example broadcast_2_with_3 :
  Broadcast.broadcast_shapes [[2]; [3]] = Err Broadcast.shape_mismatch.
Proof. reflexivity. Qed.

Example registry_negative :
  registry_get "negative" = Ok (FS "negative" Signatures.std_unary Flags.has_numpy_impl).
Proof. vm_compute. reflexivity. Qed.

Example registry_mod : registry_get "mod" = Err (KeyError "mod").
Proof. vm_compute. reflexivity. Qed.

Example registry_size : size common_interface_functions = 84%nat.
Proof. vm_compute. reflexivity. Qed.

Section BroadcastLoops.
Import Broadcast.

Lemma inner_body_merge i j cur rows r row x :
  cur !! i = Some r → rows !! j = Some row → row !! i = Some x →
  inner_body i (S j) (cur :: rows) =
    (v ← merge1 r x; Ok (<[i:=v]> cur :: rows)).
Proof.
  intros Hr Hrow Hx.
  assert (Hi : (i < length cur)%nat) by (eapply lookup_lt_Some; eauto).
  unfold inner_body, result_get, result_set, get2, set2, merge1; simpl.
  rewrite Hrow, Hx, Hr; simpl.
  rewrite (decide_True (P := (i < length cur)%nat)) by done.
  repeat case_bool_decide; simpl;
    rewrite ?(list_insert_id cur i r) by done; reflexivity.
Qed.

Lemma inner_loop_columns i cur done todo r :
  cur !! i = Some r →
  Forall (λ row : list Z, (i < length row)%nat) todo →
  for_range (seq (S (length done)) (length todo)) (inner_body i)
            (cur :: done ++ todo) =
    (v ← col_merge r (column i todo); Ok (<[i:=v]> cur :: done ++ todo)).
Proof.
  intros Hr Hall. revert cur done r Hr.
  induction Hall as [|row todo Hrow Hall IH]; intros cur done r Hr.
  - simpl. by rewrite list_insert_id.
  - destruct (lookup_lt_is_Some_2 row i Hrow) as [x Hx].
    cbn [length seq for_range column fmap list_fmap col_merge].
    rewrite (inner_body_merge i (length done) cur (done ++ row :: todo) r row x);
      [|done|by apply list_lookup_middle|done].
    rewrite (nth_lookup_Some _ _ _ _ Hx).
    destruct (merge1 r x) as [v1|e]; simpl; [|done].
    assert (Hi : (i < length cur)%nat) by (eapply lookup_lt_Some; eauto).
    specialize (IH (<[i:=v1]> cur) (done ++ [row]) v1).
    rewrite length_app, <- app_assoc in IH. simpl in IH.
    replace (length done + 1)%nat with (S (length done)) in IH by lia.
    rewrite IH by (by apply list_lookup_insert_eq).
    unfold column.
    destruct (col_merge v1 _) as [v|e]; simpl; [|done].
    by rewrite list_insert_insert_eq.
Qed.

Lemma collect_ext {A B} (f g : A → result B) (l : list A) :
  (∀ a, a ∈ l → f a = g a) → collect f l = collect g l.
Proof.
  induction l as [|a l IH]; intros Hfg; simpl; [done|].
  rewrite (Hfg a) by left. rewrite IH; [done|].
  intros b Hb. apply Hfg. by right.
Qed.

Lemma outer_loop_columns rows k i0 cur :
  length cur = (i0 + k)%nat →
  Forall (λ row : list Z, length row = (i0 + k)%nat) rows →
  for_range (seq i0 k)
            (λ i, for_range (seq 1 (length rows)) (inner_body i))
            (cur :: rows) =
    (vs ← collect (λ i, col_merge (nth i cur 1) (column i rows)) (seq i0 k);
     Ok ((take i0 cur ++ vs) :: rows)).
Proof.
  revert i0 cur. induction k as [|k IH]; intros i0 cur Hlen Hrows.
  - simpl. rewrite take_ge by lia. by rewrite app_nil_r.
  - cbn [seq for_range collect].
    destruct (lookup_lt_is_Some_2 cur i0) as [r Hr]; [lia|].
    assert (Hwide : Forall (λ row : list Z, (i0 < length row)%nat) rows).
    { eapply Forall_impl; [exact Hrows|]. simpl. intros row ->. lia. }
    pose proof (inner_loop_columns i0 cur [] rows r Hr Hwide) as Hin.
    simpl in Hin. rewrite Hin. clear Hin.
    rewrite (nth_lookup_Some _ _ _ _ Hr).
    destruct (col_merge r (column i0 rows)) as [v|e]; simpl; [|done].
    rewrite (IH (S i0) (<[i0:=v]> cur)).
    2:{ rewrite length_insert. lia. }
    2:{ eapply Forall_impl; [exact Hrows|]. simpl. intros row ->. lia. }
    rewrite (collect_ext _ (λ i, col_merge (nth i cur 1) (column i rows))).
    2:{ intros i Hi. apply elem_of_seq in Hi.
        rewrite !nth_lookup, list_lookup_insert_ne by lia. done. }
    destruct (collect _ _) as [vs|e]; simpl; [|done].
    rewrite (take_S_r _ _ v) by (apply list_lookup_insert_eq; lia).
    rewrite take_insert_ge by lia. by rewrite <- app_assoc.
Qed.

Lemma pad_length n (s : shape) : (length s ≤ n)%nat → length (pad n s) = n.
Proof. intros Hle. unfold pad. rewrite length_app, length_replicate. lia. Qed.

Lemma length_le_maxlen (shapes : list shape) s :
  s ∈ shapes → (length s ≤ max_list (length <$> shapes))%nat.
Proof. intros Hs. apply max_list_elem_of_le, list_elem_of_fmap_2, Hs. Qed.

Lemma padded_rows_length (shapes : list shape) :
  Forall (λ row : list Z, length row = max_list (length <$> shapes))
         (pad (max_list (length <$> shapes)) <$> shapes).
Proof.
  apply Forall_fmap, Forall_forall. intros s Hs. simpl.
  by apply pad_length, length_le_maxlen.
Qed.

(** The nested loops over the aliased store compute [broadcast_columns]. *)
Lemma broadcast_shapes_columns shapes :
  broadcast_shapes shapes = broadcast_columns shapes.
Proof.
  destruct shapes as [|s0 rest]; [reflexivity|].
  unfold broadcast_shapes, broadcast_columns.
  set (n := max_list (length <$> s0 :: rest)).
  pose proof (padded_rows_length (s0 :: rest)) as Hrows. fold n in Hrows.
  rewrite fmap_cons in Hrows. apply Forall_cons in Hrows as [Hs0 Hrows].
  change (np_max (length <$> s0 :: rest)) with (@Ok nat n).
  cbn [mbind result_bind]. rewrite fmap_cons. cbn [get_row lookup list_lookup].
  replace (length (s0 :: rest) - 1)%nat with (length (pad n <$> rest))
    by (rewrite length_fmap; simpl; lia).
  rewrite (outer_loop_columns (pad n <$> rest) n 0 (pad n s0)) by done.
  destruct (collect _ _) as [vs|e]; reflexivity.
Qed.

End BroadcastLoops.

Section BroadcastColumns.
Import Broadcast.

Lemma merge1_ok r x v :
  merge1 r x = Ok v →
  (x = 1 ∧ v = r) ∨ (x ≠ 1 ∧ r = 1 ∧ v = x) ∨ (x ≠ 1 ∧ r ≠ 1 ∧ r = x ∧ v = r).
Proof.
  unfold merge1. repeat case_bool_decide; intros [= <-]; tauto.
Qed.

Lemma merge1_err r x e :
  merge1 r x = Err e → e = shape_mismatch ∧ x ≠ 1 ∧ r ≠ 1 ∧ r ≠ x.
Proof. unfold merge1. repeat case_bool_decide; intros [= <-]; done. Qed.


Lemma merge1_ones : merge1 1 1 = Ok 1.
Proof. reflexivity. Qed.

Lemma col_merge_single r x : col_merge r [x] = merge1 r x.
Proof. simpl. by destruct (merge1 r x). Qed.

Lemma summarises_single r : summarises r [r].
Proof.
  destruct (decide (r = 1)) as [->|Hr].
  - left. split; [done|]. by constructor.
  - right. split; [done|]. split; [by left|]. constructor; [by right|constructor].
Qed.

Lemma summarises_one_more v r l : summarises v (r :: l) → summarises v (r :: 1 :: l).
Proof.
  intros [[-> Hall]|(Hv & Hin & Hall)]; inversion Hall; subst.
  - left. split; [done|]. by repeat constructor.
  - right. split; [done|]. split.
    + apply elem_of_cons in Hin as [->|Hin]; [by left|by do 2 right].
    + constructor; [done|]. constructor; [by left|done].
Qed.

Lemma summarises_after_one v x l : x ≠ 1 → summarises v (x :: l) → summarises v (1 :: x :: l).
Proof.
  intros Hx [[-> Hall]|(Hv & Hin & Hall)]; inversion Hall; subst; [done|].
  right. split; [done|]. split; [by right|]. constructor; [by left|done].
Qed.

Lemma summarises_repeat v r l : summarises v (r :: l) → summarises v (r :: r :: l).
Proof.
  intros [[-> Hall]|(Hv & Hin & Hall)]; inversion Hall; subst.
  - left. split; [done|]. by repeat constructor.
  - right. split; [done|]. split.
    + apply elem_of_cons in Hin as [->|Hin]; [by left|by do 2 right].
    + constructor; [done|]. by constructor.
Qed.

Lemma col_merge_ok r xs v : col_merge r xs = Ok v → summarises v (r :: xs).
Proof.
  revert r. induction xs as [|x xs IH]; intros r; simpl.
  - intros [= <-]. apply summarises_single.
  - destruct (merge1 r x) as [r'|e] eqn:Hm; simpl; [|done].
    intros Hv. apply IH in Hv.
    apply merge1_ok in Hm as [[-> ->]|[(Hx & -> & ->)|(Hx & Hr & -> & ->)]].
    + by apply summarises_one_more.
    + by apply summarises_after_one.
    + by apply summarises_repeat.
Qed.

Lemma col_merge_err r xs e :
  col_merge r xs = Err e → e = shape_mismatch ∧ conflicting (r :: xs).
Proof.
  revert r. induction xs as [|x xs IH]; intros r; simpl; [done|].
  destruct (merge1 r x) as [r'|e'] eqn:Hm; simpl.
  - intros He. apply IH in He as [-> (d & d' & Hd & Hd' & H1 & H1' & Hne)].
    split; [done|]. exists d, d'.
    assert (Hsub : ∀ z, z ∈ r' :: xs → z ∈ r :: x :: xs).
    { intros z Hz. apply elem_of_cons in Hz as [->|Hz]; [|by do 2 right].
      apply merge1_ok in Hm as [[_ ->]|[(_ & _ & ->)|(_ & _ & _ & ->)]];
        [by left|by right; left|by left]. }
    auto 10.
  - intros [= <-]. apply merge1_err in Hm as (-> & Hx & Hr & Hne).
    split; [done|]. exists r, x. repeat split; try done; [by left|by right; left].
Qed.

Lemma summarises_not_conflicting v l : summarises v l → ¬ conflicting l.
Proof.
  intros Hs (d & d' & Hd & Hd' & H1 & H1' & Hne).
  destruct Hs as [[_ Hall]|(_ & _ & Hall)]; rewrite Forall_forall in Hall.
  - by apply Hall in Hd.
  - destruct (Hall _ Hd), (Hall _ Hd'); congruence.
Qed.

Lemma collect_ok {A B} (f : A → result B) (l : list A) r :
  collect f l = Ok r → Forall2 (λ a b, f a = Ok b) l r.
Proof.
  revert r. induction l as [|a l IH]; intros r; simpl.
  - intros [= <-]. constructor.
  - destruct (f a) as [b|e] eqn:Hfa; simpl; [|done].
    destruct (collect f l) as [bs|e]; simpl; [|done].
    intros [= <-]. constructor; [done|by apply IH].
Qed.

Lemma collect_err {A B} (f : A → result B) (l : list A) e :
  collect f l = Err e → ∃ a, a ∈ l ∧ f a = Err e.
Proof.
  induction l as [|a l IH]; simpl; [done|].
  destruct (f a) as [b|e'] eqn:Hfa; simpl.
  - destruct (collect f l) as [bs|e']; simpl; [done|].
    intros [= <-]. destruct IH as (a' & Ha' & Hfa'); [done|].
    exists a'. split; [by right|done].
  - intros [= <-]. exists a. split; [by left|done].
Qed.

Lemma column_elem (shapes : list shape) n i d :
  (∀ s, s ∈ shapes → (length s ≤ n)%nat) → (i < n)%nat →
  d ∈ column i (pad n <$> shapes) ↔ ∃ s, s ∈ shapes ∧ pad n s !! i = Some d.
Proof.
  intros Hlen Hi. unfold column. rewrite <- list_fmap_compose. split.
  - intros (s & -> & Hs)%list_elem_of_fmap. exists s. split; [done|]. simpl.
    destruct (nth_lookup_or_length (pad n s) i 1) as [Hl|Hl]; [done|].
    rewrite pad_length in Hl by auto. lia.
  - intros (s & Hs & Hd). apply list_elem_of_fmap. exists s. split; [|done].
    simpl. symmetry. by apply nth_lookup_Some.
Qed.

Lemma broadcast_columns_ok (shapes : list shape) r :
  broadcast_columns shapes = Ok r →
  let n := max_list (length <$> shapes) in
  length r = n ∧
  ∀ i v, r !! i = Some v → summarises v (column i (pad n <$> shapes)).
Proof.
  destruct shapes as [|s0 rest]; [done|]. unfold broadcast_columns.
  intros Hc%collect_ok. simpl. split.
  - apply Forall2_length in Hc. by rewrite length_seq in Hc.
  - intros i v Hv. destruct (Forall2_lookup_r _ _ _ _ _ Hc Hv) as (k & Hk & Hm).
    apply lookup_seq in Hk as [-> _]. by apply col_merge_ok in Hm.
Qed.

Lemma broadcast_columns_err (shapes : list shape) e :
  shapes ≠ [] → broadcast_columns shapes = Err e →
  let n := max_list (length <$> shapes) in
  e = shape_mismatch ∧
  ∃ i, (i < n)%nat ∧ conflicting (column i (pad n <$> shapes)).
Proof.
  destruct shapes as [|s0 rest]; [done|]. intros _. unfold broadcast_columns.
  intros (i & Hi & Hm)%collect_err. cbv zeta.
  apply elem_of_seq in Hi. apply col_merge_err in Hm as [-> Hm].
  split; [done|]. exists i. split; [lia|done].
Qed.

Lemma broadcast_shapes_error (shapes : list shape) e :
  broadcast_shapes shapes = Err e → shapes ≠ [] → e = shape_mismatch.
Proof.
  rewrite broadcast_shapes_columns. intros He Hne.
  by destruct (broadcast_columns_err _ _ Hne He) as [-> _].
Qed.

(** The rule of broadcasting on sizes held exactly.  For a non-empty list
    of shapes, with every shape padded on the left
    with 1s to the greatest length [n]: when [broadcast_shapes] returns [r],
    [r] has length [n] and at each position its size is 1 exactly when every
    padded input has 1 there, and otherwise it is the one size different from
    1 found there (some input has it, and every input size different from 1
    equals it); [broadcast_shapes] raises, and then the shape-mismatch error,
    exactly when two padded inputs have sizes different from 1 and from each
    other at one position.  [(2,3)] with [(3,)] gives [(2,3)], [(1,)] with
    [(5,)] gives [(5,)], and [(2,)] with [(3,)] raises. *)
Lemma exact_sizes_rule (shapes : list shape) :
  shapes ≠ [] →
  let n := max_list (length <$> shapes) in
  (∀ r, broadcast_shapes shapes = Ok r →
     length r = n ∧
     ∀ i v, r !! i = Some v →
       (v = 1 ↔ ∀ s, s ∈ shapes → pad n s !! i = Some 1) ∧
       (v ≠ 1 →
          (∃ s, s ∈ shapes ∧ pad n s !! i = Some v) ∧
          (∀ s d, s ∈ shapes → pad n s !! i = Some d → d ≠ 1 → d = v))) ∧
  (∀ e, broadcast_shapes shapes = Err e ↔
     e = shape_mismatch ∧
     ∃ i s t d d', s ∈ shapes ∧ t ∈ shapes ∧
       pad n s !! i = Some d ∧ pad n t !! i = Some d' ∧
       d ≠ 1 ∧ d' ≠ 1 ∧ d ≠ d') ∧
  broadcast_shapes [[2; 3]; [3]] = Ok [2; 3] ∧
  broadcast_shapes [[1]; [5]] = Ok [5] ∧
  broadcast_shapes [[2]; [3]] = Err shape_mismatch.
Proof.
  intros Hne n. rewrite broadcast_shapes_columns.
  assert (Hlen : ∀ s, s ∈ shapes → (length s ≤ n)%nat)
    by (intros s Hs; by apply length_le_maxlen).
  assert (Hok : ∀ r, broadcast_columns shapes = Ok r →
     length r = n ∧
     ∀ i v, r !! i = Some v →
       (i < n)%nat ∧ summarises v (column i (pad n <$> shapes))).
  { intros r Hr. destruct (broadcast_columns_ok _ _ Hr) as [Hl Hs].
    split; [done|]. intros i v Hv. split; [|by apply Hs].
    apply lookup_lt_Some in Hv. fold n in Hl. lia. }
  assert (Hpad : ∀ s i, s ∈ shapes → (i < n)%nat → ∃ d, pad n s !! i = Some d).
  { intros s i Hs Hi. apply lookup_lt_is_Some_2. rewrite pad_length by auto. done. }
  split; [|split; [|done]].
  - intros r Hr. destruct (Hok r Hr) as [Hl Hs]. split; [done|].
    intros i v Hv. destruct (Hs i v Hv) as [Hi Hsum].
    pose proof (column_elem shapes n i) as Hcol.
    split.
    + split.
      * intros ->. intros s Hin. destruct (Hpad s i Hin Hi) as [d Hd].
        assert (Hdc : d ∈ column i (pad n <$> shapes)) by (apply Hcol; eauto).
        destruct Hsum as [[_ Hall]|(Hv1 & _)]; [|done].
        rewrite Forall_forall in Hall. by rewrite (Hall d Hdc) in Hd.
      * intros Hall. destruct Hsum as [[-> _]|(Hv1 & Hin & _)]; [done|].
        apply Hcol in Hin as (s & Hs' & Hd); [|done|done].
        rewrite (Hall s Hs') in Hd. congruence.
    + intros Hv1. destruct Hsum as [[-> _]|(_ & Hin & Hall)]; [done|].
      split; [by apply Hcol in Hin|].
      intros s d Hin' Hd Hd1.
      assert (Hdc : d ∈ column i (pad n <$> shapes)) by (apply Hcol; eauto).
      rewrite Forall_forall in Hall. destruct (Hall d Hdc); done.
  - intros e. split.
    + intros He. destruct (broadcast_columns_err _ _ Hne He) as [-> (i & Hi & Hc)].
      split; [done|]. fold n in Hi, Hc.
      destruct Hc as (d & d' & Hd & Hd' & Hrest).
      apply (column_elem shapes n i) in Hd as (s & Hs & Hsd); [|done|done].
      apply (column_elem shapes n i) in Hd' as (t & Ht & Htd); [|done|done].
      exists i, s, t, d, d'. tauto.
    + intros [-> (i & s & t & d & d' & Hs & Ht & Hsd & Htd & Hrest)].
      assert (Hi : (i < n)%nat).
      { apply lookup_lt_Some in Hsd. rewrite pad_length in Hsd by auto. done. }
      destruct (broadcast_columns shapes) as [r|e] eqn:Hb.
      * exfalso. destruct (Hok r eq_refl) as [Hl Hsum].
        destruct (lookup_lt_is_Some_2 r i) as [v Hv]; [lia|].
        destruct (Hsum i v Hv) as [_ Hsm].
        apply summarises_not_conflicting in Hsm. apply Hsm.
        exists d, d'. split; [apply column_elem; eauto|].
        split; [apply column_elem; eauto|done].
      * by destruct (broadcast_columns_err _ _ Hne Hb) as [-> _].
Qed.

End BroadcastColumns.

Section BroadcastAlgebra.
Import Broadcast.

Lemma broadcast_pair (a b : shape) :
  broadcast_shapes [a; b] =
    let n := (length a `max` length b)%nat in
    collect (λ i, merge1 (nth i (pad n a) 1) (nth i (pad n b) 1)) (seq 0 n).
Proof.
  rewrite broadcast_shapes_columns. unfold broadcast_columns.
  replace (max_list (length <$> [a; b])) with (length a `max` length b)%nat
    by (simpl; lia).
  cbv zeta. apply collect_ext. intros i _. apply col_merge_single.
Qed.

Lemma broadcast_triple (a b c : shape) :
  broadcast_shapes [a; b; c] =
    let n := ((length a `max` length b) `max` length c)%nat in
    collect (λ i, v ← merge1 (nth i (pad n a) 1) (nth i (pad n b) 1);
                  merge1 v (nth i (pad n c) 1)) (seq 0 n).
Proof.
  rewrite broadcast_shapes_columns. unfold broadcast_columns.
  replace (max_list (length <$> [a; b; c]))
    with ((length a `max` length b) `max` length c)%nat by (simpl; lia).
  cbv zeta. apply collect_ext. intros i _. simpl.
  destruct (merge1 _ _) as [v|e]; simpl; [|done]. by destruct (merge1 v _).
Qed.



Lemma pad_pad n2 n3 (s : shape) :
  (length s ≤ n2)%nat → (n2 ≤ n3)%nat →
  pad n3 s = replicate (n3 - n2) 1 ++ pad n2 s.
Proof.
  intros H1 H2. unfold pad.
  replace (n3 - length s)%nat with ((n3 - n2) + (n2 - length s))%nat by lia.
  by rewrite replicate_add, app_assoc.
Qed.

Lemma pad_full n (s : shape) : length s = n → pad n s = s.
Proof. intros <-. unfold pad. by rewrite Nat.sub_diag. Qed.

Lemma nth_ones_app k (l : list Z) i :
  nth i (replicate k 1 ++ l) 1 =
    if decide (i < k)%nat then 1 else nth (i - k) l 1.
Proof.
  rewrite !nth_lookup, lookup_app. case_decide as Hi.
  - by rewrite lookup_replicate_2.
  - rewrite (proj1 (lookup_replicate_None k 1 i)) by lia.
    by rewrite length_replicate.
Qed.

(** On sizes held exactly: when [broadcast_shapes (a, b)] succeeds with
    [ab], broadcasting
    [ab] with [c] gives what broadcasting [a], [b] and [c] together gives:
    the same shape, or the same error. *)
Lemma exact_sizes_associative (a b c ab : shape) :
  broadcast_shapes [a; b] = Ok ab →
  broadcast_shapes [ab; c] = broadcast_shapes [a; b; c].
Proof.
  rewrite (broadcast_pair a b). cbv zeta. intros Hab%collect_ok.
  set (n2 := (length a `max` length b)%nat) in *.
  assert (Hlen : length ab = n2).
  { apply Forall2_length in Hab. by rewrite length_seq in Hab. }
  rewrite broadcast_pair, broadcast_triple. cbv zeta. rewrite Hlen. fold n2.
  set (n3 := (n2 `max` length c)%nat).
  apply collect_ext. intros i _.
  rewrite (pad_pad n2 n3 ab), (pad_pad n2 n3 a), (pad_pad n2 n3 b) by lia.
  rewrite (pad_full n2 ab) by done. rewrite !nth_ones_app.
  case_decide as Hi.
  - rewrite merge1_ones. reflexivity.
  - destruct (nth_lookup_or_length ab (i - (n3 - n2)) 1) as [Hl|Hl].
    + destruct (Forall2_lookup_r _ _ _ _ _ Hab Hl) as (k & Hk & Hm).
      apply lookup_seq in Hk as [-> _]. simpl in Hm. by rewrite Hm.
    + (* beyond the length of [ab]: every padded shape reads as 1 *)
      rewrite !(nth_overflow _ 1) by (rewrite ?pad_length; lia).
      rewrite merge1_ones. reflexivity.
Qed.

End BroadcastAlgebra.

(** ** [broadcast_shapes] on a numpy array *)

Section NumpyArrayFacts.
Import Broadcast.
Import NumpyArray (scalar, py_int, np_int64, np_uint64, np_float64, value,
                   python_ints, int64_sizes, is_int64, int64_array, sizes).

Lemma int64_get2 (p : store) j i :
  NumpyArray.get2 (int64_array p) j i = np_int64 <$> get2 p j i.
Proof.
  unfold NumpyArray.get2, get2, int64_array. rewrite list_lookup_fmap.
  destruct (p !! j) as [row|]; simpl; [|done].
  rewrite list_lookup_fmap. by destruct (row !! i).
Qed.

Lemma int64_set2 (p : store) j i x :
  NumpyArray.set2 (int64_array p) j i (np_int64 x) =
    int64_array <$> set2 p j i x.
Proof.
  unfold NumpyArray.set2, set2, int64_array. rewrite list_lookup_fmap.
  destruct (p !! j) as [row|]; simpl; [|done].
  rewrite length_fmap. case_decide; simpl; [|done].
  by rewrite !list_fmap_insert.
Qed.

Lemma int64_get_row (p : store) j :
  NumpyArray.get_row (int64_array p) j =
    (λ row : list Z, np_int64 <$> row) <$> get_row p j.
Proof.
  unfold NumpyArray.get_row, get_row, int64_array. rewrite list_lookup_fmap.
  by destruct (p !! j).
Qed.

(** In an int64 array the loop body compares and stores the sizes
    themselves. *)
Lemma int64_inner_body i j (p : store) :
  NumpyArray.inner_body i j (int64_array p) = int64_array <$> inner_body i j p.
Proof.
  unfold NumpyArray.inner_body, inner_body, result_get, result_set.
  rewrite !int64_get2.
  destruct (get2 p j i) as [x|e]; simpl; [|done].
  unfold NumpyArray.eq, NumpyArray.ne. simpl.
  destruct (bool_decide (x ≠ 1)); simpl; [|done].
  destruct (get2 p 0 i) as [r|e]; simpl; [|done].
  destruct (bool_decide (r ≠ 1)) eqn:Hr; simpl.
  - rewrite (bool_decide_eq_false_2 (r = 1))
      by (by apply bool_decide_eq_true_1 in Hr).
    by destruct (bool_decide (r ≠ x)).
  - rewrite (bool_decide_eq_true_2 (r = 1)).
    + apply int64_set2.
    + apply bool_decide_eq_false_1 in Hr. by destruct (decide (r = 1)).
Qed.

Lemma int64_for_range (ks : list nat) (f : nat → store → result store)
    (g : nat → list (list scalar) → result (list (list scalar))) :
  (∀ k p, g k (int64_array p) = int64_array <$> f k p) →
  ∀ p, for_range ks g (int64_array p) = int64_array <$> for_range ks f p.
Proof.
  intros Hfg. induction ks as [|k ks IH]; intros p; simpl; [done|].
  rewrite Hfg. destruct (f k p) as [p'|e]; simpl; [apply IH|done].
Qed.

Lemma common_type_int64 (l : list scalar) :
  l ≠ [] → Forall is_int64 l → NumpyArray.common_type l = NumpyArray.dt_int64.
Proof.
  destruct l as [|s l]; [done|]. intros _ [Hs Hl]%Forall_cons.
  unfold NumpyArray.common_type. rewrite Hs. clear Hs.
  induction Hl as [|s' l Hs' Hl IH]; simpl; [done|]. by rewrite Hs'.
Qed.

Lemma np_array_int64 (rows : list (list scalar)) :
  Forall (Forall is_int64) rows →
  NumpyArray.np_array rows = int64_array (sizes rows).
Proof.
  intros Hrows. unfold NumpyArray.np_array, int64_array, sizes.
  rewrite <- list_fmap_compose. apply Forall_fmap_ext_1, Forall_forall.
  intros row Hrow. simpl. rewrite <- list_fmap_compose.
  destruct row as [|s row']; [done|].
  rewrite common_type_int64.
  - done.
  - intros Hnil. apply concat_nil_Forall in Hnil.
    rewrite Forall_forall in Hnil. by specialize (Hnil _ Hrow).
  - apply Forall_concat, Hrows.
Qed.

Lemma pad_values n (s : list scalar) :
  value <$> NumpyArray.pad n s = pad n (value <$> s).
Proof.
  unfold NumpyArray.pad, pad. by rewrite fmap_app, fmap_replicate, length_fmap.
Qed.

Lemma pad_is_int64 n (s : list scalar) :
  Forall is_int64 s → Forall is_int64 (NumpyArray.pad n s).
Proof.
  intros Hs. apply Forall_app. split; [|done].
  apply Forall_replicate. reflexivity.
Qed.

Lemma sizes_lengths (shapes : list (list scalar)) :
  length <$> sizes shapes = length <$> shapes.
Proof.
  unfold sizes. rewrite <- list_fmap_compose. apply list_fmap_ext.
  intros i s _. simpl. apply length_fmap.
Qed.

(** On shapes that [np.array] turns into an int64 array (Python integers
    that fit, and int64 scalars), the function is the one on exact sizes,
    and the tuple it returns holds int64 scalars. *)
Lemma broadcast_shapes_int64 (shapes : list (list scalar)) :
  Forall (Forall is_int64) shapes →
  NumpyArray.broadcast_shapes shapes =
    (λ r : shape, np_int64 <$> r) <$> broadcast_shapes (sizes shapes).
Proof.
  intros Hall. unfold NumpyArray.broadcast_shapes, broadcast_shapes.
  rewrite sizes_lengths.
  destruct (np_max (length <$> shapes)) as [maxlen|e]; simpl; [|done].
  rewrite np_array_int64.
  2:{ apply Forall_fmap. eapply Forall_impl; [exact Hall|].
      intros s Hs. by apply pad_is_int64. }
  replace (sizes (NumpyArray.pad maxlen <$> shapes))
    with (pad maxlen <$> sizes shapes).
  2:{ unfold sizes. rewrite <- !list_fmap_compose. apply list_fmap_ext.
      intros i s _. simpl. symmetry. apply pad_values. }
  rewrite int64_get_row.
  destruct (get_row (pad maxlen <$> sizes shapes) 0) as [row0|e]; simpl; [|done].
  replace (length (sizes shapes)) with (length shapes)
    by (unfold sizes; by rewrite length_fmap).
  rewrite (int64_for_range _
             (λ i, for_range (seq 1 (length shapes - 1)) (inner_body i))).
  2:{ intros k p. apply int64_for_range. intros j q. apply int64_inner_body. }
  destruct (for_range _ _ _) as [p'|e]; simpl; [|done].
  apply int64_get_row.
Qed.

Lemma python_ints_int64 (s : shape) :
  int64_sizes s → Forall is_int64 (python_ints s).
Proof.
  intros Hs. apply Forall_fmap. eapply Forall_impl; [exact Hs|].
  intros d Hd. unfold is_int64. simpl. unfold NumpyArray.fits_int64.
  by rewrite bool_decide_eq_true_2.
Qed.

Lemma python_ints_value (s : shape) : value <$> python_ints s = s.
Proof.
  unfold python_ints. rewrite <- list_fmap_compose.
  rewrite <- (list_fmap_id s) at 2. by apply list_fmap_ext.
Qed.

Lemma int64_scalars_int64 (r : shape) : Forall is_int64 (np_int64 <$> r).
Proof. apply Forall_fmap, Forall_forall. by intros d _. Qed.

Lemma int64_scalars_value (r : shape) : value <$> (np_int64 <$> r) = r.
Proof.
  rewrite <- list_fmap_compose. rewrite <- (list_fmap_id r) at 2.
  by apply list_fmap_ext.
Qed.

Lemma sizes_python_ints (shapes : list shape) :
  sizes (python_ints <$> shapes) = shapes.
Proof.
  unfold sizes. rewrite <- list_fmap_compose.
  rewrite <- (list_fmap_id shapes) at 2. apply list_fmap_ext.
  intros i s _. apply python_ints_value.
Qed.

(** Tuples of Python integers that fit int64: the function on exact
    sizes, with int64 scalars returned. *)
Lemma broadcast_shapes_python_ints (shapes : list shape) :
  Forall int64_sizes shapes →
  NumpyArray.broadcast_shapes (python_ints <$> shapes) =
    (λ r : shape, np_int64 <$> r) <$> broadcast_shapes shapes.
Proof.
  intros Hall. rewrite broadcast_shapes_int64, sizes_python_ints; [done|].
  apply Forall_fmap. eapply Forall_impl; [exact Hall|].
  intros s. apply python_ints_int64.
Qed.

(** C1.  For a non-empty list of shapes, tuples of integers that fit a
    signed 64-bit word, with every shape padded on the left with 1s to the
    greatest length [n]: when [broadcast_shapes] returns, the tuple holds
    [n] int64 scalars, and at each position the size is 1 exactly when every
    padded input has 1 there, and otherwise it is the one size different
    from 1 found there (some input has it, and every input size different
    from 1 equals it); [broadcast_shapes] raises, and then the
    shape-mismatch error, exactly when two padded inputs have sizes
    different from 1 and from each other at one position.  [(2,3)] with
    [(3,)] gives [(2,3)], [(1,)] with [(5,)] gives [(5,)], and [(2,)] with
    [(3,)] raises. *)
Theorem broadcast_shapes_rule (shapes : list shape) :
  shapes ≠ [] →
  Forall int64_sizes shapes →
  let n := max_list (length <$> shapes) in
  (∀ r, NumpyArray.broadcast_shapes (python_ints <$> shapes) = Ok r →
     ∃ rs, r = np_int64 <$> rs ∧ length rs = n ∧
     ∀ i v, rs !! i = Some v →
       (v = 1 ↔ ∀ s, s ∈ shapes → pad n s !! i = Some 1) ∧
       (v ≠ 1 →
          (∃ s, s ∈ shapes ∧ pad n s !! i = Some v) ∧
          (∀ s d, s ∈ shapes → pad n s !! i = Some d → d ≠ 1 → d = v))) ∧
  (∀ e, NumpyArray.broadcast_shapes (python_ints <$> shapes) = Err e ↔
     e = shape_mismatch ∧
     ∃ i s t d d', s ∈ shapes ∧ t ∈ shapes ∧
       pad n s !! i = Some d ∧ pad n t !! i = Some d' ∧
       d ≠ 1 ∧ d' ≠ 1 ∧ d ≠ d') ∧
  NumpyArray.broadcast_shapes [python_ints [2; 3]; python_ints [3]] =
    Ok [np_int64 2; np_int64 3] ∧
  NumpyArray.broadcast_shapes [python_ints [1]; python_ints [5]] =
    Ok [np_int64 5] ∧
  NumpyArray.broadcast_shapes [python_ints [2]; python_ints [3]] =
    Err shape_mismatch.
Proof.
  intros Hne Hfit n.
  destruct (exact_sizes_rule shapes Hne) as (Hok & Herr & _).
  fold n in Hok, Herr.
  rewrite (broadcast_shapes_python_ints shapes Hfit).
  split; [|split; [|by vm_compute]].
  - intros r Hr. destruct (broadcast_shapes shapes) as [rs|e]; [|done].
    injection Hr as <-. exists rs. split; [done|]. by apply Hok.
  - intros e. rewrite <- Herr.
    destruct (broadcast_shapes shapes) as [rs|e']; simpl; split;
      intros [=]; by subst.
Qed.

(** C9.  For shapes [a], [b] and [c], tuples of integers that fit a signed
    64-bit word: when [broadcast_shapes (a, b)] succeeds with [ab],
    broadcasting [ab] with [c] gives what broadcasting [a], [b] and [c]
    together gives: the same shape, or the same error. *)
Theorem broadcast_shapes_associative (a b c : shape) (ab : list scalar) :
  int64_sizes a → int64_sizes b → int64_sizes c →
  NumpyArray.broadcast_shapes [python_ints a; python_ints b] = Ok ab →
  NumpyArray.broadcast_shapes [ab; python_ints c] =
    NumpyArray.broadcast_shapes [python_ints a; python_ints b; python_ints c].
Proof.
  intros Ha Hb Hc.
  pose proof (broadcast_shapes_python_ints [a; b]) as H2.
  pose proof (broadcast_shapes_python_ints [a; b; c]) as H3.
  cbn [fmap list_fmap] in H2, H3.
  rewrite H2, H3 by (by repeat constructor). clear H2 H3.
  destruct (broadcast_shapes [a; b]) as [rs|e] eqn:Hab; [|done].
  intros [= <-].
  rewrite broadcast_shapes_int64.
  2:{ repeat constructor; [apply int64_scalars_int64|by apply python_ints_int64]. }
  cbn [sizes fmap list_fmap]. rewrite int64_scalars_value, python_ints_value.
  by rewrite (exact_sizes_associative a b c rs Hab).
Qed.

End NumpyArrayFacts.

Section NumpyArrayLarge.
Import Broadcast.
Import NumpyArray (py_int, np_int64, np_uint64, np_float64, python_ints).

Example float64_of_large_sizes :
  NumpyArray.to_float64 (2 ^ 63 + 1) = 2 ^ 63 ∧
  NumpyArray.to_float64 (2 ^ 63 + 1025) = 2 ^ 63 + 2048 ∧
  NumpyArray.to_float64 (2 ^ 64 - 1) = 2 ^ 64 ∧
  NumpyArray.to_float64 (2 ^ 53 + 1) = 2 ^ 53 ∧
  NumpyArray.to_float64 (2 ^ 53 - 1) = 2 ^ 53 - 1.
Proof. repeat split; by vm_compute. Qed.

(** One shape with a size from [2 ** 63] up beside a small one comes back
    as float64 scalars. *)
Example broadcast_float64_array :
  NumpyArray.broadcast_shapes [python_ints [2 ^ 63 + 1; 1]] =
    Ok [np_float64 (2 ^ 63); np_float64 1].
Proof. by vm_compute. Qed.

(** Sizes from [2 ** 63] up alone make a uint64 array, which is exact. *)
Example broadcast_uint64_array :
  NumpyArray.broadcast_shapes [python_ints [2 ^ 63 + 1]; python_ints [2 ^ 63]] =
    Err shape_mismatch ∧
  NumpyArray.broadcast_shapes [python_ints [2 ^ 63 + 1]; python_ints [2 ^ 63 + 1]] =
    Ok [np_uint64 (2 ^ 63 + 1)].
Proof. split; by vm_compute. Qed.

(** A size from [2 ** 64] up makes an array of Python objects, exact too. *)
Example broadcast_object_array :
  NumpyArray.broadcast_shapes [python_ints [2 ^ 64; 1]; python_ints [2 ^ 63 + 1]] =
    Ok [py_int (2 ^ 64); py_int (2 ^ 63 + 1)].
Proof. by vm_compute. Qed.

(** Sizes from [2 ** 63] up: [(2 ** 63 + 1,)] and [(2 ** 63,)] differ and
    neither is 1, and with [(1,)] beside them the array is a float64 one in
    which both are [2.0 ** 63]: a shape is returned. *)
Lemma broadcast_shapes_rule_large_sizes :
  NumpyArray.broadcast_shapes
    [python_ints [2 ^ 63 + 1]; python_ints [2 ^ 63]; python_ints [1]] =
    Ok [np_float64 (2 ^ 63)] ∧
  [2 ^ 63 + 1] ∈ [[2 ^ 63 + 1]; [2 ^ 63]; [1]] ∧
  [2 ^ 63] ∈ [[2 ^ 63 + 1]; [2 ^ 63]; [1]] ∧
  pad 1 [2 ^ 63 + 1] !! 0%nat = Some (2 ^ 63 + 1) ∧
  pad 1 [2 ^ 63] !! 0%nat = Some (2 ^ 63) ∧
  2 ^ 63 + 1 ≠ 1 ∧ 2 ^ 63 ≠ 1 ∧ 2 ^ 63 + 1 ≠ 2 ^ 63.
Proof.
  split; [by vm_compute|].
  split; [by left|]. split; [by right; left|].
  split; [done|]. split; [done|]. split; [done|]. split; done.
Qed.

(** [(2 ** 63 + 1,)] with [(1,)] gives the float64 [2.0 ** 63], which then
    agrees with the [2 ** 63] of [(2 ** 64, 2 ** 63)]; the three together
    make an array of Python objects, exact, and raise. *)
Lemma broadcast_shapes_associative_large_sizes :
  NumpyArray.broadcast_shapes [python_ints [2 ^ 63 + 1]; python_ints [1]] =
    Ok [np_float64 (2 ^ 63)] ∧
  NumpyArray.broadcast_shapes
    [[np_float64 (2 ^ 63)]; python_ints [2 ^ 64; 2 ^ 63]] =
    Ok [py_int (2 ^ 64); np_float64 (2 ^ 63)] ∧
  NumpyArray.broadcast_shapes
    [python_ints [2 ^ 63 + 1]; python_ints [1]; python_ints [2 ^ 64; 2 ^ 63]] =
    Err shape_mismatch.
Proof. split; [by vm_compute|]. split; by vm_compute. Qed.

End NumpyArrayLarge.

Section ResolutionFacts.
Context {H : Host}.

Lemma all_numpy_types_true (objects : list obj) :
  (∀ o, o ∈ objects → isinstance_numpy_types o = true) →
  all_numpy_types objects = (Isinstance <$> objects, true).
Proof.
  induction objects as [|o rest IH]; intros Hall; simpl; [done|].
  rewrite (Hall o) by left. rewrite IH; [done|].
  intros o' Ho'. apply Hall. by right.
Qed.

Lemma all_numpy_types_false (objects : list obj) o :
  o ∈ objects → isinstance_numpy_types o = false →
  (all_numpy_types objects).2 = false ∧
  attr_lookups (all_numpy_types objects).1 = [].
Proof.
  induction objects as [|o' rest IH]; intros Ho Hf; [by apply elem_of_nil in Ho|].
  simpl. destruct (isinstance_numpy_types o') eqn:Ho'; [|done].
  apply elem_of_cons in Ho as [->|Ho]; [congruence|].
  destruct (IH Ho Hf) as [IH1 IH2].
  destruct (all_numpy_types rest) as [t b]. done.
Qed.

Lemma accepts_all_spec (l : library) (objects : list obj) :
  (accepts_all l objects).2 = forallb (accepts l) objects ∧
  attr_lookups (accepts_all l objects).1 = [].
Proof.
  induction objects as [|o rest [IH1 IH2]]; simpl; [done|].
  destruct (accepts l o); simpl; [|done].
  destruct (accepts_all l rest) as [t b]. done.
Qed.

Lemma forallb_elem_of {A} (f : A → bool) (l : list A) :
  forallb f l = true ↔ ∀ a, a ∈ l → f a = true.
Proof.
  rewrite forallb_forall. split; intros Hf a Ha; apply Hf; by apply list_elem_of_In.
Qed.

Lemma forallb_false_elem_of {A} (f : A → bool) (l : list A) :
  forallb f l = false ↔ ∃ a, a ∈ l ∧ f a = false.
Proof.
  induction l as [|a l IH]; simpl.
  - split; [done|]. intros (a & Ha & _). by apply elem_of_nil in Ha.
  - rewrite andb_false_iff, IH. split.
    + intros [Hf|(b & Hb & Hf)]; [exists a; split; [by left|done]|].
      exists b. split; [by right|done].
    + intros (b & [->|Hb]%elem_of_cons & Hf); [by left|]. right. eauto.
Qed.

Lemma attr_lookups_app (t1 t2 : list lookup_event) :
  attr_lookups (t1 ++ t2) = attr_lookups t1 ++ attr_lookups t2.
Proof. apply omap_app. Qed.

(** The outer loop returns the library of the first operand, among those
    remaining, whose library accepts every operand, having read the attribute
    of the operands up to that one. *)
Lemma search_libraries_found (objects remaining : list obj) l :
  (search_libraries objects remaining).2 = Some l →
  ∃ k o, remaining !! k = Some o ∧ pk_mathlib_library o = Some l ∧
    forallb (accepts l) objects = true ∧
    (∀ k' o' l', (k' < k)%nat → remaining !! k' = Some o' →
       pk_mathlib_library o' = Some l' → forallb (accepts l') objects = false) ∧
    attr_lookups (search_libraries objects remaining).1 = take (S k) remaining.
Proof.
  induction remaining as [|o rest IH]; simpl; [done|].
  destruct (pk_mathlib_library o) as [lo|] eqn:Hpk.
  - destruct (accepts_all_spec lo objects) as [Hacc Hno].
    destruct (accepts_all lo objects) as [ta ok]. simpl in Hacc, Hno. subst ok.
    destruct (forallb (accepts lo) objects) eqn:Hall.
    + simpl. intros [= <-]. exists 0%nat, o. repeat split; try done.
      * intros k' o' l' Hk'. lia.
      * simpl. rewrite Hno. by rewrite take_0.
    + destruct (search_libraries objects rest) as [t r]. simpl in *.
      intros Hr. destruct (IH Hr) as (k & o1 & Hk & Hpk1 & Hall1 & Hmin & Htr).
      exists (S k), o1. repeat split; try done.
      * intros [|k'] o' l' Hlt Hk' Hpk'; simpl in Hk'.
        -- by simplify_eq.
        -- apply (Hmin k' o' l'); [lia|done|done].
      * rewrite attr_lookups_app, Hno, Htr. done.
  - destruct (search_libraries objects rest) as [t r]. simpl in *.
    intros Hr. destruct (IH Hr) as (k & o1 & Hk & Hpk1 & Hall1 & Hmin & Htr).
    exists (S k), o1. repeat split; try done.
    + intros [|k'] o' l' Hlt Hk' Hpk'; simpl in Hk'.
      * simplify_eq.
      * apply (Hmin k' o' l'); [lia|done|done].
    + by rewrite Htr.
Qed.

Lemma search_libraries_none (objects remaining : list obj) :
  (search_libraries objects remaining).2 = None →
  (∀ o l, o ∈ remaining → pk_mathlib_library o = Some l →
     forallb (accepts l) objects = false) ∧
  attr_lookups (search_libraries objects remaining).1 = remaining.
Proof.
  induction remaining as [|o rest IH]; simpl.
  - intros _. split; [|done]. intros o l Ho. by apply elem_of_nil in Ho.
  - destruct (pk_mathlib_library o) as [lo|] eqn:Hpk.
    + destruct (accepts_all_spec lo objects) as [Hacc Hno].
      destruct (accepts_all lo objects) as [ta ok]. simpl in Hacc, Hno. subst ok.
      destruct (forallb (accepts lo) objects) eqn:Hall; [done|].
      destruct (search_libraries objects rest) as [t r]. simpl in *.
      intros Hr. destruct (IH Hr) as [Hrej Htr]. split.
      * intros o' l' [->|Ho']%elem_of_cons Hpk'; [by simplify_eq|eauto].
      * rewrite attr_lookups_app, Hno, Htr. done.
    + destruct (search_libraries objects rest) as [t r]. simpl in *.
      intros Hr. destruct (IH Hr) as [Hrej Htr]. split.
      * intros o' l' [->|Ho']%elem_of_cons Hpk'; [by simplify_eq|eauto].
      * by rewrite Htr.
Qed.

Lemma attr_lookups_isinstance (objects : list obj) :
  attr_lookups (Isinstance <$> objects) = [].
Proof. induction objects as [|o rest IH]; [done|]. simpl. exact IH. Qed.

(** C4.  When every operand is of the plain numeric types, [get_library_for]
    returns the numpy library after the type tests alone: no operand's
    [_pk_mathlib_library_] attribute is read. *)
Theorem get_library_for_fast_path (objects : list obj) :
  (∀ o, o ∈ objects → isinstance_numpy_types o = true) →
  get_library_for objects = (Isinstance <$> objects, Ok numpy_library) ∧
  attr_lookups (get_library_for objects).1 = [] ∧
  Forall (λ ev, is_attr_lookup ev = false) (get_library_for objects).1.
Proof.
  intros Hall. unfold get_library_for. rewrite all_numpy_types_true by done.
  split; [done|]. split; [apply attr_lookups_isinstance|].
  apply Forall_fmap, Forall_forall. done.
Qed.

(** C5.  When some operand is not of the plain numeric types,
    [get_library_for] returns [l] exactly when [l] is advertised by an
    operand, accepts every operand, and no earlier operand advertises a
    library that accepts every operand; the attributes read are those of the
    operands up to that one, in argument order. *)
Theorem get_library_for_first_found (objects : list obj) (l : library) :
  (∃ o, o ∈ objects ∧ isinstance_numpy_types o = false) →
  ((get_library_for objects).2 = Ok l →
     ∃ k o, objects !! k = Some o ∧ pk_mathlib_library o = Some l ∧
       (∀ o2, o2 ∈ objects → accepts l o2 = true) ∧
       (∀ k' o' l', (k' < k)%nat → objects !! k' = Some o' →
          pk_mathlib_library o' = Some l' →
          ∃ o2, o2 ∈ objects ∧ accepts l' o2 = false) ∧
       attr_lookups (get_library_for objects).1 = take (S k) objects) ∧
  (∀ k o, objects !! k = Some o → pk_mathlib_library o = Some l →
     (∀ o2, o2 ∈ objects → accepts l o2 = true) →
     (∀ k' o' l', (k' < k)%nat → objects !! k' = Some o' →
        pk_mathlib_library o' = Some l' →
        ∃ o2, o2 ∈ objects ∧ accepts l' o2 = false) →
     (get_library_for objects).2 = Ok l).
Proof.
  intros (o0 & Ho0 & Hf0). unfold get_library_for.
  destruct (all_numpy_types_false objects o0 Ho0 Hf0) as [Hb Hnone].
  destruct (all_numpy_types objects) as [t1 b]. simpl in Hb, Hnone. subst b.
  pose proof (search_libraries_found objects objects) as Hfound.
  pose proof (search_libraries_none objects objects) as Hnot.
  destruct (search_libraries objects objects) as [t2 found]. simpl in *.
  split.
  - destruct found as [l2|]; [|done]. intros [= ->].
    destruct (Hfound l eq_refl) as (k & o & Hk & Hpk & Hall & Hmin & Htr).
    exists k, o. repeat split; try done.
    + by apply forallb_elem_of.
    + intros k' o' l' Hlt Hk' Hpk'. apply forallb_false_elem_of. eauto.
    + by rewrite attr_lookups_app, Hnone.
  - intros k o Hk Hpk Hall Hmin. apply forallb_elem_of in Hall.
    destruct found as [l2|].
    + destruct (Hfound l2 eq_refl) as (k2 & o2 & Hk2 & Hpk2 & Hall2 & Hmin2 & _).
      destruct (lt_eq_lt_dec k k2) as [[Hlt| ->]|Hlt].
      * rewrite (Hmin2 k o l Hlt Hk Hpk) in Hall. done.
      * by simplify_eq.
      * destruct (Hmin k2 o2 l2 Hlt Hk2 Hpk2) as (o3 & Ho3 & Hrej).
        rewrite forallb_elem_of in Hall2. rewrite (Hall2 o3 Ho3) in Hrej. done.
    + destruct (Hnot eq_refl) as [Hrej _].
      rewrite (Hrej o l) in Hall; [done| |done].
      apply list_elem_of_lookup. eauto.
Qed.

Lemma string_app_assoc (a b c : string) : (a +:+ b) +:+ c = a +:+ b +:+ c.
Proof.
  induction a as [|ch a IH]; [done|].
  change (String ch ((a +:+ b) +:+ c) = String ch (a +:+ b +:+ c)).
  by rewrite IH.
Qed.

Lemma string_app_empty (a : string) : a +:+ EmptyString = a.
Proof.
  induction a as [|ch a IH]; [done|].
  change (String ch (a +:+ EmptyString) = String ch a). by rewrite IH.
Qed.

Lemma concat_mentions {A} (f : A → string) (sep : string) (l : list A) a :
  a ∈ l → ∃ pre post, String.concat sep (f <$> l) = pre +:+ f a +:+ post.
Proof.
  induction l as [|x l IH]; intros Ha; [by apply elem_of_nil in Ha|].
  destruct l as [|y l].
  - apply list_elem_of_singleton in Ha as ->. exists EmptyString, EmptyString.
    simpl. by rewrite string_app_empty.
  - apply elem_of_cons in Ha as [->|Ha].
    + exists EmptyString, (sep +:+ String.concat sep (f <$> y :: l)). done.
    + destruct (IH Ha) as (pre & post & Heq).
      exists (f x +:+ sep +:+ pre), post.
      change (String.concat sep (f <$> x :: y :: l))
        with (f x +:+ sep +:+ String.concat sep (f <$> y :: l)).
      rewrite Heq. by rewrite !string_app_assoc.
Qed.

(** C6.  When some operand is not of the plain numeric types and every
    library that an operand advertises rejects some operand,
    [get_library_for] raises the identification error, whose message lists
    the operands in order, each as its rendering followed by the name of its
    class in parentheses; so every operand and its class name occur in it. *)
Theorem get_library_for_cannot_identify (objects : list obj) :
  (∃ o, o ∈ objects ∧ isinstance_numpy_types o = false) →
  (∀ o l, o ∈ objects → pk_mathlib_library o = Some l →
     ∃ o2, o2 ∈ objects ∧ accepts l o2 = false) →
  let msg := "cannot identify math function library for input(s): "
             +:+ String.concat ", "
                   ((λ o, str_of o +:+ " (" +:+ class_name_of o +:+ ")") <$> objects) in
  (get_library_for objects).2 = Err (ValueError msg) ∧
  ∀ o, o ∈ objects →
    ∃ pre post, msg = pre +:+ (str_of o +:+ " (" +:+ class_name_of o +:+ ")") +:+ post.
Proof.
  intros (o0 & Ho0 & Hf0) Hrej msg. split.
  - unfold get_library_for.
    destruct (all_numpy_types_false objects o0 Ho0 Hf0) as [Hb _].
    destruct (all_numpy_types objects) as [t1 b]. simpl in Hb. subst b.
    pose proof (search_libraries_found objects objects) as Hfound.
    destruct (search_libraries objects objects) as [t2 [l|]]; simpl in *; [|done].
    destruct (Hfound l eq_refl) as (k & o & Hk & Hpk & Hall & _).
    destruct (Hrej o l) as (o2 & Ho2 & Hno); [|done|].
    { apply list_elem_of_lookup. eauto. }
    rewrite forallb_elem_of in Hall. rewrite (Hall o2 Ho2) in Hno. done.
  - intros o Ho.
    destruct (concat_mentions
                (λ o, str_of o +:+ " (" +:+ class_name_of o +:+ ")") ", " objects o Ho)
      as (pre & post & Heq).
    exists ("cannot identify math function library for input(s): " +:+ pre), post.
    unfold msg. rewrite Heq. by rewrite !string_app_assoc.
Qed.

End ResolutionFacts.

Section RunFacts.
Context {H : Host} {W : Type} (h : handler W).

Lemma run_bind {A B} (p : prog A) (f : A → prog B) (w : W) :
  run h (p ≫= f) w =
    match run h p w with
    | (t, Ok a, w1) => let '(t', r, w2) := run h (f a) w1 in (t ++ t', r, w2)
    | (t, Err e, w1) => (t, Err e, w1)
    end.
Proof.
  revert w. induction p as [a|e|R c k IH]; intros w.
  - change (run h (f a) w = let '(t', r, w2) := run h (f a) w in ([] ++ t', r, w2)).
    by destruct (run h (f a) w) as [[t r] w2].
  - reflexivity.
  - change (run h (Call c (λ r, k r ≫= f)) w =
      match run h (Call c k) w with
      | (t, Ok a, w1) => let '(t', r, w2) := run h (f a) w1 in (t ++ t', r, w2)
      | (t, Err e, w1) => (t, Err e, w1)
      end).
    cbn [run]. destruct (h R c w) as [[r|e] w1]; [|done].
    rewrite IH. destruct (run h (k r) w1) as [[t [a|e]] w2]; [|done].
    by destruct (run h (f a) w2) as [[t' r'] w3].
Qed.

Lemma run_do_ok {R} (c : call R) (w : W) r w1 :
  h R c w = (Ok r, w1) → run h (do c) w = ([Event c], Ok r, w1).
Proof. intros Hc. unfold do. cbn [run]. by rewrite Hc. Qed.

Lemma run_do {R} (c : call R) (w : W) :
  run h (do c) w = ([Event c], (h R c w).1, (h R c w).2).
Proof. unfold do. cbn [run]. by destruct (h R c w) as [[r|e] w1]. Qed.

Lemma run_ret {A} (a : A) (w : W) : run h (Ret a) w = ([], Ok a, w).
Proof. reflexivity. Qed.

Lemma run_throw {A} (e : exn) (w : W) : run h (Throw (A:=A) e) w = ([], Err e, w).
Proof. reflexivity. Qed.

Lemma run_lift {A} (r : result A) (w : W) : run h (lift r) w = ([], r, w).
Proof. by destruct r. Qed.

End RunFacts.

Section AdapterFacts.
Context {H : Host} {W : Type} (h : handler W).
Import Broadcast.

(** Take the first answer of a script hypothesis and run past that call. *)
Ltac step Hs :=
  let w1 := fresh "w" in
  let E := fresh "E" in
  cbn [answers] in Hs; destruct Hs as (w1 & E & Hs);
  rewrite run_bind, (run_do_ok h _ _ _ _ E); cbn beta iota zeta.

(** C3.  With an output buffer supplied, once the library has converted the
    operands and the output and given their shapes, a broadcast of these
    shapes that is not exactly the output's shape makes the call raise:
    the calls made are the conversions and shape queries and nothing else
    (no tidy implementation is called, nothing is allocated, reshaped or
    broadcast), and the world is the one the last shape query left. *)
Theorem output_shape_checked_before_tidy (self : library) (opname : string)
    (kw : kwargs) :
  (∀ x out x' xsh o' osh w w',
     answers h [Answer (Typeconvert self x) x'; Answer (Shape self x') xsh;
                Answer (Typeconvert self out) o'; Answer (Shape self o') osh]
             w w' →
     broadcast_shapes [xsh; osh] ≠ Ok osh →
     ∃ e, (e = shape_mismatch ∨ e = output_shape_error) ∧
       run h (tidy_std_unary self opname x (Some out) kw) w =
         ([Event (Typeconvert self x); Event (Shape self x');
           Event (Typeconvert self out); Event (Shape self o')],
          Err e, w')) ∧
  (∀ x y out x' xsh y' ysh o' osh w w',
     answers h [Answer (Typeconvert self x) x'; Answer (Shape self x') xsh;
                Answer (Typeconvert self y) y'; Answer (Shape self y') ysh;
                Answer (Typeconvert self out) o'; Answer (Shape self o') osh]
             w w' →
     broadcast_shapes [xsh; ysh; osh] ≠ Ok osh →
     ∃ e, (e = shape_mismatch ∨ e = output_shape_error) ∧
       run h (tidy_std_binary self opname x y (Some out) kw) w =
         ([Event (Typeconvert self x); Event (Shape self x');
           Event (Typeconvert self y); Event (Shape self y');
           Event (Typeconvert self out); Event (Shape self o')],
          Err e, w')).
Proof.
  split.
  - intros x out x' xsh o' osh w w' Hs Hne. unfold tidy_std_unary.
    do 4 step Hs. cbn [answers] in Hs. subst w'.
    rewrite run_bind, run_lift.
    destruct (broadcast_shapes [xsh; osh]) as [bsh|e] eqn:Hb.
    + exists output_shape_error. split; [by right|].
      rewrite bool_decide_true by congruence. reflexivity.
    + apply broadcast_shapes_error in Hb as ->; [|done].
      exists shape_mismatch. split; [by left|done].
  - intros x y out x' xsh y' ysh o' osh w w' Hs Hne. unfold tidy_std_binary.
    do 6 step Hs. cbn [answers] in Hs. subst w'.
    rewrite run_bind, run_lift.
    destruct (broadcast_shapes [xsh; ysh; osh]) as [bsh|e] eqn:Hb.
    + exists output_shape_error. split; [by right|].
      rewrite bool_decide_true by congruence. reflexivity.
    + apply broadcast_shapes_error in Hb as ->; [|done].
      exists shape_mismatch. split; [by left|done].
Qed.

(** Run the calls that remain, whatever the handler answers. *)
Ltac run_rest :=
  repeat (rewrite ?run_bind, ?run_do, ?run_ret; cbn beta iota zeta;
          cbn [fst snd];
          try match goal with
              | |- context [run h (if ?b then _ else _) _] => destruct b
              | |- context [h ?R ?c ?w] => destruct (h R c w) as [[?|?] ?]
              end).

(** Close a goal saying that no call of a trace is an allocation. *)
Ltac no_alloc Htn :=
  cbn [app]; rewrite ?app_nil_r;
  repeat first [ exact Htn | apply Forall_nil_2
               | apply Forall_cons_2; [reflexivity|] | apply Forall_app_2 ].

(** Without an output buffer, the adapter allocates one container,
    through [new_empty]: its element type is boolean when the test
    [flags & Flags.bool_result] of the code succeeds, otherwise it is what
    the library's [get_dtype]
    gives for the normalised input (unary) or numpy's result type of what
    it gives for the two normalised inputs (binary); its shape is the
    input's shape (unary) or the broadcast shape (binary). *)
Lemma new_output_by_flag_test (self : library) (opname : string)
    (kw : kwargs) (fs : FunctionSpecification) :
  registry_get opname = Ok fs →
  (∀ x x' xsh x1 d w w1 w2 w3,
     answers h [Answer (Typeconvert self x) x'; Answer (Shape self x') xsh] w w1 →
     (if bool_decide (xsh = [])
      then answers h [Answer (Reshape self x' [1]) x1] w1 w2
      else x1 = x' ∧ w2 = w1) →
     (if has_flag (flags fs) Flags.bool_result
      then d = np_bool ∧ w3 = w2
      else answers h [Answer (GetDtype self x1) d] w2 w3) →
     ∃ pre post r w4,
       run h (tidy_std_unary self opname x None kw) w =
         (pre ++ Event (NewEmpty self xsh d) :: post, r, w4) ∧
       Forall (λ ev, is_new_empty_call ev = false) (pre ++ post)) ∧
  (∀ x y x' xsh y' ysh bsh x1 y1 d w w1 w2 w3,
     answers h [Answer (Typeconvert self x) x'; Answer (Shape self x') xsh;
                Answer (Typeconvert self y) y'; Answer (Shape self y') ysh] w w1 →
     broadcast_shapes [xsh; ysh] = Ok bsh →
     (if bool_decide (bsh = [])
      then answers h [Answer (Reshape self x' [1]) x1;
                      Answer (Reshape self y' [1]) y1] w1 w2
      else ∃ wm,
        (if bool_decide (xsh ≠ bsh)
         then answers h [Answer (BroadcastTo self x' bsh) x1] w1 wm
         else x1 = x' ∧ wm = w1) ∧
        (if bool_decide (ysh ≠ bsh)
         then answers h [Answer (BroadcastTo self y' bsh) y1] wm w2
         else y1 = y' ∧ w2 = wm)) →
     (if has_flag (flags fs) Flags.bool_result
      then d = np_bool ∧ w3 = w2
      else ∃ dx dy,
        answers h [Answer (GetDtype self x1) dx; Answer (GetDtype self y1) dy] w2 w3 ∧
        d = np_result_type dx dy) →
     ∃ pre post r w4,
       run h (tidy_std_binary self opname x y None kw) w =
         (pre ++ Event (NewEmpty self bsh d) :: post, r, w4) ∧
       Forall (λ ev, is_new_empty_call ev = false) (pre ++ post)).
Proof.
  intros Hfs. split.
  - intros x x' xsh x1 d w w1 w2 w3 Hs Hz Hd. unfold tidy_std_unary.
    do 2 step Hs. cbn [answers] in Hs. subst w1.
    destruct (bool_decide (xsh = [])) eqn:Hzerod.
    + step Hz. cbn [answers] in Hz. subst w2.
      rewrite run_bind, run_lift, Hfs. cbn beta iota zeta.
      destruct (has_flag (flags fs) Flags.bool_result).
      * destruct Hd as [-> ->]. rewrite run_bind, run_ret. cbn beta iota zeta.
        run_rest; eexists [_; _; _], _, _, _; (split; [reflexivity|]);
          repeat constructor.
      * step Hd. cbn [answers] in Hd. subst w3.
        run_rest; eexists [_; _; _; _], _, _, _; (split; [reflexivity|]);
          repeat constructor.
    + destruct Hz as [-> ->].
      rewrite run_bind, run_ret. cbn beta iota zeta.
      rewrite run_bind, run_lift, Hfs. cbn beta iota zeta.
      destruct (has_flag (flags fs) Flags.bool_result).
      * destruct Hd as [-> ->]. rewrite run_bind, run_ret. cbn beta iota zeta.
        run_rest; eexists [_; _], _, _, _; (split; [reflexivity|]);
          repeat constructor.
      * step Hd. cbn [answers] in Hd. subst w3.
        run_rest; eexists [_; _; _], _, _, _; (split; [reflexivity|]);
          repeat constructor.
  - intros x y x' xsh y' ysh bsh x1 y1 d w w1 w2 w3 Hs Hb Hz Hd.
    unfold tidy_std_binary.
    do 4 step Hs. cbn [answers] in Hs. destruct Hs.
    rewrite run_bind, run_lift, Hb. cbn beta iota zeta.
    assert (Hsplit : ∀ (t : list event) (r : result obj) (wz : W),
      (∃ pre post, t = pre ++ Event (NewEmpty self bsh d) :: post ∧
         Forall (λ ev, is_new_empty_call ev = false) (pre ++ post)) →
      ∃ pre post r' w', (t, r, wz) = (pre ++ Event (NewEmpty self bsh d) :: post, r', w') ∧
         Forall (λ ev, is_new_empty_call ev = false) (pre ++ post)).
    { intros t r wz (pre & post & -> & Hall). by exists pre, post, r, wz. }
    assert (Hnorm : ∃ tn,
      run h (if bool_decide (bsh = [])
             then x0 ← do (Reshape self x' [1]);
                  y0 ← do (Reshape self y' [1]); Ret (x0, y0)
             else x0 ← (if bool_decide (xsh ≠ bsh)
                        then do (BroadcastTo self x' bsh) else Ret x');
                  y0 ← (if bool_decide (ysh ≠ bsh)
                        then do (BroadcastTo self y' bsh) else Ret y');
                  Ret (x0, y0)) w1 = (tn, Ok (x1, y1), w2) ∧
      Forall (λ ev, is_new_empty_call ev = false) tn).
    { destruct (bool_decide (bsh = [])).
      - do 2 step Hz. cbn [answers] in Hz. destruct Hz.
        eexists. split; [reflexivity|]. repeat constructor.
      - destruct Hz as (wm & Hx & Hy).
        destruct (bool_decide (xsh ≠ bsh)), (bool_decide (ysh ≠ bsh)).
        + step Hx. cbn [answers] in Hx. destruct Hx.
          step Hy. cbn [answers] in Hy. destruct Hy.
          eexists. split; [reflexivity|]. repeat constructor.
        + step Hx. cbn [answers] in Hx. destruct Hx. destruct Hy as [-> ->].
          eexists. split; [reflexivity|]. repeat constructor.
        + destruct Hx as [-> ->].
          rewrite run_bind, run_ret. cbn beta iota zeta.
          step Hy. cbn [answers] in Hy. destruct Hy.
          eexists. split; [reflexivity|]. repeat constructor.
        + destruct Hx as [-> ->], Hy as [-> ->].
          eexists. split; [reflexivity|]. repeat constructor. }
    destruct Hnorm as (tn & Hrun & Htn).
    rewrite run_bind, Hrun. cbn beta iota zeta.
    rewrite run_bind, run_lift, Hfs. cbn beta iota zeta. cbn [fst snd].
    destruct (has_flag (flags fs) Flags.bool_result).
    + destruct Hd as [-> ->]. rewrite run_bind, run_ret. cbn beta iota zeta.
      run_rest; apply Hsplit; eexists (_ :: _ :: _ :: _ :: tn ++ []), _;
        (split; [cbn [app]; rewrite <- ?app_assoc; reflexivity|]);
        no_alloc Htn.
    + destruct Hd as (dx & dy & Hd & ->).
      rewrite run_bind. do 2 step Hd. cbn [answers] in Hd. destruct Hd.
      rewrite run_ret. cbn beta iota zeta.
      run_rest; apply Hsplit;
        eexists (_ :: _ :: _ :: _ :: tn ++ [_; _]), _;
        (split; [cbn [app]; rewrite <- ?app_assoc; reflexivity|]);
        no_alloc Htn.
Qed.

(** C2.  Without an output buffer and with a zero-dimensional input, the
    adapter reshapes the inputs to [(1,)] but allocates the output with the
    zero-dimensional shape it computed before: the tidy implementation is
    called with this zero-dimensional output [o] itself, and only the value
    returned to the caller [rv] goes through [reshape].  Unary: input shape
    [()]; binary: broadcast shape [()]. *)
Theorem tidy_called_with_zero_dimensional_output (self : library)
    (opname : string) (kw : kwargs) (fs : FunctionSpecification) :
  registry_get opname = Ok fs →
  (∀ x x' x1 d o rv w w1 w2 w3,
     answers h [Answer (Typeconvert self x) x'; Answer (Shape self x') [];
                Answer (Reshape self x' [1]) x1] w w1 →
     (if has_flag (flags fs) Flags.bool_result
      then d = np_bool ∧ w2 = w1
      else answers h [Answer (GetDtype self x1) d] w1 w2) →
     answers h [Answer (NewEmpty self [] d) o; Answer (Reshape self o []) rv] w2 w3 →
     ∃ pre,
       run h (tidy_std_unary self opname x None kw) w =
         (pre ++ [Event (NewEmpty self [] d); Event (Reshape self o []);
                  Event (Tidy self opname [x1; o] kw)],
          (λ _, rv) <$> (h _ (Tidy self opname [x1; o] kw) w3).1,
          (h _ (Tidy self opname [x1; o] kw) w3).2)) ∧
  (∀ x y x' y' x1 y1 d o rv w w1 w2 w3,
     answers h [Answer (Typeconvert self x) x'; Answer (Shape self x') [];
                Answer (Typeconvert self y) y'; Answer (Shape self y') [];
                Answer (Reshape self x' [1]) x1;
                Answer (Reshape self y' [1]) y1] w w1 →
     (if has_flag (flags fs) Flags.bool_result
      then d = np_bool ∧ w2 = w1
      else ∃ dx dy,
        answers h [Answer (GetDtype self x1) dx; Answer (GetDtype self y1) dy] w1 w2 ∧
        d = np_result_type dx dy) →
     answers h [Answer (NewEmpty self [] d) o; Answer (Reshape self o []) rv] w2 w3 →
     ∃ pre,
       run h (tidy_std_binary self opname x y None kw) w =
         (pre ++ [Event (NewEmpty self [] d); Event (Reshape self o []);
                  Event (Tidy self opname [x1; y1; o] kw)],
          (λ _, rv) <$> (h _ (Tidy self opname [x1; y1; o] kw) w3).1,
          (h _ (Tidy self opname [x1; y1; o] kw) w3).2)).
Proof.
  intros Hfs. split.
  - intros x x' x1 d o rv w w1 w2 w3 Hs Hd Ho. unfold tidy_std_unary.
    do 2 step Hs. rewrite (bool_decide_eq_true_2 ([] = [])) by done.
    step Hs. cbn [answers] in Hs. destruct Hs.
    rewrite run_bind, run_lift, Hfs. cbn beta iota zeta.
    destruct (has_flag (flags fs) Flags.bool_result).
    + destruct Hd as [-> ->]. rewrite run_bind, run_ret. cbn beta iota zeta.
      do 2 step Ho. cbn [answers] in Ho. destruct Ho.
      rewrite run_bind, run_do.
      destruct (h _ (Tidy self opname [x1; o] kw) w3) as [[[]|e] wt];
        by eexists [_; _; _].
    + step Hd. cbn [answers] in Hd. destruct Hd.
      do 2 step Ho. cbn [answers] in Ho. destruct Ho.
      rewrite run_bind, run_do.
      destruct (h _ (Tidy self opname [x1; o] kw) w3) as [[[]|e] wt];
        by eexists [_; _; _; _].
  - intros x y x' y' x1 y1 d o rv w w1 w2 w3 Hs Hd Ho. unfold tidy_std_binary.
    do 4 step Hs. rewrite run_bind, run_lift.
    change (broadcast_shapes [[]; []]) with (@Ok (list Z) []).
    cbn beta iota zeta. rewrite (bool_decide_eq_true_2 ([] = [])) by done.
    rewrite run_bind. do 2 step Hs. cbn [answers] in Hs. destruct Hs.
    rewrite run_ret. cbn beta iota zeta.
    rewrite run_bind, run_lift, Hfs. cbn beta iota zeta. cbn [fst snd].
    destruct (has_flag (flags fs) Flags.bool_result).
    + destruct Hd as [-> ->]. rewrite run_bind, run_ret. cbn beta iota zeta.
      do 2 step Ho. cbn [answers] in Ho. destruct Ho.
      rewrite run_bind, run_do.
      destruct (h _ (Tidy self opname [x1; y1; o] kw) w3) as [[[]|e] wt];
        by eexists [_; _; _; _; _; _].
    + destruct Hd as (dx & dy & Hd & ->).
      rewrite run_bind. do 2 step Hd. cbn [answers] in Hd. destruct Hd.
      rewrite run_ret. cbn beta iota zeta.
      do 2 step Ho. cbn [answers] in Ho. destruct Ho.
      rewrite run_bind, run_do.
      destruct (h _ (Tidy self opname [x1; y1; o] kw) w3) as [[[]|e] wt];
        by eexists [_; _; _; _; _; _; _; _].
Qed.

End AdapterFacts.

Section AdapterFlag.
Context {H : Host} {W : Type} (h : handler W).
Import Broadcast.

Lemma land_two (fl : Z) : Z.land fl 2 = if Z.testbit fl 1 then 2 else 0.
Proof.
  assert (Htwo : ∀ n, n ≠ 1 → Z.testbit 2 n = false).
  { intros n Hne. exact (Z.pow2_bits_false 1 n (not_eq_sym Hne)). }
  apply Z.bits_inj'. intros n Hn. rewrite Z.land_spec.
  destruct (decide (n = 1)) as [->|Hne].
  - by destruct (Z.testbit fl 1).
  - rewrite (Htwo n Hne), andb_false_r.
    destruct (Z.testbit fl 1); [by rewrite (Htwo n Hne)|by rewrite Z.bits_0].
Qed.

(** The test [flags & Flags.bool_result] of the code succeeds exactly on
    the flag words whose bit 1, the bit of [bool_result = 1 << 1], is set. *)
Lemma has_flag_bool_result (fl : Z) :
  has_flag fl Flags.bool_result = Z.testbit fl 1.
Proof.
  unfold has_flag. change Flags.bool_result with 2. rewrite land_two.
  by destruct (Z.testbit fl 1).
Qed.

(** C7.  Without an output buffer, the adapter allocates one container,
    through [new_empty]: its element type is boolean when the operation's
    flags have the [bool_result] bit (bit 1: [bool_result = 1 << 1]),
    otherwise it is what the library's [get_dtype] gives for the normalised
    input (unary) or numpy's result type of what it gives for the two
    normalised inputs (binary); its shape is the input's shape (unary) or
    the broadcast shape (binary). *)
Theorem new_output_element_type (self : library) (opname : string)
    (kw : kwargs) (fs : FunctionSpecification) :
  registry_get opname = Ok fs →
  (∀ x x' xsh x1 d w w1 w2 w3,
     answers h [Answer (Typeconvert self x) x'; Answer (Shape self x') xsh] w w1 →
     (if bool_decide (xsh = [])
      then answers h [Answer (Reshape self x' [1]) x1] w1 w2
      else x1 = x' ∧ w2 = w1) →
     (if Z.testbit (flags fs) 1
      then d = np_bool ∧ w3 = w2
      else answers h [Answer (GetDtype self x1) d] w2 w3) →
     ∃ pre post r w4,
       run h (tidy_std_unary self opname x None kw) w =
         (pre ++ Event (NewEmpty self xsh d) :: post, r, w4) ∧
       Forall (λ ev, is_new_empty_call ev = false) (pre ++ post)) ∧
  (∀ x y x' xsh y' ysh bsh x1 y1 d w w1 w2 w3,
     answers h [Answer (Typeconvert self x) x'; Answer (Shape self x') xsh;
                Answer (Typeconvert self y) y'; Answer (Shape self y') ysh] w w1 →
     broadcast_shapes [xsh; ysh] = Ok bsh →
     (if bool_decide (bsh = [])
      then answers h [Answer (Reshape self x' [1]) x1;
                      Answer (Reshape self y' [1]) y1] w1 w2
      else ∃ wm,
        (if bool_decide (xsh ≠ bsh)
         then answers h [Answer (BroadcastTo self x' bsh) x1] w1 wm
         else x1 = x' ∧ wm = w1) ∧
        (if bool_decide (ysh ≠ bsh)
         then answers h [Answer (BroadcastTo self y' bsh) y1] wm w2
         else y1 = y' ∧ w2 = wm)) →
     (if Z.testbit (flags fs) 1
      then d = np_bool ∧ w3 = w2
      else ∃ dx dy,
        answers h [Answer (GetDtype self x1) dx; Answer (GetDtype self y1) dy] w2 w3 ∧
        d = np_result_type dx dy) →
     ∃ pre post r w4,
       run h (tidy_std_binary self opname x y None kw) w =
         (pre ++ Event (NewEmpty self bsh d) :: post, r, w4) ∧
       Forall (λ ev, is_new_empty_call ev = false) (pre ++ post)).
Proof.
  intros Hfs.
  destruct (new_output_by_flag_test h self opname kw fs Hfs) as [Hunary Hbinary].
  rewrite has_flag_bool_result in Hunary, Hbinary. by split.
Qed.

End AdapterFlag.

Section DelegationFacts.
Context {H : Host} {W : Type} (h : handler W).
Import Broadcast.

(** Run a whole program by cases on every answer and every test. *)
Ltac run_cases :=
  repeat (rewrite ?run_bind, ?run_do, ?run_ret, ?run_lift, ?run_throw;
          cbn beta iota zeta; cbn [fst snd];
          try match goal with
              | |- context [run h (if ?b then _ else _) _] => destruct b
              | |- context [if ?b then Throw _ else _] => destruct b
              | |- context [h ?R ?c ?w] => destruct (h R c w) as [[?|?] ?]
              | |- context [broadcast_shapes ?l] => destruct (broadcast_shapes l)
              end).

(** With an output buffer supplied, a call of the binary adapter that
    returns, returns the very object it was given as output, and has
    allocated nothing. *)
Lemma tidy_std_binary_returns_out (self : library) (opname : string)
    (x y out : obj) (kw : kwargs) (w : W) t v w' :
  run h (tidy_std_binary self opname x y (Some out) kw) w = (t, Ok v, w') →
  v = out ∧ Forall (λ ev, is_new_empty_call ev = false) t.
Proof.
  unfold tidy_std_binary. run_cases; intros Heq; inversion Heq; subst;
    (split; [reflexivity|]); cbn [app]; repeat constructor.
Qed.

Lemma mod_is_not_registered : common_interface_functions !! "mod" = None.
Proof. vm_compute. reflexivity. Qed.

Lemma library_has_no_mod (l : library) :
  "mod" ∉ lib_own l → library_getattr l "mod" = None.
Proof.
  intros Hown. unfold library_getattr, in_names.
  rewrite bool_decide_eq_false_2 by done.
  destruct (lib_base l).
  - unfold math_attr. by rewrite mod_is_not_registered.
  - unfold numpy_attr, math_attr. by rewrite mod_is_not_registered.
  - unfold tidied_attr, math_attr. by rewrite mod_is_not_registered.
Qed.

(** The names of the other in-place forms are attributes of a tidied library:
    the binary adapter bound to the name. *)
Lemma tidied_inplace_attribute (l : library) (op : inplace_operator) :
  lib_base l = TidiedFunctionLibrary → op ≠ imod →
  inplace_name op ∉ lib_own l →
  library_getattr l (inplace_name op) = Some (TidyStdBinary (inplace_name op)).
Proof.
  intros Hbase Hop Hown. unfold library_getattr, in_names.
  rewrite bool_decide_eq_false_2 by done. rewrite Hbase.
  destruct op; try done; vm_compute; reflexivity.
Qed.

(** An in-place form other than [imod], on operands resolved to a tidied
    library that does not redefine the operation, is the binary adapter
    called with the left operand as output; when it returns, it returns the
    left operand, and nothing was allocated. *)
Lemma inplace_passes_left_as_out (op : inplace_operator) (self other : obj)
    (l : library) (w : W) :
  (get_library_for [self; other]).2 = Ok l →
  lib_base l = TidiedFunctionLibrary → op ≠ imod →
  inplace_name op ∉ lib_own l →
  run h (inplace op self other) w =
    run h (tidy_std_binary l (inplace_name op) self other (Some self) no_kwargs) w ∧
  ∀ t v w', run h (inplace op self other) w = (t, Ok v, w') →
    v = self ∧ Forall (λ ev, is_new_empty_call ev = false) t.
Proof.
  intros Hl Hbase Hop Hown.
  assert (Heq : inplace op self other =
    tidy_std_binary l (inplace_name op) self other (Some self) no_kwargs).
  { unfold inplace, dispatch_binary_inplace, invoke_with_out.
    rewrite Hl. by rewrite tidied_inplace_attribute. }
  rewrite Heq. split; [done|]. intros t v w'. apply tidy_std_binary_returns_out.
Qed.

(** [__ipow__] without a modulus does the same for [power]. *)
Lemma ipow_passes_left_as_out (self other : obj) (l : library) (w : W) :
  (get_library_for [self; other]).2 = Ok l →
  lib_base l = TidiedFunctionLibrary → "power" ∉ lib_own l →
  ∀ t v w', run h (ipow self other None) w = (t, Ok v, w') →
    v = self ∧ Forall (λ ev, is_new_empty_call ev = false) t.
Proof.
  intros Hl Hbase Hown t v w'. unfold ipow, invoke_with_out. rewrite Hl.
  unfold library_getattr, in_names.
  rewrite bool_decide_eq_false_2 by done. rewrite Hbase.
  change (tidied_attr "power") with (Some (TidyStdBinary "power")).
  apply tidy_std_binary_returns_out.
Qed.

(** C8.  The in-place modulo form asks the resolved library for an attribute
    named [mod]; the registry has no operation of that name (the operation
    is [remainder]), so on every library whose own class does not define
    [mod] the form raises [AttributeError] before any call is made: nothing
    is passed as output, nothing is written and nothing is returned. *)
Theorem inplace_mod_has_no_attribute (self other : obj) (l : library) (w : W) :
  (get_library_for [self; other]).2 = Ok l →
  "mod" ∉ lib_own l →
  run h (inplace imod self other) w = ([], Err (no_attribute l "mod"), w).
Proof.
  intros Hl Hown. unfold inplace, dispatch_binary_inplace, invoke_with_out.
  rewrite Hl. cbn [inplace_name]. by rewrite library_has_no_mod.
Qed.

End DelegationFacts.

(** * The theorems at concrete inputs *)

Section Witnesses.
Import Broadcast Demo.

Lemma get_library_for_fast_path_witness :
  (∀ o, o ∈ [plain_1; plain_1] → isinstance_numpy_types o = true) ∧
  get_library_for [plain_1; plain_1] =
    ([Isinstance plain_1; Isinstance plain_1], Ok numpy_library).
Proof.
  assert (Hall : ∀ o, o ∈ [plain_1; plain_1] → isinstance_numpy_types o = true).
  { intros o Ho. repeat (apply elem_of_cons in Ho as [->|Ho]; [reflexivity|]).
    by apply elem_of_nil in Ho. }
  split; [exact Hall|].
  exact (proj1 (get_library_for_fast_path (H:=host) [plain_1; plain_1] Hall)).
Defined.

Lemma get_library_for_first_found_witness :
  (∃ o, o ∈ [plain_1; wrapped_3] ∧ isinstance_numpy_types o = false) ∧
  (get_library_for [plain_1; wrapped_3]).2 = Ok test_library.
Proof.
  assert (Hsome : ∃ o, o ∈ [plain_1; wrapped_3] ∧ isinstance_numpy_types o = false).
  { exists wrapped_3. split; [by right; left|reflexivity]. }
  split; [exact Hsome|].
  destruct (get_library_for_first_found (H:=host) [plain_1; wrapped_3] test_library Hsome)
    as [_ Hfound].
  apply (Hfound 1%nat wrapped_3); [reflexivity|reflexivity| |].
  - intros o Ho. repeat (apply elem_of_cons in Ho as [->|Ho]; [reflexivity|]).
    by apply elem_of_nil in Ho.
  - intros [|k'] o' l' Hlt Hk Hpk; [|lia]. by injection Hk as <-.
Defined.

Lemma get_library_for_cannot_identify_witness :
  (∃ o, o ∈ [wrapped_3; stranger] ∧ isinstance_numpy_types o = false) ∧
  (get_library_for [wrapped_3; stranger]).2 =
    Err (ValueError ("cannot identify math function library for input(s): "
                     +:+ "<TestArrayWrapper> (TestArrayWrapper), <Foreign> (Foreign)")).
Proof.
  assert (Hsome : ∃ o, o ∈ [wrapped_3; stranger] ∧ isinstance_numpy_types o = false).
  { exists stranger. split; [by right; left|reflexivity]. }
  split; [exact Hsome|].
  refine (proj1 (get_library_for_cannot_identify (H:=host) [wrapped_3; stranger] Hsome _)).
  intros o l Ho Hl. exists stranger. split; [by right; left|].
  repeat (apply elem_of_cons in Ho as [->|Ho]; [by (injection Hl as <-) || done|]).
  by apply elem_of_nil in Ho.
Defined.

Ltac script := cbn; repeat (eexists; split; [reflexivity|]); reflexivity.

Lemma output_shape_checked_before_tidy_witness :
  ∃ e, run test_handler
         (tidy_std_binary test_library "add" wrapped_3 plain_1 (Some plain_1) tt)
         w0 =
       ([Event (Typeconvert test_library wrapped_3);
         Event (Shape test_library wrapped_3);
         Event (Typeconvert test_library plain_1);
         Event (Shape test_library plain_1_wrapped);
         Event (Typeconvert test_library plain_1);
         Event (Shape test_library plain_1_wrapped)],
        Err e, w0).
Proof.
  destruct (output_shape_checked_before_tidy (H:=host) test_handler
              test_library "add" tt) as [_ Hbinary].
  destruct (Hbinary wrapped_3 plain_1 plain_1 wrapped_3 [3] plain_1_wrapped [1]
              plain_1_wrapped [1] w0 w0) as (e & _ & He).
  - script.
  - discriminate.
  - exists e. exact He.
Defined.

Lemma tidy_called_with_zero_dimensional_output_witness :
  registry_get "negative" =
    Ok (FS "negative" Signatures.std_unary Flags.has_numpy_impl) ∧
  dims fresh_0d = [] ∧
  ∃ pre,
    run test_handler
        (tidy_std_unary reshaping_library "negative" wrapped_0d None tt) w0 =
      (pre ++ [Event (NewEmpty reshaping_library [] float64);
               Event (Reshape reshaping_library fresh_0d []);
               Event (Tidy reshaping_library "negative"
                           [wrapped_0d_as_1; fresh_0d] tt)],
       Err (IndexError "too many indices for array"),
       World 11 []).
Proof.
  assert (Hfs : registry_get "negative" =
                Ok (FS "negative" Signatures.std_unary Flags.has_numpy_impl))
    by (vm_compute; reflexivity).
  split; [exact Hfs|]. split; [reflexivity|].
  destruct (tidy_called_with_zero_dimensional_output (H:=host) test_handler
              reshaping_library "negative" tt _ Hfs) as [Hunary _].
  destruct (Hunary wrapped_0d wrapped_0d wrapped_0d_as_1 float64 fresh_0d
              fresh_0d w0 w0 w0 (World 11 [])) as (pre & Hrun).
  - script.
  - script.
  - script.
  - exists pre. exact Hrun.
Defined.

Lemma inplace_mod_has_no_attribute_witness :
  (get_library_for [wrapped_3; plain_1]).2 = Ok test_library ∧
  ("mod" ∉ lib_own test_library) ∧
  run test_handler (inplace imod wrapped_3 plain_1) w0 =
    ([], Err (AttributeError "'TestWrappedLibrary' object has no attribute 'mod'"), w0).
Proof.
  assert (Hl : (get_library_for [wrapped_3; plain_1]).2 = Ok test_library)
    by reflexivity.
  assert (Hown : "mod" ∉ lib_own test_library).
  { intros Hin. repeat (apply elem_of_cons in Hin as [Heq|Hin]; [discriminate Heq|]).
    by apply elem_of_nil in Hin. }
  split; [exact Hl|]. split; [exact Hown|].
  exact (inplace_mod_has_no_attribute (H:=host) test_handler wrapped_3 plain_1
           test_library w0 Hl Hown).
Defined.

Example inplace_add_returns_left_operand :
  ∃ t, run test_handler (inplace iadd wrapped_3 plain_1) w0 =
         (t, Ok wrapped_3, World 10 [0%nat]).
Proof. eexists. vm_compute. reflexivity. Qed.

Lemma new_output_element_type_witness :
  registry_get "less" =
    Ok (FS "less" Signatures.std_binary (Flags.has_numpy_impl .|. Flags.bool_result)) ∧
  Z.testbit (Flags.has_numpy_impl .|. Flags.bool_result) 1 = true ∧
  ∃ pre post r w,
    run test_handler
        (tidy_std_binary test_library "less" wrapped_3 plain_1 None tt) w0 =
      (pre ++ Event (NewEmpty test_library [3] bool_) :: post, r, w).
Proof.
  assert (Hfs : registry_get "less" =
                Ok (FS "less" Signatures.std_binary
                      (Flags.has_numpy_impl .|. Flags.bool_result)))
    by (vm_compute; reflexivity).
  split; [exact Hfs|]. split; [reflexivity|].
  destruct (new_output_element_type (H:=host) test_handler test_library "less" tt
              _ Hfs) as [_ Hbinary].
  destruct (Hbinary wrapped_3 plain_1 wrapped_3 [3] plain_1_wrapped [1] [3]
              wrapped_3 plain_1_as_3 bool_ w0 w0 w0 w0)
    as (pre & post & r & w & Hrun & _).
  - script.
  - reflexivity.
  - cbn. exists w0. split; [done|]. script.
  - cbn. done.
  - by exists pre, post, r, w.
Defined.

End Witnesses.

Section NumpyArrayWitnesses.
Import Broadcast.
Import NumpyArray (scalar, py_int, np_int64, np_uint64, np_float64, value,
                   python_ints, int64_sizes, is_int64, int64_array, sizes).

Ltac fits :=
  repeat first [ apply Forall_nil_2 | apply Forall_cons_2
               | progress unfold int64_sizes ];
  simpl; lia.

Lemma broadcast_shapes_rule_witness :
  ([[2; 1]; [3]] : list shape) ≠ [] ∧
  Forall int64_sizes [[2; 1]; [3]] ∧
  ∀ r, NumpyArray.broadcast_shapes [python_ints [2; 1]; python_ints [3]] = Ok r →
       ∃ rs, r = np_int64 <$> rs ∧ length rs = 2%nat.
Proof.
  assert (Hfit : Forall int64_sizes [[2; 1]; [3]]) by fits.
  split; [done|]. split; [exact Hfit|]. intros r Hr.
  destruct (broadcast_shapes_rule [[2; 1]; [3]]) as (Hok & _); [done|exact Hfit|].
  destruct (Hok r Hr) as (rs & Hrs & Hlen & _). by exists rs.
Defined.

Lemma broadcast_shapes_associative_witness :
  int64_sizes [2; 1] ∧ int64_sizes [3] ∧ int64_sizes [4; 1; 1] ∧
  NumpyArray.broadcast_shapes [python_ints [2; 1]; python_ints [3]] =
    Ok [np_int64 2; np_int64 3] ∧
  NumpyArray.broadcast_shapes [[np_int64 2; np_int64 3]; python_ints [4; 1; 1]] =
    NumpyArray.broadcast_shapes
      [python_ints [2; 1]; python_ints [3]; python_ints [4; 1; 1]].
Proof.
  assert (Ha : int64_sizes [2; 1]) by fits.
  assert (Hb : int64_sizes [3]) by fits.
  assert (Hc : int64_sizes [4; 1; 1]) by fits.
  split; [exact Ha|]. split; [exact Hb|]. split; [exact Hc|].
  split; [reflexivity|].
  exact (broadcast_shapes_associative [2; 1] [3] [4; 1; 1]
           [np_int64 2; np_int64 3] Ha Hb Hc eq_refl).
Defined.

End NumpyArrayWitnesses.

(** * Further properties of [broadcast_shapes] *)

Section BroadcastMore.
Import Broadcast.

Lemma collect_nth (pre s : list Z) d :
  collect (λ i, Ok (nth i (pre ++ s) d)) (seq (length pre) (length s)) = Ok s.
Proof.
  revert pre. induction s as [|x s IH]; intros pre; [done|].
  cbn [length seq collect].
  replace (nth (length pre) (pre ++ x :: s) d) with x.
  2:{ symmetry. apply nth_lookup_Some. by apply list_lookup_middle. }
  specialize (IH (pre ++ [x])). rewrite length_app, <- app_assoc in IH.
  simpl in IH. replace (length pre + 1)%nat with (S (length pre)) in IH by lia.
  cbn. rewrite IH. done.
Qed.

Lemma collect_read_back (r : list Z) (f : nat → result Z) :
  (∀ i, (i < length r)%nat → f i = Ok (nth i r 1)) →
  collect f (seq 0 (length r)) = Ok r.
Proof.
  intros Hf. rewrite <- (collect_nth [] r 1). apply collect_ext.
  intros i Hi%elem_of_seq. apply Hf. simpl in Hi. lia.
Qed.

Lemma col_merge_app r xs ys :
  col_merge r (xs ++ ys) = (v ← col_merge r xs; col_merge v ys).
Proof.
  revert r. induction xs as [|x xs IH]; intros r; [done|].
  simpl. destruct (merge1 r x) as [r'|e]; simpl; [apply IH|done].
Qed.

Lemma col_merge_ones k : col_merge 1 (replicate k 1) = Ok 1.
Proof. induction k as [|k IH]; [done|]. exact IH. Qed.

Lemma column_app i (rows1 rows2 : list (list Z)) :
  column i (rows1 ++ rows2) = column i rows1 ++ column i rows2.
Proof. unfold column. apply fmap_app. Qed.

(** Columns of shapes padded beyond the length they need. *)
Lemma column_padded_further n1 n (shapes : list (list Z)) i :
  (∀ s, s ∈ shapes → (length s ≤ n1)%nat) → (n1 ≤ n)%nat →
  column i (pad n <$> shapes) =
    if decide (i < n - n1)%nat then replicate (length shapes) 1
    else column (i - (n - n1)) (pad n1 <$> shapes).
Proof.
  intros Hlen Hn. induction shapes as [|s shapes IH].
  - by case_decide.
  - rewrite !fmap_cons. unfold column in *. rewrite fmap_cons.
    rewrite IH by (intros s' Hs'; apply Hlen; by right).
    rewrite (pad_pad n1 n s) by (try apply Hlen; try lia; by left).
    rewrite nth_ones_app. by case_decide.
Qed.





End BroadcastMore.
Section BroadcastFurther.
Import Broadcast.

Lemma max_list_replicate k n : max_list (replicate (S k) n) = n.
Proof. induction k as [|k IH]; simpl in *; lia. Qed.

Lemma column_replicate i k (row : list Z) :
  column i (replicate k row) = replicate k (nth i row 1).
Proof. exact (fmap_replicate (λ row : list Z, nth i row 1) k row). Qed.

Lemma col_merge_same r k : col_merge r (replicate k r) = Ok r.
Proof.
  induction k as [|k IH]; [done|]. simpl.
  replace (merge1 r r) with (Ok (A:=Z) r); [exact IH|].
  unfold merge1. repeat case_bool_decide; done.
Qed.

Lemma broadcast_shapes_copies (s : list Z) (k : nat) :
  broadcast_shapes (replicate (S k) s) = Ok s.
Proof.
  rewrite broadcast_shapes_columns. cbn [replicate broadcast_columns].
  change (s :: replicate k s) with (replicate (S k) s).
  rewrite fmap_replicate, max_list_replicate, (pad_full (length s) s) by done.
  apply collect_read_back. intros i Hi.
  rewrite fmap_replicate, column_replicate, (pad_full (length s) s) by done.
  apply col_merge_same.
Qed.

Lemma merge1_absorb r x : (v ← merge1 r x; merge1 v r) = merge1 r x.
Proof.
  unfold merge1. repeat (case_bool_decide; simpl); try done; congruence.
Qed.

(** Repeating the first of two shapes as a third changes nothing. *)
Lemma broadcast_shapes_first_again (a b : list Z) :
  broadcast_shapes [a; b; a] = broadcast_shapes [a; b].
Proof.
  rewrite broadcast_triple, broadcast_pair. cbv zeta.
  replace ((length a `max` length b) `max` length a)%nat
    with (length a `max` length b)%nat by lia.
  apply collect_ext. intros i _. apply merge1_absorb.
Qed.



Lemma max_list_app (l1 l2 : list nat) :
  max_list (l1 ++ l2) = (max_list l1 `max` max_list l2)%nat.
Proof. induction l1 as [|x l1 IH]; simpl; [done|]. rewrite IH. lia. Qed.

(** On sizes held exactly, broadcasting can be done in stages: when
    [broadcast_shapes] returns
    [r1] for the shapes [l1], broadcasting [r1] with further shapes [l2]
    gives what broadcasting all of [l1] and [l2] at once gives, shape or
    error. *)
Lemma exact_sizes_in_stages (l1 l2 : list (list Z)) r1 :
  broadcast_shapes l1 = Ok r1 →
  broadcast_shapes (r1 :: l2) = broadcast_shapes (l1 ++ l2).
Proof.
  rewrite !broadcast_shapes_columns. intros Hr1.
  destruct (broadcast_columns_ok _ _ Hr1) as [Hlen _].
  destruct l1 as [|s0 rest1]; [done|].
  unfold broadcast_columns in Hr1. apply collect_ok in Hr1.
  set (n1 := max_list (length <$> s0 :: rest1)) in *.
  cbn [app]. unfold broadcast_columns.
  assert (Hn : max_list (length <$> r1 :: l2) =
               max_list (length <$> s0 :: rest1 ++ l2)).
  { change (s0 :: rest1 ++ l2) with ((s0 :: rest1) ++ l2).
    rewrite fmap_app, max_list_app. fold n1. rewrite fmap_cons. simpl. lia. }
  rewrite <- Hn. set (n := max_list (length <$> r1 :: l2)).
  assert (Hn1 : (n1 ≤ n)%nat) by (unfold n; rewrite fmap_cons; simpl; lia).
  assert (Hall : ∀ s, s ∈ s0 :: rest1 → (length s ≤ n1)%nat)
    by (intros s Hs; by apply length_le_maxlen).
  apply collect_ext. intros i Hi%elem_of_seq.
  rewrite fmap_app, column_app, col_merge_app.
  replace (col_merge (nth i (pad n s0) 1) (column i (pad n <$> rest1)))
    with (Ok (A:=Z) (nth i (pad n r1) 1)); [done|].
  symmetry.
  rewrite (column_padded_further n1 n rest1 i) by (try done; intros s Hs; apply Hall; by right).
  rewrite (pad_pad n1 n s0), (pad_pad n1 n r1) by (try lia; apply Hall; by left).
  rewrite (pad_full n1 r1) by done. rewrite !nth_ones_app.
  case_decide as Hlt; [apply col_merge_ones|].
  destruct (nth_lookup_or_length r1 (i - (n - n1)) 1) as [Hl|Hl]; [|lia].
  destruct (Forall2_lookup_r _ _ _ _ _ Hr1 Hl) as (k & Hk & Hm).
  apply lookup_seq in Hk as [-> _]. exact Hm.
Qed.



(** On sizes held exactly, a mismatch is never repaired by further shapes:
    when
    [broadcast_shapes] fails on some shapes, it fails with the
    shape-mismatch error on every list that contains them all. *)
Lemma exact_sizes_mismatch_persists (shapes shapes' : list (list Z)) e :
  shapes ≠ [] → broadcast_shapes shapes = Err e →
  (∀ s, s ∈ shapes → s ∈ shapes') →
  broadcast_shapes shapes' = Err shape_mismatch.
Proof.
  intros Hne He Hsub. rewrite broadcast_shapes_columns in He.
  destruct (broadcast_columns_err _ _ Hne He) as [_ (i & Hi & Hc)].
  set (n := max_list (length <$> shapes)) in *.
  set (n' := max_list (length <$> shapes')).
  assert (Hlen : ∀ s, s ∈ shapes → (length s ≤ n)%nat)
    by (intros s Hs; by apply length_le_maxlen).
  assert (Hlen' : ∀ s, s ∈ shapes' → (length s ≤ n')%nat)
    by (intros s Hs; by apply length_le_maxlen).
  assert (Hnn : (n ≤ n')%nat).
  { destruct shapes as [|s0 rest]; [done|].
    pose proof (max_list_elem_of (length <$> s0 :: rest)) as Hmax.
    apply list_elem_of_fmap in Hmax as (s & Hs & Hin); [|done].
    fold n in Hs. rewrite Hs. apply Hlen', Hsub, Hin. }
  assert (Hne' : shapes' ≠ []).
  { destruct shapes as [|s0 rest]; [done|]. intros ->.
    specialize (Hsub s0). rewrite elem_of_nil in Hsub. apply Hsub. by left. }
  destruct Hc as (d & d' & Hd & Hd' & Hrest).
  apply (column_elem shapes n i) in Hd as (s & Hs & Hsd); [|done|done].
  apply (column_elem shapes n i) in Hd' as (t & Ht & Htd); [|done|done].
  assert (Hshift : ∀ u x, u ∈ shapes → pad n u !! i = Some x →
            pad n' u !! ((n' - n) + i)%nat = Some x).
  { intros u x Hu Hx. rewrite (pad_pad n n' u) by auto.
    rewrite lookup_app_r by (rewrite length_replicate; lia).
    rewrite length_replicate. by replace (n' - n + i - (n' - n))%nat with i by lia. }
  destruct (broadcast_shapes shapes') as [r|e'] eqn:Hb.
  - exfalso. rewrite broadcast_shapes_columns in Hb.
    destruct (broadcast_columns_ok _ _ Hb) as [Hl Hsum]. fold n' in Hl, Hsum.
    destruct (lookup_lt_is_Some_2 r ((n' - n) + i)%nat) as [v Hv]; [lia|].
    apply Hsum, summarises_not_conflicting in Hv. apply Hv.
    exists d, d'. split; [apply column_elem; eauto with lia|].
    split; [apply column_elem; eauto with lia|done].
  - by apply broadcast_shapes_error in Hb as ->.
Qed.

End BroadcastFurther.

Section NumpyArrayFurther.
Import Broadcast.
Import NumpyArray (scalar, py_int, np_int64, np_uint64, np_float64, value,
                   python_ints, int64_sizes, is_int64, int64_array, sizes).

(** X2.  Any positive number of copies of one shape whose sizes fit a signed
    64-bit word broadcast to that shape, returned as a tuple of int64
    scalars (sizes 0 and 1 and the empty shape included). *)
Theorem broadcast_shapes_same (s : shape) (k : nat) :
  int64_sizes s →
  NumpyArray.broadcast_shapes (replicate (S k) (python_ints s)) =
    Ok (np_int64 <$> s).
Proof.
  intros Hs.
  rewrite <- (fmap_replicate python_ints (S k) s).
  rewrite broadcast_shapes_python_ints by (by apply Forall_replicate).
  by rewrite broadcast_shapes_copies.
Qed.

(** X5.  Broadcasting can be done in stages, for shapes whose sizes fit a
    signed 64-bit word: when [broadcast_shapes] returns [r1] for the shapes
    [l1], broadcasting [r1] with further shapes [l2] gives what broadcasting
    all of [l1] and [l2] at once gives, shape or error. *)
Theorem broadcast_shapes_in_stages (l1 l2 : list shape) (r1 : list scalar) :
  Forall int64_sizes l1 → Forall int64_sizes l2 →
  NumpyArray.broadcast_shapes (python_ints <$> l1) = Ok r1 →
  NumpyArray.broadcast_shapes (r1 :: (python_ints <$> l2)) =
    NumpyArray.broadcast_shapes (python_ints <$> (l1 ++ l2)).
Proof.
  intros H1 H2.
  rewrite (broadcast_shapes_python_ints l1 H1).
  rewrite (broadcast_shapes_python_ints (l1 ++ l2)) by (by apply Forall_app).
  destruct (broadcast_shapes l1) as [rs|e] eqn:Hl1; [|done].
  intros [= <-].
  rewrite broadcast_shapes_int64.
  2:{ apply Forall_cons. split; [apply int64_scalars_int64|].
      apply Forall_fmap. eapply Forall_impl; [exact H2|].
      intros s. apply python_ints_int64. }
  unfold sizes at 1. rewrite fmap_cons. fold (sizes (python_ints <$> l2)).
  rewrite int64_scalars_value, sizes_python_ints.
  by rewrite (exact_sizes_in_stages l1 l2 rs Hl1).
Qed.

(** X7.  A mismatch is never repaired by further shapes, for shapes whose
    sizes fit a signed 64-bit word: when [broadcast_shapes] fails on some
    shapes, it fails with the shape-mismatch error on every list that
    contains them all. *)
Theorem broadcast_shapes_mismatch_persists (shapes shapes' : list shape) e :
  shapes ≠ [] → Forall int64_sizes shapes' →
  (∀ s, s ∈ shapes → s ∈ shapes') →
  NumpyArray.broadcast_shapes (python_ints <$> shapes) = Err e →
  NumpyArray.broadcast_shapes (python_ints <$> shapes') = Err shape_mismatch.
Proof.
  intros Hne Hfit Hsub.
  assert (Hfit0 : Forall int64_sizes shapes).
  { apply Forall_forall. intros s Hs.
    by apply (proj1 (Forall_forall _ _) Hfit), Hsub. }
  rewrite (broadcast_shapes_python_ints shapes Hfit0).
  rewrite (broadcast_shapes_python_ints shapes' Hfit).
  destruct (broadcast_shapes shapes) as [rs|e0] eqn:Hb; [done|]. intros _.
  by rewrite (exact_sizes_mismatch_persists shapes shapes' e0 Hne Hb Hsub).
Qed.

End NumpyArrayFurther.

(** * Further properties of provider resolution *)

Section ResolutionMore.
Context {H : Host}.

Lemma all_numpy_types_forallb (objects : list obj) :
  (all_numpy_types objects).2 = forallb isinstance_numpy_types objects.
Proof.
  induction objects as [|o rest IH]; simpl; [done|].
  destruct (isinstance_numpy_types o); simpl; [|done].
  by destruct (all_numpy_types rest) as [t b].
Qed.

(** When and with what [get_library_for] returns. *)
Lemma get_library_for_returns (objects : list obj) (l : library) :
  (get_library_for objects).2 = Ok l →
  (forallb isinstance_numpy_types objects = true ∧ l = numpy_library) ∨
  (forallb isinstance_numpy_types objects = false ∧
   ∃ o, o ∈ objects ∧ pk_mathlib_library o = Some l ∧
        forallb (accepts l) objects = true).
Proof.
  unfold get_library_for. pose proof (all_numpy_types_forallb objects) as Hb.
  destruct (all_numpy_types objects) as [t1 b]. simpl in Hb. subst b.
  destruct (forallb isinstance_numpy_types objects).
  - intros [= <-]. by left.
  - pose proof (search_libraries_found objects objects) as Hfound.
    destruct (search_libraries objects objects) as [t2 [l2|]]; simpl in *; [|done].
    intros [= ->]. right. split; [done|].
    destruct (Hfound l eq_refl) as (k & o & Hk & Hpk & Hall & _).
    exists o. split; [|done]. apply list_elem_of_lookup. eauto.
Qed.

Lemma get_library_for_fails (objects : list obj) e :
  (get_library_for objects).2 = Err e →
  forallb isinstance_numpy_types objects = false ∧
  ∀ o l, o ∈ objects → pk_mathlib_library o = Some l →
         forallb (accepts l) objects = false.
Proof.
  unfold get_library_for. pose proof (all_numpy_types_forallb objects) as Hb.
  destruct (all_numpy_types objects) as [t1 b]. simpl in Hb. subst b.
  destruct (forallb isinstance_numpy_types objects); [done|].
  pose proof (search_libraries_none objects objects) as Hnone.
  destruct (search_libraries objects objects) as [t2 [l2|]]; simpl in *; [done|].
  intros _. split; [done|]. by destruct (Hnone eq_refl) as [Hrej _].
Qed.

(** X8.  Provided the numpy library accepts exactly the plain numeric types
    (as [NumpyFunctionLibrary.accepts] does), a library returned by
    [get_library_for] accepts every operand. *)
Theorem get_library_for_accepts_all (objects : list obj) (l : library) :
  (∀ o, accepts numpy_library o = isinstance_numpy_types o) →
  (get_library_for objects).2 = Ok l →
  ∀ o, o ∈ objects → accepts l o = true.
Proof.
  intros Hnumpy Hl o Ho.
  destruct (get_library_for_returns objects l Hl) as [[Hall ->]|(_ & o' & _ & _ & Hall)].
  - rewrite Hnumpy. by apply (proj1 (forallb_elem_of _ _) Hall).
  - by apply (proj1 (forallb_elem_of _ _) Hall).
Qed.

Lemma forallb_perm {A} (f : A → bool) (l l' : list A) :
  l ≡ₚ l' → forallb f l = forallb f l'.
Proof.
  intros Hp. apply eq_true_iff_eq. rewrite !forallb_elem_of.
  split; intros Hf a Ha; apply Hf; [by rewrite Hp|by rewrite <- Hp].
Qed.

(** X9.  Whether [get_library_for] finds a library does not depend on the
    order of the operands; and when at most one library among those
    advertised accepts every operand, the library found does not depend on
    it either. *)
Theorem get_library_for_permutation (objects objects' : list obj) :
  objects ≡ₚ objects' →
  is_ok (get_library_for objects).2 = is_ok (get_library_for objects').2 ∧
  ((∀ o1 o2 l1 l2, o1 ∈ objects → o2 ∈ objects →
      pk_mathlib_library o1 = Some l1 → pk_mathlib_library o2 = Some l2 →
      forallb (accepts l1) objects = true →
      forallb (accepts l2) objects = true → l1 = l2) →
   ∀ l, (get_library_for objects).2 = Ok l → (get_library_for objects').2 = Ok l).
Proof.
  intros Hp.
  assert (Hkey : ∀ a b : list obj, a ≡ₚ b → ∀ l,
            (get_library_for a).2 = Ok l → ∃ l', (get_library_for b).2 = Ok l' ∧
              ((forallb isinstance_numpy_types a = true ∧ l = numpy_library ∧ l' = l) ∨
               (∃ o o', o ∈ a ∧ o' ∈ a ∧ pk_mathlib_library o = Some l ∧
                  pk_mathlib_library o' = Some l' ∧
                  forallb (accepts l) a = true ∧ forallb (accepts l') a = true))).
  { intros a b Hab l Hl.
    destruct (get_library_for b).2 as [l'|e] eqn:Hb.
    - exists l'. split; [done|].
      destruct (get_library_for_returns a l Hl) as [[Hall ->]|(Hno & o & Ho & Hpk & Hall)];
        destruct (get_library_for_returns b l' Hb)
          as [[Hall' ->]|(Hno' & o' & Ho' & Hpk' & Hall')];
        rewrite <- ?(forallb_perm _ a b Hab) in *; try congruence.
      + by left.
      + right. exists o, o'. rewrite <- Hab in Ho'. done.
    - exfalso. destruct (get_library_for_fails b e Hb) as [Hno Hrej].
      rewrite <- (forallb_perm _ a b Hab) in Hno.
      destruct (get_library_for_returns a l Hl) as [[Hall ->]|(_ & o & Ho & Hpk & Hall)];
        [congruence|].
      rewrite (forallb_perm _ a b Hab) in Hall. rewrite Hab in Ho.
      by rewrite (Hrej o l Ho Hpk) in Hall. }
  split.
  - destruct (get_library_for objects).2 as [l|e] eqn:H1.
    + by destruct (Hkey _ _ Hp l H1) as (l' & -> & _).
    + destruct (get_library_for objects').2 as [l'|e'] eqn:H2; [|done].
      symmetry in Hp. destruct (Hkey _ _ Hp l' H2) as (l & Hl & _). congruence.
  - intros Huniq l Hl.
    destruct (Hkey _ _ Hp l Hl) as (l' & Hl' & [(_ & _ & ->)|(o & o' & Ho & Ho' & Hpk & Hpk' & Ha & Ha')]);
      [done|].
    by rewrite (Huniq o o' l l' Ho Ho' Hpk Hpk' Ha Ha').
Qed.

End ResolutionMore.

(** * Further properties of the tidying adapter *)

Section AdapterMore.
Context {H : Host} {W : Type} (h : handler W).
Import Broadcast.

Ltac run_all Hreg :=
  repeat (rewrite ?run_bind, ?run_do, ?run_ret, ?run_lift, ?run_throw, ?Hreg;
          cbn beta iota zeta; cbn [fst snd];
          try match goal with
              | |- context [run h (if ?b then _ else _) _] => destruct b
              | |- context [if ?b then Throw _ else _] => destruct b
              | |- context [if ?b then Ret _ else _] => destruct b
              | |- context [h ?R ?c ?w] => destruct (h R c w) as [[?|?] ?]
              | |- context [broadcast_shapes ?l] => destruct (broadcast_shapes l)
              | |- context [registry_get ?n] => destruct (registry_get n)
              end).

Ltac no_tidy :=
  cbn [app];
  repeat first [ apply Forall_nil_2 | apply Forall_cons_2; [reflexivity|] ].

(** Find the prefix of a concrete trace that ends with the given call. *)
Ltac before_last :=
  first [ eexists [], _; split; [reflexivity|]
        | eexists [_], _; split; [reflexivity|]
        | eexists [_; _], _; split; [reflexivity|]
        | eexists [_; _; _], _; split; [reflexivity|]
        | eexists [_; _; _; _], _; split; [reflexivity|]
        | eexists [_; _; _; _; _], _; split; [reflexivity|]
        | eexists [_; _; _; _; _; _], _; split; [reflexivity|]
        | eexists [_; _; _; _; _; _; _], _; split; [reflexivity|]
        | eexists [_; _; _; _; _; _; _; _], _; split; [reflexivity|]
        | eexists [_; _; _; _; _; _; _; _; _], _; split; [reflexivity|]
        | eexists [_; _; _; _; _; _; _; _; _; _], _; split; [reflexivity|] ].

(** X10.  Whatever the library answers, the adapter calls the tidy
    implementation at most once and makes no call after it; a call of the
    adapter that returns has called it.  So either no tidy call was made and
    the adapter raised, or the trace ends with the one tidy call. *)
Theorem tidy_called_once_and_last (self : library) (opname : string)
    (kw : kwargs) (out : option obj) (w : W) :
  (∀ x t r w',
     run h (tidy_std_unary self opname x out kw) w = (t, r, w') →
     (Forall (λ ev, is_tidy_call ev = false) t ∧ is_ok r = false) ∨
     (∃ pre args, t = pre ++ [Event (Tidy self opname args kw)] ∧
        Forall (λ ev, is_tidy_call ev = false) pre)) ∧
  (∀ x y t r w',
     run h (tidy_std_binary self opname x y out kw) w = (t, r, w') →
     (Forall (λ ev, is_tidy_call ev = false) t ∧ is_ok r = false) ∨
     (∃ pre args, t = pre ++ [Event (Tidy self opname args kw)] ∧
        Forall (λ ev, is_tidy_call ev = false) pre)).
Proof.
  split.
  - intros x t r w'. unfold tidy_std_unary. destruct out as [out0|];
      run_all I; intros Heq; inversion Heq; subst;
      first [ left; split; [solve [no_tidy]|reflexivity]
            | right; before_last; solve [no_tidy] ].
  - intros x y t r w'. unfold tidy_std_binary. destruct out as [out0|];
      run_all I; intros Heq; inversion Heq; subst;
      first [ left; split; [solve [no_tidy]|reflexivity]
            | right; before_last; solve [no_tidy] ].
Qed.

Ltac no_new_empty :=
  cbn [app];
  repeat first [ apply Forall_nil_2 | apply Forall_cons_2; [reflexivity|] ].

(** X11.  With an output buffer supplied, a call of the unary or the binary
    adapter that returns, returns the very object it was given as output and
    has allocated nothing. *)
Theorem tidy_with_out_returns_out (self : library) (opname : string)
    (kw : kwargs) (out : obj) (w : W) :
  (∀ x t v w',
     run h (tidy_std_unary self opname x (Some out) kw) w = (t, Ok v, w') →
     v = out ∧ Forall (λ ev, is_new_empty_call ev = false) t) ∧
  (∀ x y t v w',
     run h (tidy_std_binary self opname x y (Some out) kw) w = (t, Ok v, w') →
     v = out ∧ Forall (λ ev, is_new_empty_call ev = false) t).
Proof.
  split.
  - intros x t v w'. unfold tidy_std_unary.
    run_all I; intros Heq; inversion Heq; subst;
      (split; [reflexivity|solve [no_new_empty]]).
  - intros x y t v w'. apply tidy_std_binary_returns_out.
Qed.

(** Find the one allocation in a concrete trace. *)
Ltac around_new_empty :=
  first [ eexists [_; _], _, _, _; split; [reflexivity|]
        | eexists [_; _; _], _, _, _; split; [reflexivity|]
        | eexists [_; _; _; _], _, _, _; split; [reflexivity|]
        | eexists [_; _; _; _; _], _, _, _; split; [reflexivity|]
        | eexists [_; _; _; _; _; _], _, _, _; split; [reflexivity|]
        | eexists [_; _; _; _; _; _; _], _, _, _; split; [reflexivity|]
        | eexists [_; _; _; _; _; _; _; _], _, _, _; split; [reflexivity|] ].

Lemma unary_without_out_allocates_once (self : library) (opname : string)
    (kw : kwargs) (w : W) x t v w' :
  run h (tidy_std_unary self opname x None kw) w = (t, Ok v, w') →
  ∃ pre post sh dt,
    t = pre ++ Event (NewEmpty self sh dt) :: post ∧
    Forall (λ ev, is_new_empty_call ev = false) (pre ++ post).
Proof.
  unfold tidy_std_unary.
  run_all I; intros Heq; inversion Heq; subst;
    around_new_empty; solve [no_new_empty].
Qed.

Lemma binary_without_out_allocates_once (self : library) (opname : string)
    (kw : kwargs) (w : W) x y t v w' :
  run h (tidy_std_binary self opname x y None kw) w = (t, Ok v, w') →
  ∃ pre post sh dt,
    t = pre ++ Event (NewEmpty self sh dt) :: post ∧
    Forall (λ ev, is_new_empty_call ev = false) (pre ++ post).
Proof.
  unfold tidy_std_binary.
  run_all I; intros Heq; inversion Heq; subst;
    around_new_empty; solve [no_new_empty].
Qed.

(** X12.  Without an output buffer, a call of the unary or the binary
    adapter that returns has allocated exactly one container. *)
Theorem tidy_without_out_allocates_once (self : library) (opname : string)
    (kw : kwargs) (w : W) :
  (∀ x t v w',
     run h (tidy_std_unary self opname x None kw) w = (t, Ok v, w') →
     ∃ pre post sh dt,
       t = pre ++ Event (NewEmpty self sh dt) :: post ∧
       Forall (λ ev, is_new_empty_call ev = false) (pre ++ post)) ∧
  (∀ x y t v w',
     run h (tidy_std_binary self opname x y None kw) w = (t, Ok v, w') →
     ∃ pre post sh dt,
       t = pre ++ Event (NewEmpty self sh dt) :: post ∧
       Forall (λ ev, is_new_empty_call ev = false) (pre ++ post)).
Proof.
  split.
  - intros x t v w'. apply unary_without_out_allocates_once.
  - intros x y t v w'. apply binary_without_out_allocates_once.
Qed.

(** X13.  Without an output buffer and for an operation name that is not in
    the registry, the adapter raises, and neither allocates nor calls a tidy
    implementation, whatever the library answers. *)
Theorem tidy_unregistered_operation (self : library) (opname : string)
    (kw : kwargs) (w : W) e :
  registry_get opname = Err e →
  (∀ x t r w',
     run h (tidy_std_unary self opname x None kw) w = (t, r, w') →
     is_ok r = false ∧
     Forall (λ ev, is_new_empty_call ev = false) t ∧
     Forall (λ ev, is_tidy_call ev = false) t) ∧
  (∀ x y t r w',
     run h (tidy_std_binary self opname x y None kw) w = (t, r, w') →
     is_ok r = false ∧
     Forall (λ ev, is_new_empty_call ev = false) t ∧
     Forall (λ ev, is_tidy_call ev = false) t).
Proof.
  intros Hreg. split.
  - intros x t r w'. unfold tidy_std_unary.
    run_all Hreg; intros Heq; inversion Heq; subst;
      (split; [reflexivity|split; [solve [no_new_empty]|solve [no_tidy]]]).
  - intros x y t r w'. unfold tidy_std_binary.
    run_all Hreg; intros Heq; inversion Heq; subst;
      (split; [reflexivity|split; [solve [no_new_empty]|solve [no_tidy]]]).
Qed.

(** X14.  A unary operation whose output is its own input (the case that
    the docstring asks to support): when the library converts the object
    and gives its shape the same way both times, and the shape is not
    [()], the shape test passes and the tidy implementation is called on the
    converted object as input and as output, with no reshaping, broadcasting
    or allocation; the caller gets the object back when it succeeds. *)
Theorem tidy_unary_on_itself (self : library) (opname : string) (kw : kwargs)
    (x x' : obj) (sh : list Z) (w w1 : W) :
  answers h [Answer (Typeconvert self x) x'; Answer (Shape self x') sh;
             Answer (Typeconvert self x) x'; Answer (Shape self x') sh] w w1 →
  sh ≠ [] →
  run h (tidy_std_unary self opname x (Some x) kw) w =
    ([Event (Typeconvert self x); Event (Shape self x');
      Event (Typeconvert self x); Event (Shape self x');
      Event (Tidy self opname [x'; x'] kw)],
     (λ _, x) <$> (h _ (Tidy self opname [x'; x'] kw) w1).1,
     (h _ (Tidy self opname [x'; x'] kw) w1).2).
Proof.
  intros Hs Hsh. unfold tidy_std_unary.
  do 4 (let w1 := fresh "w" in let E := fresh "E" in
        cbn [answers] in Hs; destruct Hs as (w1 & E & Hs);
        rewrite run_bind, (run_do_ok h _ _ _ _ E); cbn beta iota zeta).
  cbn [answers] in Hs. destruct Hs.
  pose proof (broadcast_shapes_copies sh 1) as Hsame. cbn [replicate] in Hsame.
  rewrite run_bind, run_lift, Hsame. cbn beta iota zeta.
  rewrite (bool_decide_eq_false_2 (sh ≠ sh)) by (intros Hne; by apply Hne).
  rewrite (bool_decide_eq_false_2 (sh = [])) by done.
  rewrite run_bind, run_ret. cbn beta iota zeta. cbn [fst snd].
  rewrite run_bind, run_do.
  by destruct (h _ (Tidy self opname [x'; x'] kw) w1) as [[[]|e] w9].
Qed.

(** X15.  A binary operation whose output is its first input, as the
    in-place operators call it: when the second input does not broadcast to
    the shape of the first (the broadcast of the two shapes fails or is
    another shape), the call raises after the conversions and shape queries
    and makes no other call; when it does, a further call is made. *)
Theorem tidy_binary_into_first (self : library) (opname : string) (kw : kwargs)
    (x y x' y' : obj) (xsh ysh : list Z) (w w1 : W) :
  answers h [Answer (Typeconvert self x) x'; Answer (Shape self x') xsh;
             Answer (Typeconvert self y) y'; Answer (Shape self y') ysh;
             Answer (Typeconvert self x) x'; Answer (Shape self x') xsh] w w1 →
  let queries := [Event (Typeconvert self x); Event (Shape self x');
                  Event (Typeconvert self y); Event (Shape self y');
                  Event (Typeconvert self x); Event (Shape self x')] in
  (broadcast_shapes [xsh; ysh] ≠ Ok xsh →
     ∃ e, (e = shape_mismatch ∨ e = output_shape_error) ∧
       run h (tidy_std_binary self opname x y (Some x) kw) w = (queries, Err e, w1)) ∧
  (broadcast_shapes [xsh; ysh] = Ok xsh →
     ∃ c t r w', run h (tidy_std_binary self opname x y (Some x) kw) w =
                   (queries ++ c :: t, r, w')).
Proof.
  intros Hs queries. unfold tidy_std_binary.
  do 6 (let w1 := fresh "w" in let E := fresh "E" in
        cbn [answers] in Hs; destruct Hs as (w1 & E & Hs);
        rewrite run_bind, (run_do_ok h _ _ _ _ E); cbn beta iota zeta).
  cbn [answers] in Hs. destruct Hs.
  rewrite run_bind, run_lift, broadcast_shapes_first_again.
  split.
  - intros Hne. destruct (broadcast_shapes [xsh; ysh]) as [bsh|e] eqn:Hb.
    + exists output_shape_error. split; [by right|].
      rewrite bool_decide_eq_true_2 by congruence. reflexivity.
    + apply broadcast_shapes_error in Hb as ->; [|done].
      exists shape_mismatch. split; [by left|done].
  - intros ->. cbn beta iota zeta.
    rewrite (bool_decide_eq_false_2 (xsh ≠ xsh)) by (intros Hne; by apply Hne).
    run_all I; by eexists _, _, _, _.
Qed.

Lemma tidied_binary_attribute (l : library) (op : binary_operator) :
  lib_base l = TidiedFunctionLibrary → op ≠ mod_ →
  binary_name op ∉ lib_own l →
  library_getattr l (binary_name op) = Some (TidyStdBinary (binary_name op)).
Proof.
  intros Hbase Hop Hown. unfold library_getattr, in_names.
  rewrite bool_decide_eq_false_2 by done. rewrite Hbase.
  destruct op; try done; vm_compute; reflexivity.
Qed.

Lemma tidied_unary_attribute (l : library) (op : unary_operator) :
  lib_base l = TidiedFunctionLibrary →
  unary_name op ∉ lib_own l →
  library_getattr l (unary_name op) = Some (TidyStdUnary (unary_name op)).
Proof.
  intros Hbase Hown. unfold library_getattr, in_names.
  rewrite bool_decide_eq_false_2 by done. rewrite Hbase.
  destruct op; vm_compute; reflexivity.
Qed.

Lemma tidied_reflected_attribute (l : library) (op : reflected_operator) :
  lib_base l = TidiedFunctionLibrary → op ≠ rmod →
  reflected_name op ∉ lib_own l →
  library_getattr l (reflected_name op) = Some (TidyStdBinary (reflected_name op)).
Proof.
  intros Hbase Hop Hown. unfold library_getattr, in_names.
  rewrite bool_decide_eq_false_2 by done. rewrite Hbase.
  destruct op; try done; vm_compute; reflexivity.
Qed.

Lemma tidied_power_attribute (l : library) :
  lib_base l = TidiedFunctionLibrary → "power" ∉ lib_own l →
  library_getattr l "power" = Some (TidyStdBinary "power").
Proof.
  intros Hbase Hown. unfold library_getattr, in_names.
  rewrite bool_decide_eq_false_2 by done. rewrite Hbase.
  vm_compute; reflexivity.
Qed.

(** X16.  On a tidied library that does not redefine the operation, every
    operator of [MathlibDelegatingObject] that is not an in-place form,
    other than the modulo forms, is an adapter called without output: a
    comparison or arithmetic operator and the power operator the binary
    adapter on [(self, other)], a reflected operator and the reflected
    power operator the binary adapter on [(other, self)], a unary operator
    the unary adapter on [self] (on the object's own library); so, unlike
    the in-place forms, an operator that returns has allocated exactly one
    container for its result.  The power operators with a modulus raise
    [NotImplementedError] and call nothing. *)
Theorem operators_allocate_their_result (l : library) (self other : obj) (w : W) :
  lib_base l = TidiedFunctionLibrary →
  (∀ op, (get_library_for [self; other]).2 = Ok l → op ≠ mod_ →
     binary_name op ∉ lib_own l →
     run h (binary op self other) w =
       run h (tidy_std_binary l (binary_name op) self other None no_kwargs) w ∧
     ∀ t v w', run h (binary op self other) w = (t, Ok v, w') →
       allocated_once l t) ∧
  (∀ op, (get_library_for [other; self]).2 = Ok l → op ≠ rmod →
     reflected_name op ∉ lib_own l →
     run h (reflected op self other) w =
       run h (tidy_std_binary l (reflected_name op) other self None no_kwargs) w ∧
     ∀ t v w', run h (reflected op self other) w = (t, Ok v, w') →
       allocated_once l t) ∧
  ((get_library_for [self; other]).2 = Ok l → "power" ∉ lib_own l →
     run h (pow self other None) w =
       run h (tidy_std_binary l "power" self other None no_kwargs) w ∧
     run h (rpow self other None) w =
       run h (tidy_std_binary l "power" other self None no_kwargs) w ∧
     (∀ t v w', run h (pow self other None) w = (t, Ok v, w') →
        allocated_once l t) ∧
     (∀ t v w', run h (rpow self other None) w = (t, Ok v, w') →
        allocated_once l t)) ∧
  (∀ modulo,
     run h (pow self other (Some modulo)) w =
       ([], Err (NotImplementedError EmptyString), w) ∧
     run h (rpow self other (Some modulo)) w =
       ([], Err (NotImplementedError EmptyString), w)) ∧
  (∀ op, pk_mathlib_library self = Some l → unary_name op ∉ lib_own l →
     run h (unary op self) w =
       run h (tidy_std_unary l (unary_name op) self None no_kwargs) w ∧
     ∀ t v w', run h (unary op self) w = (t, Ok v, w') →
       allocated_once l t).
Proof.
  intros Hbase. split; [|split; [|split; [|split]]].
  - intros op Hl Hop Hown.
    assert (Heq : binary op self other =
      tidy_std_binary l (binary_name op) self other None no_kwargs).
    { unfold binary, dispatch_binary, invoke_binary.
      rewrite Hl. by rewrite tidied_binary_attribute. }
    rewrite Heq. split; [done|]. intros t v w'.
    apply binary_without_out_allocates_once.
  - intros op Hl Hop Hown.
    assert (Heq : reflected op self other =
      tidy_std_binary l (reflected_name op) other self None no_kwargs).
    { unfold reflected, dispatch_binary_reflected, invoke_binary.
      rewrite Hl. by rewrite tidied_reflected_attribute. }
    rewrite Heq. split; [done|]. intros t v w'.
    apply binary_without_out_allocates_once.
  - intros Hl Hown.
    assert (Hpow : pow self other None =
      tidy_std_binary l "power" self other None no_kwargs).
    { unfold pow, invoke_binary. rewrite Hl. by rewrite tidied_power_attribute. }
    assert (Hrpow : rpow self other None =
      tidy_std_binary l "power" other self None no_kwargs).
    { unfold rpow, invoke_binary. rewrite Hl. by rewrite tidied_power_attribute. }
    rewrite Hpow, Hrpow. split; [done|]. split; [done|].
    split; intros t v w'; apply binary_without_out_allocates_once.
  - intros modulo. split; reflexivity.
  - intros op Hpk Hown.
    assert (Heq : unary op self =
      tidy_std_unary l (unary_name op) self None no_kwargs).
    { unfold unary, invoke_unary. rewrite Hpk. by rewrite tidied_unary_attribute. }
    rewrite Heq. split; [done|]. intros t v w'.
    apply unary_without_out_allocates_once.
Qed.

End AdapterMore.

(** * Further properties of the operators and of the attributes *)

Section OperatorsMore.
Context {H : Host} {W : Type} (h : handler W).


(** X18.  Apart from the three modulo forms, every operator of
    [MathlibDelegatingObject] names an operation of the registry with the
    signature its dispatch needs: the binary, reflected and in-place forms
    and the power forms a [std_binary] one, the unary forms a [std_unary]
    one. *)
Theorem operators_name_registered_operations :
  (∀ op, op ≠ mod_ → ∃ fl, registry_get (binary_name op) =
                             Ok (FS (binary_name op) Signatures.std_binary fl)) ∧
  (∀ op, op ≠ rmod → ∃ fl, registry_get (reflected_name op) =
                             Ok (FS (reflected_name op) Signatures.std_binary fl)) ∧
  (∀ op, op ≠ imod → ∃ fl, registry_get (inplace_name op) =
                             Ok (FS (inplace_name op) Signatures.std_binary fl)) ∧
  (∃ fl, registry_get "power" = Ok (FS "power" Signatures.std_binary fl)) ∧
  (∀ op, ∃ fl, registry_get (unary_name op) =
                 Ok (FS (unary_name op) Signatures.std_unary fl)).
Proof.
  repeat split.
  - intros op Hop. destruct op; try done; eexists; vm_compute; reflexivity.
  - intros op Hop. destruct op; try done; eexists; vm_compute; reflexivity.
  - intros op Hop. destruct op; try done; eexists; vm_compute; reflexivity.
  - eexists; vm_compute; reflexivity.
  - intros op. destruct op; eexists; vm_compute; reflexivity.
Qed.

End OperatorsMore.

Section RegistryMore.
Context {H : Host} {W : Type} (h : handler W).

Lemma foldl_insert_lookup (l : list FunctionSpecification)
    (m : gmap string FunctionSpecification) n fs :
  foldl (λ m fs, <[name fs := fs]> m) m l !! n = Some fs →
  (fs ∈ l ∧ name fs = n) ∨ m !! n = Some fs.
Proof.
  revert m. induction l as [|x l IH]; intros m; simpl; [by right|].
  intros Hl. destruct (IH _ Hl) as [[Hin Hn]|Hm].
  - left. split; [by right|done].
  - destruct (decide (name x = n)) as [Hx|Hx].
    + rewrite <- Hx, lookup_insert_eq in Hm. injection Hm as <-.
      left. split; [by left|done].
    + rewrite lookup_insert_ne in Hm by done. by right.
Qed.

Lemma every_specification_found :
  Forall (λ fs, registry_get (name fs) = Ok fs) function_specifications.
Proof.
  unfold function_specifications.
  repeat (apply Forall_cons_2; [vm_compute; reflexivity|]). apply Forall_nil_2.
Qed.

(** X19.  The registry keeps every specification of the list it is built
    from (no name occurs twice, so none is replaced): looking up the name of
    a listed specification returns that specification, and a lookup that
    succeeds returns a listed specification of the name asked for; any other
    name raises [KeyError]. *)
Theorem registry_round_trip :
  (∀ fs, fs ∈ function_specifications → registry_get (name fs) = Ok fs) ∧
  (∀ n fs, registry_get n = Ok fs → name fs = n ∧ fs ∈ function_specifications) ∧
  (∀ n, (∀ fs, fs ∈ function_specifications → name fs ≠ n) →
        registry_get n = Err (KeyError n)).
Proof.
  assert (Hback : ∀ n fs, registry_get n = Ok fs →
            name fs = n ∧ fs ∈ function_specifications).
  { intros n fs. unfold registry_get.
    destruct (common_interface_functions !! n) as [fs'|] eqn:Hl; [|done].
    intros [= ->]. unfold common_interface_functions in Hl.
    apply foldl_insert_lookup in Hl as [[Hin Hn]|Hl]; [done|].
    by rewrite lookup_empty in Hl. }
  split; [|split; [exact Hback|]].
  - intros fs Hfs. by apply (proj1 (Forall_forall _ _) every_specification_found).
  - intros n Hno. destruct (registry_get n) as [fs|e] eqn:Hr.
    + destruct (Hback n fs Hr) as [Hn Hin]. by destruct (Hno fs Hin).
    + unfold registry_get in *.
      by destruct (common_interface_functions !! n).
Qed.

Lemma tidied_fill :
  Forall (λ fs,
    match signature fs with
    | Signatures.std_unary =>
        tidied_attr (name fs) = Some (TidyStdUnary (name fs)) ∧
        tidied_attr ("tidy_" +:+ name fs) = Some (NotImplementedStub ("tidy_" +:+ name fs))
    | Signatures.std_binary =>
        tidied_attr (name fs) = Some (TidyStdBinary (name fs)) ∧
        tidied_attr ("tidy_" +:+ name fs) = Some (NotImplementedStub ("tidy_" +:+ name fs))
    | Signatures.other_1 =>
        tidied_attr (name fs) = math_attr (name fs) ∧
        tidied_attr ("tidy_" +:+ name fs) = None
    end) function_specifications.
Proof.
  unfold function_specifications.
  repeat (apply Forall_cons_2; [vm_compute; split; reflexivity|]). apply Forall_nil_2.
Qed.

(** X20.  On a tidied library whose own class defines neither the operation
    nor its tidy form, every registered unary or binary operation is the
    unary or binary adapter bound to its name and its tidy form is the
    not-implemented stub; an operation of another signature is what the
    base class has, and has no tidy form. *)
Theorem tidied_library_attributes (l : library) (fs : FunctionSpecification) :
  lib_base l = TidiedFunctionLibrary →
  fs ∈ function_specifications →
  name fs ∉ lib_own l → "tidy_" +:+ name fs ∉ lib_own l →
  match signature fs with
  | Signatures.std_unary =>
      library_getattr l (name fs) = Some (TidyStdUnary (name fs)) ∧
      library_getattr l ("tidy_" +:+ name fs) =
        Some (NotImplementedStub ("tidy_" +:+ name fs))
  | Signatures.std_binary =>
      library_getattr l (name fs) = Some (TidyStdBinary (name fs)) ∧
      library_getattr l ("tidy_" +:+ name fs) =
        Some (NotImplementedStub ("tidy_" +:+ name fs))
  | Signatures.other_1 =>
      library_getattr l (name fs) = math_attr (name fs) ∧
      library_getattr l ("tidy_" +:+ name fs) = None
  end.
Proof.
  intros Hbase Hfs Hown Hown'. unfold library_getattr, in_names.
  rewrite !bool_decide_eq_false_2 by done. rewrite Hbase.
  exact (proj1 (Forall_forall _ _) tidied_fill fs Hfs).
Qed.

Lemma math_fill :
  Forall (λ fs,
    name fs ∈ ["get_dtype"; "get_size"; "shape"] ∨
    math_attr (name fs) = Some (NotImplementedStub (name fs)))
    function_specifications.
Proof.
  unfold function_specifications.
  repeat (apply Forall_cons_2;
          [first [ right; vm_compute; reflexivity
                 | left; repeat first [by left | right] ]|]).
  apply Forall_nil_2.
Qed.

(** X21.  On a library of the base class that defines nothing of its own,
    every registered operation except [get_dtype], [get_size] and [shape]
    raises [NotImplementedError] naming the operation, the class of the
    operand and the library, without calling anything. *)
Theorem base_library_not_implemented (l : library) (fs : FunctionSpecification)
    (x : obj) (w : W) :
  lib_base l = MathFunctionLibrary → lib_own l = [] →
  fs ∈ function_specifications →
  name fs ∉ ["get_dtype"; "get_size"; "shape"] →
  run h (invoke_unary l (name fs) x) w = ([], Err (not_implemented l (name fs) x), w) ∧
  ∀ y, run h (invoke_binary l (name fs) x y) w =
         ([], Err (not_implemented l (name fs) x), w).
Proof.
  intros Hbase Hown Hfs Hname.
  assert (Hattr : library_getattr l (name fs) = Some (NotImplementedStub (name fs))).
  { unfold library_getattr, in_names. rewrite Hown.
    rewrite bool_decide_eq_false_2 by apply not_elem_of_nil. rewrite Hbase.
    destruct (proj1 (Forall_forall _ _) math_fill fs Hfs) as [Hin|Hst];
      [by destruct (Hname Hin)|exact Hst]. }
  unfold invoke_unary, invoke_binary. rewrite Hattr. done.
Qed.

(** X22.  The test for a flag looks at that flag alone: a combination of
    flags has the flag exactly when one of its parts has it, and the three
    flags of the module are independent of each other. *)
Theorem has_flag_of_combination (a b flag : Z) :
  has_flag (a .|. b) flag = has_flag a flag || has_flag b flag ∧
  has_flag Flags.none flag = false ∧
  has_flag Flags.bool_result Flags.bool_result = true ∧
  has_flag Flags.has_numpy_impl Flags.bool_result = false ∧
  has_flag Flags.ints_only Flags.bool_result = false.
Proof.
  split; [|done]. unfold has_flag.
  rewrite Z.land_lor_distr_l.
  destruct (decide (Z.land a flag = 0)) as [Ha|Ha],
           (decide (Z.land b flag = 0)) as [Hb|Hb];
    rewrite ?(bool_decide_eq_false_2 (Z.land a flag ≠ 0)) by tauto;
    rewrite ?(bool_decide_eq_false_2 (Z.land b flag ≠ 0)) by tauto;
    rewrite ?(bool_decide_eq_true_2 (Z.land a flag ≠ 0)) by tauto;
    rewrite ?(bool_decide_eq_true_2 (Z.land b flag ≠ 0)) by tauto;
    simpl.
  - apply bool_decide_eq_false_2. rewrite Ha, Hb. intros Hne. by apply Hne.
  - apply bool_decide_eq_true_2. rewrite Z.lor_eq_0_iff. tauto.
  - apply bool_decide_eq_true_2. rewrite Z.lor_eq_0_iff. tauto.
  - apply bool_decide_eq_true_2. rewrite Z.lor_eq_0_iff. tauto.
Qed.

End RegistryMore.

Section TestLibraryMore.
Import Broadcast Demo.

(** X23.  [TestWrappedLibrary] defines no [reshape], so it has the base
    class's not-implemented stub; hence it cannot work on zero-dimensional
    operands without an output buffer: a unary operation on a
    zero-dimensional array, wrapped or plain, and a binary operation on two
    of them, raise [NotImplementedError] for [reshape] at the first reshape,
    before anything is allocated or written. *)
Theorem test_library_rejects_zero_dimensional (opname : string) (x y : value)
    (w : world) :
  dims x = [] → class_of x ≠ Foreign →
  dims y = [] → class_of y ≠ Foreign →
  let x' := Value TestArrayWrapper (buffer x) [] (elt x) in
  let y' := Value TestArrayWrapper (buffer y) [] (elt y) in
  library_getattr test_library "reshape" = Some (NotImplementedStub "reshape") ∧
  run test_handler (tidy_std_unary test_library opname x None tt) w =
    ([Event (Typeconvert test_library x); Event (Shape test_library x');
      Event (Reshape test_library x' [1])],
     Err (not_implemented test_library "reshape" x'), w) ∧
  run test_handler (tidy_std_binary test_library opname x y None tt) w =
    ([Event (Typeconvert test_library x); Event (Shape test_library x');
      Event (Typeconvert test_library y); Event (Shape test_library y');
      Event (Reshape test_library x' [1])],
     Err (not_implemented test_library "reshape" x'), w).
Proof.
  intros Hx Hcx Hy Hcy x' y'.
  assert (Hconv : ∀ (v : value) w0, dims v = [] → class_of v ≠ Foreign →
            test_handler _ (Typeconvert test_library v) w0 =
              (Ok (Value TestArrayWrapper (buffer v) [] (elt v)), w0)).
  { intros [c b d e] w0 Hd Hc. simpl in Hd. subst d. by destruct c. }
  assert (Hshape : ∀ (v : value) w0,
            test_handler _ (Shape test_library v) w0 = (Ok (dims v), w0)) by done.
  assert (Hreshape : ∀ (v : value) sh w0,
            test_handler _ (Reshape test_library v sh) w0 =
              (Err (not_implemented test_library "reshape" v), w0)) by done.
  split; [vm_compute; reflexivity|]. split.
  - unfold tidy_std_unary.
    rewrite run_bind, (run_do_ok test_handler _ _ _ _ (Hconv x w Hx Hcx)).
    cbn beta iota zeta. fold x'.
    rewrite run_bind, (run_do_ok test_handler _ _ _ _ (Hshape x' w)).
    cbn beta iota zeta. cbn [dims x'].
    rewrite (bool_decide_eq_true_2 ([] = [])) by done. cbn beta iota zeta.
    rewrite run_bind, run_do, Hreshape. reflexivity.
  - unfold tidy_std_binary.
    rewrite run_bind, (run_do_ok test_handler _ _ _ _ (Hconv x w Hx Hcx)).
    cbn beta iota zeta. fold x'.
    rewrite run_bind, (run_do_ok test_handler _ _ _ _ (Hshape x' w)).
    cbn beta iota zeta.
    rewrite run_bind, (run_do_ok test_handler _ _ _ _ (Hconv y w Hy Hcy)).
    cbn beta iota zeta. fold y'.
    rewrite run_bind, (run_do_ok test_handler _ _ _ _ (Hshape y' w)).
    cbn beta iota zeta. cbn [dims x' y'].
    rewrite run_bind, run_lift.
    change (broadcast_shapes [[]; []]) with (@Ok (list Z) []).
    cbn beta iota zeta. rewrite (bool_decide_eq_true_2 ([] = [])) by done.
    rewrite run_bind, run_bind, run_do, Hreshape. reflexivity.
Qed.

End TestLibraryMore.

Section PartialMethodMore.
Import PartialMethod.
Context {F V : Type} (usable : F → bool).

(** X24.  Wrapping a [partialmethod] in another one is flattened so that
    the object stays in front: with [inner] made of [f], [a1], [k1] and
    [outer] made of [inner], [a2], [k2], calling [outer]'s method on
    [(self, *rest)] and keywords [kw] applies [f] to [self], then [a1], then
    [a2], then [rest]; a keyword is taken from [kw] first, then [k2], then
    [k1].  This is the call that [inner]'s method makes on
    [(self, *a2, *rest)] with the keywords of [kw] over [k2]. *)
Theorem partialmethod_flattens (f : F) (a1 a2 rest : list V)
    (k1 k2 kw : gmap string V) (self : V) (inner outer : partialmethod) :
  init usable (inl f) a1 k1 = Ok inner →
  init usable (inr inner) a2 k2 = Ok outer →
  method outer (self :: rest) kw =
    Ok (Apply f (self :: a1 ++ a2 ++ rest) (kw ∪ k2 ∪ k1)) ∧
  method outer (self :: rest) kw = method inner (self :: a2 ++ rest) (kw ∪ k2) ∧
  ∀ key, (kw ∪ k2 ∪ k1) !! key =
           match kw !! key with
           | Some v => Some v
           | None => match k2 !! key with
                     | Some v => Some v
                     | None => k1 !! key
                     end
           end.
Proof.
  unfold init. destruct (usable f); [|done]. intros [= <-] [= <-].
  unfold method. cbn [func args keywords].
  rewrite <- !app_assoc, <- !(assoc_L (∪)). split; [done|]. split; [done|].
  intros key. rewrite !lookup_union.
  by destruct (kw !! key), (k2 !! key), (k1 !! key).
Qed.

End PartialMethodMore.

(** * The further properties at concrete inputs *)

Section FurtherWitnesses.
Import Broadcast Demo.

Ltac script := cbn; repeat (eexists; split; [reflexivity|]); reflexivity.

Ltac members Ho :=
  repeat (apply elem_of_cons in Ho as [->|Ho]; [reflexivity|]);
  by apply elem_of_nil in Ho.




Lemma get_library_for_accepts_all_witness :
  (∀ o : value, accepts numpy_library o = isinstance_numpy_types o) ∧
  (get_library_for [plain_1; wrapped_3]).2 = Ok test_library ∧
  accepts test_library plain_1 = true.
Proof.
  assert (Hnumpy : ∀ o : value, accepts numpy_library o = isinstance_numpy_types o)
    by done.
  split; [exact Hnumpy|]. split; [reflexivity|].
  apply (get_library_for_accepts_all (H:=host) [plain_1; wrapped_3] test_library
           Hnumpy eq_refl).
  by left.
Defined.

Lemma get_library_for_permutation_witness :
  [plain_1; wrapped_3] ≡ₚ [wrapped_3; plain_1] ∧
  is_ok (get_library_for (H:=host) [plain_1; wrapped_3]).2 =
    is_ok (get_library_for (H:=host) [wrapped_3; plain_1]).2.
Proof.
  assert (Hp : [plain_1; wrapped_3] ≡ₚ [wrapped_3; plain_1]) by apply perm_swap.
  split; [exact Hp|].
  exact (proj1 (get_library_for_permutation (H:=host) _ _ Hp)).
Defined.

Lemma tidy_called_once_and_last_witness :
  ∃ t r w', run test_handler
              (tidy_std_binary test_library "add" wrapped_3 plain_1 None tt) w0 =
              (t, r, w') ∧
    ((Forall (λ ev, is_tidy_call ev = false) t ∧ is_ok r = false) ∨
     (∃ pre args, t = pre ++ [Event (Tidy test_library "add" args tt)] ∧
        Forall (λ ev, is_tidy_call ev = false) pre)).
Proof.
  destruct (run test_handler
              (tidy_std_binary (H:=host) test_library "add" wrapped_3 plain_1 None tt) w0)
    as [[t r] w'] eqn:Hrun.
  exists t, r, w'. split; [reflexivity|].
  exact (proj2 (tidy_called_once_and_last (H:=host) test_handler test_library
                  "add" tt None w0) wrapped_3 plain_1 t r w' Hrun).
Defined.

Lemma tidy_with_out_returns_out_witness :
  ∃ t w', run test_handler
            (tidy_std_binary test_library "add" wrapped_3 plain_1 (Some wrapped_3) tt)
            w0 = (t, Ok wrapped_3, w') ∧
    Forall (λ ev, is_new_empty_call ev = false) t.
Proof.
  eexists _, _.
  assert (Hrun : run test_handler
            (tidy_std_binary (H:=host) test_library "add" wrapped_3 plain_1 (Some wrapped_3) tt)
            w0 = (_, Ok wrapped_3, _)) by (vm_compute; reflexivity).
  split; [exact Hrun|].
  exact (proj2 (proj2 (tidy_with_out_returns_out (H:=host) test_handler test_library
                  "add" tt wrapped_3 w0) wrapped_3 plain_1 _ _ _ Hrun)).
Defined.

Lemma tidy_without_out_allocates_once_witness :
  ∃ t v w', run test_handler
              (tidy_std_unary test_library "negative" wrapped_3 None tt) w0 =
              (t, Ok v, w') ∧
    ∃ pre post sh dt,
      t = pre ++ Event (NewEmpty test_library sh dt) :: post ∧
      Forall (λ ev, is_new_empty_call ev = false) (pre ++ post).
Proof.
  eexists _, _, _.
  assert (Hrun : run test_handler
            (tidy_std_unary (H:=host) test_library "negative" wrapped_3 None tt) w0 =
            (_, Ok _, _)) by (vm_compute; reflexivity).
  split; [exact Hrun|].
  exact (proj1 (tidy_without_out_allocates_once (H:=host) test_handler test_library
                  "negative" tt w0) wrapped_3 _ _ _ Hrun).
Defined.

Lemma tidy_unregistered_operation_witness :
  registry_get "mod" = Err (KeyError "mod") ∧
  ∃ t r w', run test_handler
              (tidy_std_unary test_library "mod" wrapped_3 None tt) w0 = (t, r, w') ∧
    is_ok r = false.
Proof.
  assert (Hreg : registry_get "mod" = Err (KeyError "mod")) by (vm_compute; reflexivity).
  split; [exact Hreg|].
  destruct (run test_handler
              (tidy_std_unary (H:=host) test_library "mod" wrapped_3 None tt) w0)
    as [[t r] w'] eqn:Hrun.
  exists t, r, w'. split; [reflexivity|].
  exact (proj1 (proj1 (tidy_unregistered_operation (H:=host) test_handler test_library
                  "mod" tt w0 _ Hreg) wrapped_3 t r w' Hrun)).
Defined.

Lemma tidy_unary_on_itself_witness :
  run test_handler
      (tidy_std_unary test_library "negative" wrapped_3 (Some wrapped_3) tt) w0 =
    ([Event (Typeconvert test_library wrapped_3); Event (Shape test_library wrapped_3);
      Event (Typeconvert test_library wrapped_3); Event (Shape test_library wrapped_3);
      Event (Tidy test_library "negative" [wrapped_3; wrapped_3] tt)],
     Ok wrapped_3, World 10 [0%nat]).
Proof.
  apply (tidy_unary_on_itself (H:=host) test_handler test_library "negative" tt
           wrapped_3 wrapped_3 [3] w0 w0).
  - script.
  - discriminate.
Defined.

Lemma tidy_binary_into_first_witness :
  broadcast_shapes [[1]; [3]] ≠ Ok [1] ∧
  ∃ e, run test_handler
         (tidy_std_binary test_library "add" plain_1 wrapped_3 (Some plain_1) tt) w0 =
       ([Event (Typeconvert test_library plain_1);
         Event (Shape test_library plain_1_wrapped);
         Event (Typeconvert test_library wrapped_3);
         Event (Shape test_library wrapped_3);
         Event (Typeconvert test_library plain_1);
         Event (Shape test_library plain_1_wrapped)],
        Err e, w0).
Proof.
  assert (Hne : broadcast_shapes [[1]; [3]] ≠ Ok [1]) by discriminate.
  split; [exact Hne|].
  destruct (tidy_binary_into_first (H:=host) test_handler test_library "add" tt
              plain_1 wrapped_3 plain_1_wrapped wrapped_3 [1] [3] w0 w0)
    as [Hfail _]; [script|].
  destruct (Hfail Hne) as (e & _ & He). exists e. exact He.
Defined.


Lemma operators_name_registered_operations_witness :
  sub_ ≠ mod_ ∧
  ∃ fl, registry_get "subtract" = Ok (FS "subtract" Signatures.std_binary fl).
Proof.
  split; [discriminate|].
  refine (proj1 operators_name_registered_operations sub_ _).
  discriminate.
Defined.

Lemma registry_round_trip_witness :
  registry_get "hypot" = Ok (FS "hypot" Signatures.std_binary Flags.has_numpy_impl) ∧
  FS "hypot" Signatures.std_binary Flags.has_numpy_impl ∈ function_specifications.
Proof.
  assert (Hget : registry_get "hypot" =
                 Ok (FS "hypot" Signatures.std_binary Flags.has_numpy_impl))
    by (vm_compute; reflexivity).
  split; [exact Hget|].
  exact (proj2 (proj1 (proj2 registry_round_trip) _ _ Hget)).
Defined.

Ltac not_member :=
  let Hin := fresh "Hin" in
  intros Hin;
  repeat (apply elem_of_cons in Hin as [Heq|Hin]; [discriminate Heq|]);
  by apply elem_of_nil in Hin.

Lemma tidied_library_attributes_witness :
  FS "sin" Signatures.std_unary Flags.has_numpy_impl ∈ function_specifications ∧
  library_getattr test_library "sin" = Some (TidyStdUnary "sin") ∧
  library_getattr test_library "tidy_sin" = Some (NotImplementedStub "tidy_sin").
Proof.
  assert (Hin : FS "sin" Signatures.std_unary Flags.has_numpy_impl
                ∈ function_specifications).
  { apply list_elem_of_In. vm_compute. tauto. }
  split; [exact Hin|].
  refine (tidied_library_attributes (H:=host) test_library _ eq_refl Hin _ _);
    not_member.
Defined.

Lemma base_library_not_implemented_witness :
  FS "sin" Signatures.std_unary Flags.has_numpy_impl ∈ function_specifications ∧
  run test_handler
      (invoke_unary (Library "MathFunctionLibrary" MathFunctionLibrary []) "sin"
                    wrapped_3) w0 =
    ([], Err (not_implemented (Library "MathFunctionLibrary" MathFunctionLibrary [])
                "sin" wrapped_3), w0).
Proof.
  assert (Hin : FS "sin" Signatures.std_unary Flags.has_numpy_impl
                ∈ function_specifications).
  { apply list_elem_of_In. vm_compute. tauto. }
  split; [exact Hin|].
  refine (proj1 (base_library_not_implemented (H:=host) test_handler
                   (Library "MathFunctionLibrary" MathFunctionLibrary []) _
                   wrapped_3 w0 eq_refl eq_refl Hin _)).
  not_member.
Defined.

Lemma test_library_rejects_zero_dimensional_witness :
  dims wrapped_0d = [] ∧ class_of wrapped_0d ≠ Foreign ∧
  run test_handler (tidy_std_unary test_library "negative" wrapped_0d None tt) w0 =
    ([Event (Typeconvert test_library wrapped_0d);
      Event (Shape test_library wrapped_0d);
      Event (Reshape test_library wrapped_0d [1])],
     Err (not_implemented test_library "reshape" wrapped_0d), w0).
Proof.
  assert (Hc : class_of wrapped_0d ≠ Foreign) by discriminate.
  split; [reflexivity|]. split; [exact Hc|].
  exact (proj1 (proj2 (test_library_rejects_zero_dimensional "negative"
                         wrapped_0d wrapped_0d w0 eq_refl Hc eq_refl Hc))).
Defined.

Lemma partialmethod_flattens_witness :
  PartialMethod.method (F:=nat) (V:=nat)
      (PartialMethod.Partial 7%nat [1; 2]%nat ({[ "b" := 20%nat ]} ∪ {[ "a" := 10%nat ]}))
      [0; 3]%nat {[ "c" := 30%nat ]} =
    Ok (PartialMethod.Apply 7%nat [0; 1; 2; 3]%nat
          ({[ "c" := 30%nat ]} ∪ {[ "b" := 20%nat ]} ∪ {[ "a" := 10%nat ]})).
Proof.
  exact (proj1 (partialmethod_flattens (λ _ : nat, true) 7%nat [1%nat] [2%nat] [3%nat]
                  {[ "a" := 10%nat ]} {[ "b" := 20%nat ]} {[ "c" := 30%nat ]} 0%nat
                  _ _ eq_refl eq_refl)).
Defined.

Lemma operators_allocate_their_result_witness :
  lib_base test_library = TidiedFunctionLibrary ∧
  (get_library_for (H:=host) [wrapped_3; plain_1]).2 = Ok test_library ∧
  run test_handler (binary add_ wrapped_3 plain_1) w0 =
    run test_handler (tidy_std_binary test_library "add" wrapped_3 plain_1 None tt) w0 ∧
  run test_handler (pow wrapped_3 plain_1 None) w0 =
    run test_handler (tidy_std_binary test_library "power" wrapped_3 plain_1 None tt) w0.
Proof.
  assert (Hl : (get_library_for (H:=host) [wrapped_3; plain_1]).2 = Ok test_library)
    by reflexivity.
  split; [reflexivity|]. split; [exact Hl|].
  destruct (operators_allocate_their_result (H:=host) test_handler test_library
              wrapped_3 plain_1 w0 eq_refl) as (Hbinary & _ & Hpower & _).
  split.
  - refine (proj1 (Hbinary add_ Hl _ _)); [discriminate|not_member].
  - refine (proj1 (Hpower Hl _)). not_member.
Defined.

End FurtherWitnesses.

Section NumpyArrayFurtherWitnesses.
Import Broadcast.
Import NumpyArray (scalar, py_int, np_int64, np_uint64, np_float64, value,
                   python_ints, int64_sizes, is_int64, int64_array, sizes).

Ltac fits :=
  repeat first [ apply Forall_nil_2 | apply Forall_cons_2
               | progress unfold int64_sizes ];
  simpl; lia.

Lemma broadcast_shapes_same_witness :
  int64_sizes [0; 3; 1] ∧
  NumpyArray.broadcast_shapes
    [python_ints [0; 3; 1]; python_ints [0; 3; 1]; python_ints [0; 3; 1]] =
    Ok [np_int64 0; np_int64 3; np_int64 1].
Proof.
  assert (Hs : int64_sizes [0; 3; 1]) by fits.
  split; [exact Hs|]. exact (broadcast_shapes_same [0; 3; 1] 2 Hs).
Defined.

Lemma broadcast_shapes_in_stages_witness :
  Forall int64_sizes [[2; 1]; [3]] ∧ Forall int64_sizes [[4; 1; 1]; [1]] ∧
  NumpyArray.broadcast_shapes [python_ints [2; 1]; python_ints [3]] =
    Ok [np_int64 2; np_int64 3] ∧
  NumpyArray.broadcast_shapes
    [[np_int64 2; np_int64 3]; python_ints [4; 1; 1]; python_ints [1]] =
    NumpyArray.broadcast_shapes
      [python_ints [2; 1]; python_ints [3]; python_ints [4; 1; 1]; python_ints [1]].
Proof.
  assert (H1 : Forall int64_sizes [[2; 1]; [3]]) by fits.
  assert (H2 : Forall int64_sizes [[4; 1; 1]; [1]]) by fits.
  split; [exact H1|]. split; [exact H2|]. split; [reflexivity|].
  exact (broadcast_shapes_in_stages [[2; 1]; [3]] [[4; 1; 1]; [1]]
           [np_int64 2; np_int64 3] H1 H2 eq_refl).
Defined.

Lemma broadcast_shapes_mismatch_persists_witness :
  ([[2]; [3]] : list shape) ≠ [] ∧
  Forall int64_sizes [[1]; [3]; [2]] ∧
  NumpyArray.broadcast_shapes [python_ints [2]; python_ints [3]] =
    Err shape_mismatch ∧
  NumpyArray.broadcast_shapes [python_ints [1]; python_ints [3]; python_ints [2]] =
    Err shape_mismatch.
Proof.
  assert (Hfit : Forall int64_sizes [[1]; [3]; [2]]) by fits.
  split; [done|]. split; [exact Hfit|]. split; [reflexivity|].
  apply (broadcast_shapes_mismatch_persists [[2]; [3]] [[1]; [3]; [2]]
           shape_mismatch); [done|exact Hfit| |reflexivity].
  intros s Hs. apply elem_of_cons in Hs as [->|Hs]; [by do 2 right; left|].
  apply elem_of_cons in Hs as [->|Hs]; [by right; left|].
  by apply elem_of_nil in Hs.
Defined.

End NumpyArrayFurtherWitnesses.
